(** * Maintenance Warden: a shallow embedding of maintenance.go

    The middleware decides per request whether to hand the request to the
    next handler or to answer with a maintenance response taken from a file
    cache, an inline string or a remote maintenance service.

    Go strings and byte slices are byte sequences: [string].  Go [int] values
    that are only compared or passed on are [Z]; [time.Duration] arithmetic
    wraps at 64 bits.  Pointers ([*http.Request], [*url.URL], the header map)
    live in an explicit heap, because [proxyToMaintenanceService] clones a
    request and then mutates the clone.  File system, backend transport, heap
    and the trace of calls form the [World] threaded through an outcome
    monad; a nil dereference is [Panics].

    What the package calls but does not define is modelled by its
    documented behaviour: [strings.HasPrefix] and [strings.HasSuffix],
    [http.Header] with its canonical keys, [http.Error], the writer of the
    host ([http.ResponseWriter]), [os.Stat], [ioutil.ReadFile],
    [Request.Clone] and the reverse proxy of [httputil]; [url.Parse] is a
    parameter.  The read/write lock is left out: one request is handled at a
    time.

    Two writers stand for the host.  [ResponseRecorder] records what a
    handler does to its writer and commits the first status it is given; it
    is what [net/http] does for a status code the writer takes as final.
    [server_response] follows [net/http]'s own writer for every integer:
    the panic of [checkWriteHeaderCode], the informational 1xx responses and
    the statuses that carry no body.  What is stated about the response a
    client is sent is stated for status codes on which the two agree. *)

From Stdlib Require Import ZArith String Ascii List Lia Bool.
From stdpp Require Import gmap strings list.
Import ListNotations.

Open Scope string_scope.
Open Scope Z_scope.

(** ** Byte strings: the [strings] package functions the handler uses *)

(** [len(s)] *)
Definition len (s : string) : nat := String.length s.

(** [s] is not the empty string *)
Definition nonempty (s : string) : bool := negb (String.eqb s EmptyString).

(** [strings.HasPrefix]: [len(s) >= len(prefix) && s[:len(prefix)] == prefix] *)
Definition strings_HasPrefix (s prefix : string) : bool :=
  (len prefix <=? len s)%nat && String.eqb (substring 0 (len prefix) s) prefix.

(** [strings.HasSuffix]:
    [len(s) >= len(suffix) && s[len(s)-len(suffix):] == suffix] *)
Definition strings_HasSuffix (s suffix : string) : bool :=
  (len suffix <=? len s)%nat &&
  String.eqb (substring (len s - len suffix) (len suffix) s) suffix.

(** The line feed appended by [fmt.Fprintln]. *)
Definition LF : string := String (ascii_of_nat 10) EmptyString.

(** ** HTTP headers ([net/http], [net/textproto]) *)

Definition in_range (lo hi c : nat) : bool := (lo <=? c)%nat && (c <=? hi)%nat.

Definition is_lower (c : ascii) : bool := in_range 97 122 (nat_of_ascii c).
Definition is_upper (c : ascii) : bool := in_range 65 90 (nat_of_ascii c).
Definition is_digit (c : ascii) : bool := in_range 48 57 (nat_of_ascii c).

Fixpoint mem_ascii (c : ascii) (s : string) : bool :=
  match s with
  | EmptyString => false
  | String d rest => Ascii.eqb c d || mem_ascii c rest
  end.

(** [validHeaderFieldByte]: the token characters of RFC 7230. *)
Definition validHeaderFieldByte (c : ascii) : bool :=
  is_lower c || is_upper c || is_digit c || mem_ascii c "!#$%&'*+-.^_`|~".

Fixpoint all_bytes (p : ascii -> bool) (s : string) : bool :=
  match s with
  | EmptyString => true
  | String c rest => p c && all_bytes p rest
  end.

(** The rewriting loop of [canonicalMIMEHeaderKey]: upper case at the start
    and after each dash, lower case elsewhere. *)
Fixpoint canonical_loop (upper : bool) (s : string) : string :=
  match s with
  | EmptyString => EmptyString
  | String c rest =>
      let c' :=
        if upper && is_lower c then ascii_of_nat (nat_of_ascii c - 32)
        else if negb upper && is_upper c then ascii_of_nat (nat_of_ascii c + 32)
        else c in
      String c' (canonical_loop (Ascii.eqb c' "-"%char) rest)
  end.

(** [textproto.CanonicalMIMEHeaderKey]: a key holding a byte that is not a
    token character is returned unchanged. *)
Definition CanonicalMIMEHeaderKey (s : string) : string :=
  if all_bytes validHeaderFieldByte s then canonical_loop true s else s.

(** [http.Header] is [map[string][]string]. *)
Abbreviation http_Header := (gmap string (list string)).

(** [Header.Get]: first value under the canonical key, the empty
    string when absent. *)
Definition Header_Get (h : http_Header) (key : string) : string :=
  match h !! CanonicalMIMEHeaderKey key with
  | Some (v :: _) => v
  | _ => EmptyString
  end.

(** [Header.Set]: replaces the values under the canonical key. *)
Definition Header_Set (key value : string) (h : http_Header) : http_Header :=
  <[CanonicalMIMEHeaderKey key := [value]]> h.

(** [Header.Add]: appends to the values under the canonical key. *)
Definition Header_Add (key value : string) (h : http_Header) : http_Header :=
  <[CanonicalMIMEHeaderKey key :=
      match h !! CanonicalMIMEHeaderKey key with
      | Some vs => (vs ++ [value])%list
      | None => [value]
      end]> h.

(** [Header.Del]: removes the values under the canonical key. *)
Definition Header_Del (key : string) (h : http_Header) : http_Header :=
  delete (CanonicalMIMEHeaderKey key) h.

(** ** Errors, time, files *)

(** Go [error] values: errors of the standard library, and the errors built
    by [fmt.Errorf], which may wrap a cause ([%w]). *)
Inductive error : Type :=
| PathError (op path : string)
| url_Error (op rawURL : string)
| TransportError (msg : string)
| Errorf (format : string) (arg : string)
| ErrorfWrap (format : string) (cause : error).

(** [time.Time] as an instant on the time line; the zero [Time] is the
    instant a fresh struct holds. *)
Definition Time := Z.
Definition zeroTime : Time := 0.

(** [t.After(u)] *)
Definition Time_After (t u : Time) : bool := u <? t.

(** What is on disk under a path.  [os.Stat] needs the entry to exist,
    [ioutil.ReadFile] needs a regular file.  [NotReadable] is an entry that
    can be opened but whose bytes cannot be read, a directory for one: the
    read is what fails.  A file that cannot even be opened (permission
    denied) fails in the same place of the code, with another [Op] in the
    error of the library. *)
Inductive FileEntry : Type :=
| NotReadable (ModTime : Time)
| RegularFile (ModTime : Time) (content : string).

Definition entry_ModTime (e : FileEntry) : Time :=
  match e with
  | NotReadable t => t
  | RegularFile t _ => t
  end.

(** ** URLs and requests ([net/url], [net/http]) *)

Record url_URL : Type := mk_URL {
  Scheme : string;
  Host : string;
  Path : string;
  RawQuery : string
}.

Definition loc := positive.

(** [http.Request]: [URL] is a [*url.URL], [Header] a map (a reference). *)
Record http_Request : Type := mk_Request {
  Method : string;
  URL : loc;
  Header : loc;
  req_Host : string
}.

(** What the transport of the reverse proxy gets back from the backend: a
    response with a final status code whose body arrives in full, or an
    error before any response. *)
Inductive RoundTrip : Type :=
| RoundTripResponse (StatusCode : Z) (hdr : list (string * string)) (body : list string)
| RoundTripError (err : error).

(** ** The world, and the trace of calls made in it *)

Definition LogLevel := Z.
Definition LogLevelNone : LogLevel := 0.
Definition LogLevelError : LogLevel := 1.
Definition LogLevelInfo : LogLevel := 2.
Definition LogLevelDebug : LogLevel := 3.

Inductive Event : Type :=
| EvStat (path : string)
| EvReadFile (path : string)
| EvLog (level : LogLevel) (format : string)
| EvNext (req : loc)
| EvServeMaintenanceFile
| EvServeMaintenanceContent
| EvProxyToMaintenanceService
| EvRoundTrip (target : url_URL) (host : string).

Record World : Type := mk_World {
  disk : gmap string FileEntry;
  transport : url_URL -> RoundTrip;
  requests : gmap loc http_Request;
  urls : gmap loc url_URL;
  headers : gmap loc http_Header;
  trace : list Event
}.

Definition set_trace (tr : list Event) (w : World) : World :=
  mk_World (disk w) (transport w) (requests w) (urls w) (headers w) tr.
Definition set_requests (rs : gmap loc http_Request) (w : World) : World :=
  mk_World (disk w) (transport w) rs (urls w) (headers w) (trace w).
Definition set_urls (us : gmap loc url_URL) (w : World) : World :=
  mk_World (disk w) (transport w) (requests w) us (headers w) (trace w).
Definition set_headers (hs : gmap loc http_Header) (w : World) : World :=
  mk_World (disk w) (transport w) (requests w) (urls w) hs (trace w).

(** A computation either returns a value in a new world or panics. *)
Inductive Outcome (A : Type) : Type :=
| Returns (a : A) (w : World)
| Panics (reason : string).
Arguments Returns {A} a w.
Arguments Panics {A} reason.

Definition IO (A : Type) : Type := World -> Outcome A.

Definition ret {A} (a : A) : IO A := fun w => Returns a w.

Definition bind {A B} (c : IO A) (k : A -> IO B) : IO B :=
  fun w =>
    match c w with
    | Returns a w' => k a w'
    | Panics r => Panics r
    end.

Declare Scope io_scope.
Delimit Scope io_scope with io.
Notation "'let*' x := c 'in' k" := (bind c (fun x => k))
  (at level 10, x pattern, c at level 100, k at level 200) : io_scope.
Notation "c ;;; k" := (bind c (fun _ => k))
  (at level 100, k at level 200, right associativity) : io_scope.
Open Scope io_scope.

Definition panic {A} (reason : string) : IO A := fun _ => Panics reason.

(** The world once an event has been appended to its trace. *)
Definition emitted (e : Event) (w : World) : World :=
  set_trace (trace w ++ [e])%list w.

Definition emit (e : Event) : IO unit :=
  fun w => Returns tt (emitted e w).

Definition nil_dereference : string := "invalid memory address or nil pointer dereference".

(** [*p] for the three kinds of heap object *)
Definition load_request (p : loc) : IO http_Request :=
  fun w => match requests w !! p with
           | Some r => Returns r w
           | None => Panics nil_dereference
           end.

Definition load_url (p : loc) : IO url_URL :=
  fun w => match urls w !! p with
           | Some u => Returns u w
           | None => Panics nil_dereference
           end.

Definition load_header (p : loc) : IO http_Header :=
  fun w => match headers w !! p with
           | Some h => Returns h w
           | None => Panics nil_dereference
           end.

(** Allocation: a location not yet in use. *)
Definition new_request (r : http_Request) : IO loc :=
  fun w => let p := fresh (dom (requests w)) in
           Returns p (set_requests (<[p := r]> (requests w)) w).

Definition new_url (u : url_URL) : IO loc :=
  fun w => let p := fresh (dom (urls w)) in
           Returns p (set_urls (<[p := u]> (urls w)) w).

Definition new_header (h : http_Header) : IO loc :=
  fun w => let p := fresh (dom (headers w)) in
           Returns p (set_headers (<[p := h]> (headers w)) w).

(** [*p = u]: a store through a pointer; the pointer must be valid. *)
Definition store_url (p : loc) (u : url_URL) : IO unit :=
  fun w => match urls w !! p with
           | Some _ => Returns tt (set_urls (<[p := u]> (urls w)) w)
           | None => Panics nil_dereference
           end.

Definition store_request (p : loc) (r : http_Request) : IO unit :=
  fun w => match requests w !! p with
           | Some _ => Returns tt (set_requests (<[p := r]> (requests w)) w)
           | None => Panics nil_dereference
           end.

(** [os.Stat]: the modification time of the entry, or a [*PathError]. *)
Definition os_Stat (path : string) : IO (Time + error) :=
  let* _ := emit (EvStat path) in
  fun w => match disk w !! path with
           | Some e => Returns (inl (entry_ModTime e)) w
           | None => Returns (inr (PathError "stat" path)) w
           end.

(** [ioutil.ReadFile]: the bytes of a readable regular file. *)
Definition ioutil_ReadFile (path : string) : IO (string + error) :=
  let* _ := emit (EvReadFile path) in
  fun w => match disk w !! path with
           | Some (RegularFile _ content) => Returns (inl content) w
           | Some (NotReadable _) => Returns (inr (PathError "read" path)) w
           | None => Returns (inr (PathError "open" path)) w
           end.

(** [req.Clone(ctx)]: a new request whose URL and header map are copies. *)
Definition Request_Clone (req : loc) : IO loc :=
  let* r := load_request req in
  let* u := load_url (URL r) in
  let* h := load_header (Header r) in
  let* u2 := new_url u in
  let* h2 := new_header h in
  new_request (mk_Request (Method r) u2 h2 (req_Host r)).

(** [p != nil] for a slice or a pointer *)
Definition not_nil {A} (p : option A) : bool :=
  match p with
  | Some _ => true
  | None => false
  end.

(** ** Response writers *)

(** The [http.ResponseWriter] interface: [Header().Set], [Header().Add],
    [Header().Del], [WriteHeader] and [Write] (the byte count and error
    [Write] returns are not used by the handler). *)
Class http_ResponseWriter (W : Type) : Type := {
  rw_Header_Set : string -> string -> W -> W;
  rw_Header_Add : string -> string -> W -> W;
  rw_Header_Del : string -> W -> W;
  WriteHeader : Z -> W -> W;
  Write : string -> W -> W
}.

(** [checkWriteHeaderCode]: the codes [WriteHeader] takes; it panics on any
    other. *)
Definition checkWriteHeaderCode (code : Z) : bool := (100 <=? code) && (code <=? 999).

(** The 1xx codes [WriteHeader] sends as an informational response, after
    which the status is still to be committed; 101 is a final status. *)
Definition informational (code : Z) : bool :=
  (100 <=? code) && (code <=? 199) && negb (code =? 101).


(** [bodyAllowedForStatus] *)
Definition bodyAllowedForStatus (status : Z) : bool :=
  negb ((100 <=? status) && (status <=? 199)) &&
  negb (status =? 204) && negb (status =? 304).

(** A status code that is committed and followed by the body: 200 to 999,
    204 and 304 apart. *)
Definition answers_with_body (code : Z) : bool :=
  checkWriteHeaderCode code && bodyAllowedForStatus code.

(** The writer the host hands to the middleware, as the interface documents
    it: the first [WriteHeader] commits the status line together with the
    headers set so far, later ones are ignored, and a [Write] before any
    [WriteHeader] commits 200.  [statusCalls] lists the code of every
    [WriteHeader] call the writer received.  The recorder takes every
    integer for a status and keeps every byte written; the writers of
    [net/http] do so for the codes of [answers_with_body], see
    [server_response] for the others.  At a commit through [Write] they also
    fill in a missing Content-Type from the bytes; the middleware calls
    [WriteHeader] before every [Write], so that the recorder leaves this
    out. *)
Record ResponseRecorder : Type := mk_Recorder {
  HeaderMap : http_Header;
  wroteHeader : bool;
  Code : Z;
  sentHeader : http_Header;
  Body : string;
  statusCalls : list Z
}.

Definition http_StatusOK : Z := 200.
Definition http_StatusServiceUnavailable : Z := 503.

Definition NewRecorder (h : http_Header) : ResponseRecorder :=
  mk_Recorder h false http_StatusOK h EmptyString [].

Definition commit (code : Z) (r : ResponseRecorder) : ResponseRecorder :=
  if wroteHeader r then r
  else mk_Recorder (HeaderMap r) true code (HeaderMap r) (Body r) (statusCalls r).

Definition Recorder_WriteHeader (code : Z) (r : ResponseRecorder) : ResponseRecorder :=
  let r := commit code r in
  mk_Recorder (HeaderMap r) (wroteHeader r) (Code r) (sentHeader r) (Body r)
              (statusCalls r ++ [code])%list.

Definition Recorder_Write (b : string) (r : ResponseRecorder) : ResponseRecorder :=
  let r := commit http_StatusOK r in
  mk_Recorder (HeaderMap r) (wroteHeader r) (Code r) (sentHeader r) (Body r ++ b)
              (statusCalls r).

Definition Recorder_update_Header (f : http_Header -> http_Header)
    (r : ResponseRecorder) : ResponseRecorder :=
  mk_Recorder (f (HeaderMap r)) (wroteHeader r) (Code r) (sentHeader r) (Body r)
              (statusCalls r).

#[export] Instance Recorder_ResponseWriter : http_ResponseWriter ResponseRecorder := {
  rw_Header_Set k v := Recorder_update_Header (Header_Set k v);
  rw_Header_Add k v := Recorder_update_Header (Header_Add k v);
  rw_Header_Del k := Recorder_update_Header (Header_Del k);
  WriteHeader := Recorder_WriteHeader;
  Write := Recorder_Write
}.

(** The status line the client has been sent, if any. *)
Definition committed (r : ResponseRecorder) : option Z :=
  if wroteHeader r then Some (Code r) else None.

(** [maintenanceResponseWriter]: the embedded writer, the status code to
    force and the [headerSet] flag. *)
Record maintenanceResponseWriter (W : Type) : Type := mk_maintenanceResponseWriter {
  w_ResponseWriter : W;
  w_statusCode : Z;
  w_headerSet : bool
}.
Arguments mk_maintenanceResponseWriter {W} _ _ _.
Arguments w_ResponseWriter {W} _.
Arguments w_statusCode {W} _.
Arguments w_headerSet {W} _.

Section Wrapper.
Context {W : Type} `{http_ResponseWriter W}.

(** [func (w *maintenanceResponseWriter) WriteHeader(statusCode int)] *)
Definition maintenance_WriteHeader (statusCode : Z)
    (w : maintenanceResponseWriter W) : maintenanceResponseWriter W :=
  if negb (w_headerSet w) then
    mk_maintenanceResponseWriter
      (WriteHeader (w_statusCode w) (w_ResponseWriter w)) (w_statusCode w) true
  else w.

(** [func (w *maintenanceResponseWriter) Write(b []byte) (int, error)] *)
Definition maintenance_Write (b : string)
    (w : maintenanceResponseWriter W) : maintenanceResponseWriter W :=
  let w := if negb (w_headerSet w)
           then maintenance_WriteHeader (w_statusCode w) w else w in
  mk_maintenanceResponseWriter
    (Write b (w_ResponseWriter w)) (w_statusCode w) (w_headerSet w).

(** [Header()] is promoted from the embedded writer. *)
Definition maintenance_update (f : W -> W)
    (w : maintenanceResponseWriter W) : maintenanceResponseWriter W :=
  mk_maintenanceResponseWriter (f (w_ResponseWriter w)) (w_statusCode w) (w_headerSet w).

#[export] Instance maintenance_ResponseWriter :
    http_ResponseWriter (maintenanceResponseWriter W) := {
  rw_Header_Set k v := maintenance_update (rw_Header_Set k v);
  rw_Header_Add k v := maintenance_update (rw_Header_Add k v);
  rw_Header_Del k := maintenance_update (rw_Header_Del k);
  WriteHeader := maintenance_WriteHeader;
  Write := maintenance_Write
}.
End Wrapper.

(** The writer of [net/http]'s server ([response]), for every status code.
    [WriteHeader] is ignored once a status is committed; it panics on a code
    [checkWriteHeaderCode] refuses; it sends an informational code at once,
    with the headers set so far, and leaves the status to be committed; any
    other code is committed.  [Write] commits 200 when nothing is committed,
    and drops the bytes when the status allows no body.  A panic unwinds the
    handler, so no later call reaches the writer: [panicked] is set and
    every later call leaves the writer as it is. *)
Record server_response : Type := mk_response {
  handlerHeader : http_Header;
  response_wroteHeader : bool;
  response_status : Z;
  response_interim : list Z;
  response_sent : http_Header;
  response_body : string;
  panicked : option string
}.

Definition new_response (h : http_Header) : server_response :=
  mk_response h false 0 [] empty EmptyString None.

Definition invalid_WriteHeader_code : string := "invalid WriteHeader code".

Definition response_WriteHeader (code : Z) (r : server_response) : server_response :=
  if not_nil (panicked r) then r
  else if response_wroteHeader r then r
  else if negb (checkWriteHeaderCode code) then
    mk_response (handlerHeader r) (response_wroteHeader r) (response_status r)
                (response_interim r) (response_sent r) (response_body r)
                (Some invalid_WriteHeader_code)
  else if informational code then
    mk_response (handlerHeader r) false (response_status r)
                (response_interim r ++ [code])%list (response_sent r) (response_body r) None
  else
    mk_response (handlerHeader r) true code (response_interim r) (handlerHeader r)
                (response_body r) None.

Definition response_Write (b : string) (r : server_response) : server_response :=
  if not_nil (panicked r) then r
  else
    let r := if response_wroteHeader r then r else response_WriteHeader http_StatusOK r in
    if bodyAllowedForStatus (response_status r) then
      mk_response (handlerHeader r) (response_wroteHeader r) (response_status r)
                  (response_interim r) (response_sent r) (response_body r ++ b) (panicked r)
    else r.

Definition response_update_Header (f : http_Header -> http_Header)
    (r : server_response) : server_response :=
  if not_nil (panicked r) then r
  else mk_response (f (handlerHeader r)) (response_wroteHeader r) (response_status r)
                   (response_interim r) (response_sent r) (response_body r) (panicked r).

#[export] Instance server_ResponseWriter : http_ResponseWriter server_response := {
  rw_Header_Set k v := response_update_Header (Header_Set k v);
  rw_Header_Add k v := response_update_Header (Header_Add k v);
  rw_Header_Del k := response_update_Header (Header_Del k);
  WriteHeader := response_WriteHeader;
  Write := response_Write
}.

(** The final status line the client has been sent, if any. *)
Definition response_committed (r : server_response) : option Z :=
  if response_wroteHeader r then Some (response_status r) else None.

(** [http.Error]: Content-Length removed (since Go 1.23), plain-text content
    type, the status code, then the message and a line feed. *)
Definition http_Error {W} `{http_ResponseWriter W} (w : W) (msg : string) (code : Z) : W :=
  let w := rw_Header_Del "Content-Length" w in
  let w := rw_Header_Set "Content-Type" "text/plain; charset=utf-8" w in
  let w := rw_Header_Set "X-Content-Type-Options" "nosniff" w in
  let w := WriteHeader code w in
  Write (msg ++ LF) w.

(** [Write] called once per chunk. *)
Definition write_all {W} `{http_ResponseWriter W} (chunks : list string) (w : W) : W :=
  fold_left (fun w b => Write b w) chunks w.

(** ** Configuration and the middleware *)

Module Config.
(** [type Config struct] *)
Record t : Type := mk {
  MaintenanceService : string;
  MaintenanceFilePath : string;
  MaintenanceContent : string;
  BypassHeader : string;
  BypassHeaderValue : string;
  Enabled : bool;
  StatusCode : Z;
  BypassPaths : list string;
  BypassFavicon : bool;
  LogLevel : Z;
  MaintenanceTimeout : Z;
  ContentType : string
}.
End Config.

(** [CreateConfig] *)
Definition CreateConfig : Config.t :=
  Config.mk EmptyString EmptyString EmptyString
            "X-Maintenance-Bypass" "true" true 503 [] true LogLevelError 10
            "text/html; charset=utf-8".

(** An [http.Handler] outside this package: it sees the request through the
    heap and writes to the writer it is given. *)
Definition Handler : Type := loc -> World -> ResponseRecorder -> ResponseRecorder.

(** [type MaintenanceBypass struct]; [maintenanceService] is a pointer that
    stays nil outside remote mode, [maintenanceFileContent] a slice that is
    nil until the first load.  The mutex and the logger are not fields here:
    requests are handled one at a time and log lines go to the trace. *)
Record MaintenanceBypass : Type := mk_MaintenanceBypass {
  next : Handler;
  maintenanceService : option url_URL;
  maintenanceFilePath : string;
  maintenanceFileContent : option string;
  maintenanceContent : string;
  maintenanceFileLastMod : Time;
  bypassHeader : string;
  bypassHeaderValue : string;
  enabled : bool;
  statusCode : Z;
  bypassPaths : list string;
  bypassFavicon : bool;
  name : string;
  logLevel : LogLevel;
  timeout : Z;
  contentType : string
}.

(** The two assignments that end a successful load. *)
Definition set_file_cache (content : string) (modTime : Time)
    (m : MaintenanceBypass) : MaintenanceBypass :=
  mk_MaintenanceBypass (next m) (maintenanceService m) (maintenanceFilePath m)
    (Some content) (maintenanceContent m) modTime (bypassHeader m)
    (bypassHeaderValue m) (enabled m) (statusCode m) (bypassPaths m)
    (bypassFavicon m) (name m) (logLevel m) (timeout m) (contentType m).

(** [m.maintenanceService = maintenanceURL; m.timeout = timeout] *)
Definition set_service (u : url_URL) (t : Z) (m : MaintenanceBypass) : MaintenanceBypass :=
  mk_MaintenanceBypass (next m) (Some u) (maintenanceFilePath m)
    (maintenanceFileContent m) (maintenanceContent m) (maintenanceFileLastMod m)
    (bypassHeader m) (bypassHeaderValue m) (enabled m) (statusCode m)
    (bypassPaths m) (bypassFavicon m) (name m) (logLevel m) t (contentType m).

(** [func (m *MaintenanceBypass) log(level LogLevel, format string, v ...)]:
    the line is recorded by its level and format string. *)
Definition log (m : MaintenanceBypass) (level : LogLevel) (format : string) : IO unit :=
  if level <=? logLevel m then emit (EvLog level format) else ret tt.

(** The lines [log] lets through at the level of [m], and the world that
    holds them. *)
Definition log_events (m : MaintenanceBypass) (level : LogLevel) (format : string)
    : list Event :=
  if level <=? logLevel m then [EvLog level format] else [].

Definition logged (m : MaintenanceBypass) (level : LogLevel) (format : string)
    (w : World) : World :=
  set_trace (trace w ++ log_events m level format)%list w.

(** [func (m *MaintenanceBypass) loadMaintenanceFile() error]; the receiver
    is returned with the result, [None] being the nil error. *)
Definition loadMaintenanceFile (m : MaintenanceBypass) : IO (MaintenanceBypass * option error) :=
  let* fileInfo := os_Stat (maintenanceFilePath m) in
  match fileInfo with
  | inr err => ret (m, Some (ErrorfWrap "error accessing maintenance file: %w" err))
  | inl modTime =>
      if not_nil (maintenanceFileContent m) &&
         negb (Time_After modTime (maintenanceFileLastMod m))
      then ret (m, None)
      else
        let* content := ioutil_ReadFile (maintenanceFilePath m) in
        match content with
        | inr err => ret (m, Some (ErrorfWrap "error reading maintenance file: %w" err))
        | inl content =>
            if (len content =? 0)%nat
            then ret (m, Some (Errorf "maintenance file is empty: %s" (maintenanceFilePath m)))
            else
              let m := set_file_cache content modTime m in
              log m LogLevelInfo "Loaded maintenance file: %s (%d bytes)" ;;;
              ret (m, None)
        end
  end.

(** [time.Duration] arithmetic is on [int64]. *)
Definition wrap64 (z : Z) : Z := (z + 2 ^ 63) mod 2 ^ 64 - 2 ^ 63.
Definition time_Second : Z := 1000000000.

(** The instance [New] creates before it looks at the content sources:
    status code and content type with their defaults, the other settings as
    configured, nothing cached and no remote target. *)
Definition new_middleware (next : Handler) (config : Config.t) (name : string)
    : MaintenanceBypass :=
  let statusCode := Config.StatusCode config in
  let statusCode := if statusCode =? 0 then http_StatusServiceUnavailable else statusCode in
  let contentType := Config.ContentType config in
  let contentType :=
    if String.eqb contentType EmptyString then "text/html; charset=utf-8" else contentType in
  mk_MaintenanceBypass next None (Config.MaintenanceFilePath config) None
    (Config.MaintenanceContent config) zeroTime
    (Config.BypassHeader config) (Config.BypassHeaderValue config)
    (Config.Enabled config) statusCode (Config.BypassPaths config)
    (Config.BypassFavicon config) name (Config.LogLevel config) 0 contentType.

Definition no_source_error : error :=
  Errorf "either maintenanceService, maintenanceFilePath, or maintenanceContent must be specified"
         EmptyString.

Section Construction.
(** [url.Parse], of the standard library. *)
Variable url_Parse : string -> url_URL + error.

(** [func New(ctx, next, config, name) (http.Handler, error)] *)
Definition New (next : Handler) (config : Config.t) (name : string)
    : IO (MaintenanceBypass + error) :=
  let m := new_middleware next config name in
  if nonempty (Config.MaintenanceFilePath config) then
    let* r := loadMaintenanceFile m in
    match r with
    | (_, Some err) => ret (inr (ErrorfWrap "failed to load maintenance file: %w" err))
    | (m, None) => ret (inl m)
    end
  else if nonempty (Config.MaintenanceContent config) then
    log m LogLevelInfo "Using provided maintenance content (%d bytes)" ;;;
    ret (inl m)
  else if nonempty (Config.MaintenanceService config) then
    match url_Parse (Config.MaintenanceService config) with
    | inr err => ret (inr (ErrorfWrap "invalid maintenance service URL: %w" err))
    | inl maintenanceURL =>
        if String.eqb (Scheme maintenanceURL) EmptyString ||
           String.eqb (Host maintenanceURL) EmptyString
        then ret (inr (Errorf "maintenance service URL must include scheme and host"
                              EmptyString))
        else
          let timeout := wrap64 (wrap64 (Config.MaintenanceTimeout config) * time_Second) in
          let timeout := if timeout =? 0 then wrap64 (10 * time_Second) else timeout in
          ret (inl (set_service maintenanceURL timeout m))
    end
  else
    ret (inr no_source_error).
End Construction.

(** ** Serving a request *)

(** [req.URL] and [req.Header], dereferenced *)
Definition req_URL (req : loc) : IO url_URL :=
  let* r := load_request req in load_url (URL r).

Definition req_Header (req : loc) : IO http_Header :=
  let* r := load_request req in load_header (Header r).

(** [m.next.ServeHTTP(rw, req)] *)
Definition next_ServeHTTP (m : MaintenanceBypass) (rw : ResponseRecorder) (req : loc)
    : IO ResponseRecorder :=
  emit (EvNext req) ;;;
  fun w => Returns (next m req w rw) w.

(** [func (m *MaintenanceBypass) serveMaintenanceFile(rw, req)] *)
Definition serveMaintenanceFile {W} `{http_ResponseWriter W}
    (m : MaintenanceBypass) (rw : W) (req : loc) : IO (MaintenanceBypass * W) :=
  emit EvServeMaintenanceFile ;;;
  let* r := loadMaintenanceFile m in
  match r with
  | (m, Some err) =>
      log m LogLevelError "Failed to load maintenance file: %v" ;;;
      let rw := rw_Header_Set "X-Maintenance-Mode" "true" rw in
      ret (m, http_Error rw "Service Temporarily Unavailable" (statusCode m))
  | (m, None) =>
      let content := default EmptyString (maintenanceFileContent m) in
      let rw := rw_Header_Set "Content-Type" (contentType m) rw in
      let rw := rw_Header_Set "Cache-Control" "no-cache, no-store, must-revalidate" rw in
      let rw := rw_Header_Set "X-Maintenance-Mode" "true" rw in
      let rw := WriteHeader (statusCode m) rw in
      ret (m, Write content rw)
  end.

(** [func (m *MaintenanceBypass) serveMaintenanceContent(rw, req)] *)
Definition serveMaintenanceContent {W} `{http_ResponseWriter W}
    (m : MaintenanceBypass) (rw : W) (req : loc) : IO W :=
  emit EvServeMaintenanceContent ;;;
  let rw := rw_Header_Set "Content-Type" (contentType m) rw in
  let rw := rw_Header_Set "Cache-Control" "no-cache, no-store, must-revalidate" rw in
  let rw := rw_Header_Set "X-Maintenance-Mode" "true" rw in
  let rw := WriteHeader (statusCode m) rw in
  ret (Write (maintenanceContent m) rw).

(** [singleJoiningSlash] of [httputil] *)
Definition singleJoiningSlash (a b : string) : string :=
  let aslash := strings_HasSuffix a "/" in
  let bslash := strings_HasPrefix b "/" in
  if aslash && bslash then a ++ substring 1 (len b - 1) b
  else if negb aslash && negb bslash then a ++ "/" ++ b
  else a ++ b.

(** [rewriteRequestURL], the Director of [NewSingleHostReverseProxy]: scheme
    and host of the target, the two paths joined, the two queries joined
    (paths are taken to be their own escaped form: no [RawPath]). *)
Definition rewriteRequestURL (target u : url_URL) : url_URL :=
  mk_URL (Scheme target) (Host target)
    (singleJoiningSlash (Path target) (Path u))
    (if String.eqb (RawQuery target) EmptyString || String.eqb (RawQuery u) EmptyString
     then RawQuery target ++ RawQuery u
     else RawQuery target ++ "&" ++ RawQuery u).

(** [httputil.ReverseProxy.ServeHTTP], of the standard library, seen from
    the writer: the request it is handed is read ([EvRoundTrip] records its
    URL and host), the [Director] rewrites the URL of the outbound copy, and
    the transport is asked for that URL; a response is relayed as its
    headers, its status code and its body chunks, a transport error goes to
    the [ErrorHandler]. *)
Definition ReverseProxy_ServeHTTP {W} `{http_ResponseWriter W}
    (Director : url_URL -> url_URL)
    (ErrorHandler : W -> loc -> error -> IO W) (rw : W) (req : loc) : IO W :=
  let* r := load_request req in
  let* u := load_url (URL r) in
  emit (EvRoundTrip u (req_Host r)) ;;;
  fun w =>
    match transport w (Director u) with
    | RoundTripResponse code hdr chunks =>
        let rw := fold_left (fun rw kv => rw_Header_Add (fst kv) (snd kv) rw) hdr rw in
        let rw := WriteHeader code rw in
        Returns (write_all chunks rw) w
    | RoundTripError err => ErrorHandler rw req err w
    end.

(** [func (m *MaintenanceBypass) proxyToMaintenanceService(rw, req)] *)
Definition proxyToMaintenanceService {W} `{http_ResponseWriter W}
    (m : MaintenanceBypass) (rw : W) (req : loc) : IO W :=
  emit EvProxyToMaintenanceService ;;;
  let maintenanceWriter := mk_maintenanceResponseWriter rw (statusCode m) false in
  match maintenanceService m with
  | None => panic nil_dereference
  | Some target =>
      let ErrorHandler :=
        fun (rw : maintenanceResponseWriter W) (req : loc) (err : error) =>
          log m LogLevelError "Error proxying to maintenance service: %v" ;;;
          let rw := rw_Header_Set "X-Maintenance-Mode" "true" rw in
          let rw := WriteHeader (statusCode m) rw in
          ret (Write "Service temporarily unavailable" rw) in
      let* proxyReq := Request_Clone req in
      (* proxyReq.URL.Host = m.maintenanceService.Host *)
      let* pr := load_request proxyReq in
      let* u := load_url (URL pr) in
      store_url (URL pr) (mk_URL (Scheme u) (Host target) (Path u) (RawQuery u)) ;;;
      (* proxyReq.URL.Scheme = m.maintenanceService.Scheme *)
      let* pr := load_request proxyReq in
      let* u := load_url (URL pr) in
      store_url (URL pr) (mk_URL (Scheme target) (Host u) (Path u) (RawQuery u)) ;;;
      (* proxyReq.Host = m.maintenanceService.Host *)
      let* pr := load_request proxyReq in
      store_request proxyReq (mk_Request (Method pr) (URL pr) (Header pr) (Host target)) ;;;
      let* maintenanceWriter :=
        ReverseProxy_ServeHTTP (rewriteRequestURL target) ErrorHandler
          maintenanceWriter proxyReq in
      ret (w_ResponseWriter maintenanceWriter)
  end.

(** The [for _, path := range m.bypassPaths] loop of [ServeHTTP]; [Some] is
    the [return] inside the loop, [None] is falling out of it. *)
Fixpoint bypassPaths_loop (m : MaintenanceBypass) (rw : ResponseRecorder) (req : loc)
    (paths : list string) : IO (option ResponseRecorder) :=
  match paths with
  | [] => ret None
  | path :: rest =>
      let* u := req_URL req in
      if strings_HasPrefix (Path u) path then
        log m LogLevelDebug "Request path %s matches bypass path %s, passing through" ;;;
        let* rw := next_ServeHTTP m rw req in
        ret (Some rw)
      else bypassPaths_loop m rw req rest
  end.

(** [func (m *MaintenanceBypass) ServeHTTP(rw, req)] *)
Definition ServeHTTP (m : MaintenanceBypass) (rw : ResponseRecorder) (req : loc)
    : IO (MaintenanceBypass * ResponseRecorder) :=
  if negb (enabled m) then
    let* _ := req_URL req in
    log m LogLevelDebug "Maintenance mode is disabled, passing request through: %s" ;;;
    let* rw := next_ServeHTTP m rw req in
    ret (m, rw)
  else
    let* favicon :=
      (if bypassFavicon m
       then let* u := req_URL req in ret (strings_HasSuffix (Path u) "/favicon.ico")
       else ret false) in
    if favicon then
      let* _ := req_URL req in
      log m LogLevelDebug "Request is for favicon.ico, bypassing maintenance mode: %s" ;;;
      let* rw := next_ServeHTTP m rw req in
      ret (m, rw)
    else
      let* returned := bypassPaths_loop m rw req (bypassPaths m) in
      match returned with
      | Some rw => ret (m, rw)
      | None =>
          let* h := req_Header req in
          let headerValue := Header_Get h (bypassHeader m) in
          if String.eqb headerValue (bypassHeaderValue m) then
            log m LogLevelDebug "Bypass header found with value %s, passing to next handler" ;;;
            let* rw := next_ServeHTTP m rw req in
            ret (m, rw)
          else
            let* _ := req_URL req in
            log m LogLevelInfo "No bypass condition met for %s, serving maintenance page" ;;;
            let rw := rw_Header_Set "Retry-After" "3600" rw in
            let rw := rw_Header_Set "X-Maintenance-Mode" "true" rw in
            if nonempty (maintenanceFilePath m) then
              serveMaintenanceFile m rw req
            else if nonempty (maintenanceContent m) then
              let* rw := serveMaintenanceContent m rw req in
              ret (m, rw)
            else
              let* rw := proxyToMaintenanceService m rw req in
              ret (m, rw)
      end.

(** ** What a trace says about a request *)

(** The collaborators [ServeHTTP] may hand a request to. *)
Inductive Invocation : Type :=
| NextHandler
| MaintenanceFile
| MaintenanceInline
| MaintenanceRemote.

Definition invocation_of (e : Event) : option Invocation :=
  match e with
  | EvNext _ => Some NextHandler
  | EvServeMaintenanceFile => Some MaintenanceFile
  | EvServeMaintenanceContent => Some MaintenanceInline
  | EvProxyToMaintenanceService => Some MaintenanceRemote
  | _ => None
  end.

Definition invocations (tr : list Event) : list Invocation := omap invocation_of tr.

Definition is_maintenance (i : Invocation) : bool :=
  match i with
  | NextHandler => false
  | _ => true
  end.

(** The files read, in order. *)
Definition reads (tr : list Event) : list string :=
  omap (fun e => match e with EvReadFile p => Some p | _ => None end) tr.

(** [req] points to a request whose URL and header map are allocated. *)
Definition valid_request (w : World) (req : loc) (r : http_Request)
    (u : url_URL) (h : http_Header) : Prop :=
  requests w !! req = Some r /\ urls w !! URL r = Some u /\ headers w !! Header r = Some h.

(** A middleware whose remote target is set whenever the remote branch is
    the one [ServeHTTP] would take. *)
Definition well_formed (m : MaintenanceBypass) : bool :=
  nonempty (maintenanceFilePath m) || nonempty (maintenanceContent m) ||
  not_nil (maintenanceService m).

(** The maintenance path [ServeHTTP] takes for [m]. *)
Definition maintenance_path (m : MaintenanceBypass) : Invocation :=
  if nonempty (maintenanceFilePath m) then MaintenanceFile
  else if nonempty (maintenanceContent m) then MaintenanceInline
  else MaintenanceRemote.

(** What reaches a writer handed to the reverse proxy of
    [proxyToMaintenanceService], for each answer of the backend: the relayed
    response, or the calls of the error handler. *)
Definition relayed {W} `{http_ResponseWriter W} (statusCode : Z) (outcome : RoundTrip)
    (rw : W) : W :=
  match outcome with
  | RoundTripResponse code hdr chunks =>
      let rw := fold_left (fun rw kv => rw_Header_Add (fst kv) (snd kv) rw) hdr rw in
      write_all chunks (WriteHeader code rw)
  | RoundTripError _ =>
      let rw := rw_Header_Set "X-Maintenance-Mode" "true" rw in
      Write "Service temporarily unavailable" (WriteHeader statusCode rw)
  end.

(** The URL of the request the proxy is handed: scheme and host of the
    target, the rest of the inbound URL. *)
Definition forwarded_URL (target u : url_URL) : url_URL :=
  mk_URL (Scheme target) (Host target) (Path u) (RawQuery u).

(** The URL the transport is asked for: the URL the proxy is handed, as the
    Director rewrites it. *)
Definition outbound_URL (target u : url_URL) : url_URL :=
  rewriteRequestURL target (forwarded_URL target u).

(** ** Reference definitions, in the words of the specification *)

(** The rule that lets a request through. *)
Inductive BypassRule : Type :=
| RuleDisabled
| RuleFavicon
| RulePathPrefix (prefix : string)
| RuleHeader.

(** The bypass evaluator: the rules in their order, the first one that holds
    decides. *)
Definition firstBypassRule (m : MaintenanceBypass) (path : string) (h : http_Header)
    : option BypassRule :=
  if negb (enabled m) then Some RuleDisabled
  else if bypassFavicon m && strings_HasSuffix path "/favicon.ico" then Some RuleFavicon
  else match find (strings_HasPrefix path) (bypassPaths m) with
       | Some prefix => Some (RulePathPrefix prefix)
       | None =>
           if String.eqb (Header_Get h (bypassHeader m)) (bypassHeaderValue m)
           then Some RuleHeader
           else None
       end.

(** [shouldBypass(config, request) -> bool], rule after rule. *)
Definition shouldBypass (m : MaintenanceBypass) (path : string) (h : http_Header) : bool :=
  if negb (enabled m) then true
  else if bypassFavicon m && strings_HasSuffix path "/favicon.ico" then true
  else if existsb (strings_HasPrefix path) (bypassPaths m) then true
  else if String.eqb (Header_Get h (bypassHeader m)) (bypassHeaderValue m) then true
  else false.

(** The debug line that records which rule fired. *)
Definition rule_format (rule : BypassRule) : string :=
  match rule with
  | RuleDisabled => "Maintenance mode is disabled, passing request through: %s"
  | RuleFavicon => "Request is for favicon.ico, bypassing maintenance mode: %s"
  | RulePathPrefix _ => "Request path %s matches bypass path %s, passing through"
  | RuleHeader => "Bypass header found with value %s, passing to next handler"
  end.

(** The content source that prevails: file, then inline, then remote. *)
Inductive ContentSource : Type :=
| SourceFile
| SourceInline
| SourceRemote.

Definition prevailing_source (file inline remote : string) : option ContentSource :=
  if nonempty file then Some SourceFile
  else if nonempty inline then Some SourceInline
  else if nonempty remote then Some SourceRemote
  else None.

(** How many of the three content sources are given. *)
Definition sources_given (config : Config.t) : nat :=
  (Nat.b2n (nonempty (Config.MaintenanceFilePath config)) +
   Nat.b2n (nonempty (Config.MaintenanceContent config)) +
   Nat.b2n (nonempty (Config.MaintenanceService config)))%nat.

(** The calls a handler makes on the writer it is given. *)
Inductive WriterCall : Type :=
| CallWriteHeader (statusCode : Z)
| CallWrite (b : string).

Definition apply_call {W} `{http_ResponseWriter W} (w : W) (c : WriterCall) : W :=
  match c with
  | CallWriteHeader code => WriteHeader code w
  | CallWrite b => Write b w
  end.

Definition apply_calls {W} `{http_ResponseWriter W} (calls : list WriterCall) (w : W) : W :=
  fold_left apply_call calls w.

(** The byte slices of the [Write] calls, in order, and their concatenation. *)
Definition payloads (calls : list WriterCall) : list string :=
  omap (fun c => match c with CallWrite b => Some b | CallWriteHeader _ => None end) calls.

Definition joined (chunks : list string) : string :=
  fold_right String.append EmptyString chunks.

Definition written (calls : list WriterCall) : string := joined (payloads calls).

(** The bytes of the regular file under a path, if there is one. *)
Definition file_bytes (w : World) (path : string) : option string :=
  match disk w !! path with
  | Some (RegularFile _ content) => Some content
  | _ => None
  end.

(** The file under a path can be loaded: it is a readable regular file
    that is not empty. *)
Definition file_loads (w : World) (path : string) : bool :=
  match file_bytes w path with
  | Some content => negb (len content =? 0)%nat
  | None => false
  end.

(** Whether the content source that prevails passes its validation. *)
Definition source_validates (url_Parse : string -> url_URL + error)
    (config : Config.t) (w : World) : bool :=
  match prevailing_source (Config.MaintenanceFilePath config)
          (Config.MaintenanceContent config) (Config.MaintenanceService config) with
  | Some SourceFile => file_loads w (Config.MaintenanceFilePath config)
  | Some SourceInline => true
  | Some SourceRemote =>
      match url_Parse (Config.MaintenanceService config) with
      | inl maintenanceURL =>
          nonempty (Scheme maintenanceURL) && nonempty (Host maintenanceURL)
      | inr _ => false
      end
  | None => false
  end.

Definition source_path (s : ContentSource) : Invocation :=
  match s with
  | SourceFile => MaintenanceFile
  | SourceInline => MaintenanceInline
  | SourceRemote => MaintenanceRemote
  end.

(** With an entry cached, the reload of [loadMaintenanceFile] fails when
    the file is gone, or is newer than the cached entry and unreadable or
    empty. *)
Definition reload_fails (m : MaintenanceBypass) (w : World) : bool :=
  match disk w !! maintenanceFilePath m with
  | None => true
  | Some e =>
      Time_After (entry_ModTime e) (maintenanceFileLastMod m) &&
      match e with
      | NotReadable _ => true
      | RegularFile _ content => (len content =? 0)%nat
      end
  end.

(** Construction succeeded: [New] returned a handler and the nil error. *)
Definition succeeded {A} (res : A + error) : bool :=
  match res with
  | inl _ => true
  | inr _ => false
  end.

(** The handler [New] returned, if it returned one. *)
Definition constructed (o : Outcome (MaintenanceBypass + error)) : option MaintenanceBypass :=
  match o with
  | Returns (inl m) _ => Some m
  | _ => None
  end.

Definition construction_error (o : Outcome (MaintenanceBypass + error)) : option error :=
  match o with
  | Returns (inr err) _ => Some err
  | _ => None
  end.

(** The response a call of [ServeHTTP] left in the writer. *)
Definition response_of {A} (o : Outcome (A * ResponseRecorder)) : option ResponseRecorder :=
  match o with
  | Returns (_, rw) _ => Some rw
  | Panics _ => None
  end.

(** ** Scenarios *)

Module Scenario.
(** The real service behind the middleware. *)
Definition next : Handler :=
  fun _ _ rw => Write "This is the real service content" (WriteHeader http_StatusOK rw).

(** A stand-in for [url.Parse] that knows two addresses. *)
Definition url_Parse (rawURL : string) : url_URL + error :=
  if String.eqb rawURL "http://maintenance-service"
  then inl (mk_URL "http" "maintenance-service" EmptyString EmptyString)
  else if String.eqb rawURL "maintenance-service"
  then inl (mk_URL EmptyString EmptyString "maintenance-service" EmptyString)
  else inr (url_Error "parse" rawURL).

Definition html : string := "<html>down</html>".

Definition request : http_Request := mk_Request "GET" 1%positive 1%positive "example.com".
Definition request_URL : url_URL := mk_URL "http" "example.com" "/test" EmptyString.

(** A backend that answers 200. *)
Definition backend_ok : url_URL -> RoundTrip :=
  fun _ => RoundTripResponse http_StatusOK [("Content-Type", "text/html")]
                             ["<html>"; "maintenance</html>"].

(** A world holding one request, [GET http://example.com/test], at
    location 1. *)
Definition world (files : gmap string FileEntry) (h : http_Header) : World :=
  mk_World files backend_ok {[ 1%positive := request ]} {[ 1%positive := request_URL ]}
           {[ 1%positive := h ]} [].

Definition no_files : gmap string FileEntry := empty.
Definition no_header : http_Header := empty.
Definition file_present : gmap string FileEntry :=
  {[ "/etc/traefik/maintenance.html" := RegularFile 100 html ]}.
Definition file_emptied : gmap string FileEntry :=
  {[ "/etc/traefik/maintenance.html" := RegularFile 200 EmptyString ]}.

Definition inline_html : string := "<p>inline</p>".

Definition with_sources (service file inline : string) : Config.t :=
  Config.mk service file inline "X-Maintenance-Bypass" "true" true 503
            ["/health"] true LogLevelError 10 "text/html; charset=utf-8".

Definition file_config : Config.t :=
  with_sources EmptyString "/etc/traefik/maintenance.html" EmptyString.
Definition inline_config : Config.t :=
  with_sources EmptyString EmptyString html.
Definition inline_and_remote : Config.t :=
  with_sources "http://maintenance-service" EmptyString inline_html.
Definition file_and_inline : Config.t :=
  with_sources EmptyString "/etc/traefik/maintenance.html" inline_html.

(** The middleware [New] builds from [file_config] while the file is
    present. *)
Definition loaded : MaintenanceBypass :=
  mk_MaintenanceBypass next None "/etc/traefik/maintenance.html" (Some html)
    EmptyString 100 "X-Maintenance-Bypass" "true" true 503 ["/health"] true
    "maintenance-test" LogLevelError 0 "text/html; charset=utf-8".

(** A middleware in remote mode. *)
Definition remote : MaintenanceBypass :=
  mk_MaintenanceBypass next
    (Some (mk_URL "http" "maintenance-service" EmptyString EmptyString))
    EmptyString None EmptyString zeroTime "X-Maintenance-Bypass" "true" true 503
    ["/health"] true "maintenance-test" LogLevelError (10 * time_Second)
    "text/html; charset=utf-8".
End Scenario.

(** ** Further observations *)

(** The paths [os.Stat] was called on, in order. *)
Definition stats (tr : list Event) : list string :=
  omap (fun e => match e with EvStat p => Some p | _ => None end) tr.

(** The lines the logger printed, in order. *)
Definition log_lines (tr : list Event) : list (LogLevel * string) :=
  omap (fun e => match e with EvLog level format => Some (level, format) | _ => None end) tr.

(** The cached file content, when there is one, is not empty. *)
Definition cache_ok (m : MaintenanceBypass) : bool :=
  match maintenanceFileContent m with
  | Some content => negb (len content =? 0)%nat
  | None => true
  end.

(** [m'] is [m] with, at most, another file cache. *)
Definition same_settings (m m' : MaintenanceBypass) : Prop :=
  m' = mk_MaintenanceBypass (next m) (maintenanceService m) (maintenanceFilePath m)
         (maintenanceFileContent m') (maintenanceContent m) (maintenanceFileLastMod m')
         (bypassHeader m) (bypassHeaderValue m) (enabled m) (statusCode m)
         (bypassPaths m) (bypassFavicon m) (name m) (logLevel m) (timeout m)
         (contentType m).

(** The lines of a trace are at levels from [LogLevelError] up to the level
    of the middleware. *)
Definition within_level (m : MaintenanceBypass) (tr : list Event) : Prop :=
  Forall (fun line => LogLevelError <= fst line <= logLevel m) (log_lines tr).

(** [w'] has the disk and the transport of [w] and holds every object
    allocated in [w], unchanged. *)
Definition extends (w w' : World) : Prop :=
  disk w' = disk w /\ transport w' = transport w /\
  (forall p x, requests w !! p = Some x -> requests w' !! p = Some x) /\
  (forall p x, urls w !! p = Some x -> urls w' !! p = Some x) /\
  (forall p x, headers w !! p = Some x -> headers w' !! p = Some x).

(** Whether a load goes on from the stat to read the file: there is an
    entry under the path, and nothing is cached or the entry is newer than
    the cache. *)
Definition load_reads (m : MaintenanceBypass) (w : World) : bool :=
  match disk w !! maintenanceFilePath m with
  | Some e =>
      negb (not_nil (maintenanceFileContent m) &&
            negb (Time_After (entry_ModTime e) (maintenanceFileLastMod m)))
  | None => false
  end.

(** The writer of the server and the recorder hold the same response: no
    panic, the same header map, the same body, the same committed status and
    headers sent, a status that allows the body. *)
Definition agrees (s : server_response) (r : ResponseRecorder) : Prop :=
  panicked s = None /\
  handlerHeader s = HeaderMap r /\
  response_body s = Body r /\
  response_committed s = committed r /\
  (wroteHeader r = true ->
   response_sent s = sentHeader r /\ bodyAllowedForStatus (Code r) = true).

(** [value] is the first value under [key]: what [Header.Get] returns for a
    key that is present. *)
Definition first_value (h : http_Header) (key value : string) : Prop :=
  exists rest, h !! CanonicalMIMEHeaderKey key = Some (value :: rest).

(** The two headers [ServeHTTP] sets before it answers for maintenance. *)
Definition marked (h : http_Header) : Prop :=
  Header_Get h "X-Maintenance-Mode" = "true" /\ Header_Get h "Retry-After" = "3600".

(** [config] with another remote address. *)
Definition with_MaintenanceService (service : string) (config : Config.t) : Config.t :=
  Config.mk service (Config.MaintenanceFilePath config) (Config.MaintenanceContent config)
    (Config.BypassHeader config) (Config.BypassHeaderValue config) (Config.Enabled config)
    (Config.StatusCode config) (Config.BypassPaths config) (Config.BypassFavicon config)
    (Config.LogLevel config) (Config.MaintenanceTimeout config) (Config.ContentType config).

(** [config] with another status code, maintenance timeout and content
    type. *)
Definition with_response_settings (statusCode maintenanceTimeout : Z) (contentType : string)
    (config : Config.t) : Config.t :=
  Config.mk (Config.MaintenanceService config) (Config.MaintenanceFilePath config)
    (Config.MaintenanceContent config) (Config.BypassHeader config)
    (Config.BypassHeaderValue config) (Config.Enabled config) statusCode
    (Config.BypassPaths config) (Config.BypassFavicon config) (Config.LogLevel config)
    maintenanceTimeout contentType.

(** The largest number of seconds whose nanoseconds fit a [time.Duration]. *)
Definition max_timeout_seconds : Z := 9223372036.

Module Cases.
Definition remote_config : Config.t :=
  Scenario.with_sources "http://maintenance-service" EmptyString EmptyString.

Definition file_updated : gmap string FileEntry :=
  {[ "/etc/traefik/maintenance.html" := RegularFile 300 "<html>back soon</html>" ]}.

(** A backend that cannot be reached. *)
Definition backend_down : url_URL -> RoundTrip :=
  fun _ => RoundTripError (TransportError "dial tcp: connection refused").

Definition world_down : World :=
  mk_World Scenario.no_files backend_down {[ 1%positive := Scenario.request ]}
           {[ 1%positive := Scenario.request_URL ]} {[ 1%positive := Scenario.no_header ]} [].

Definition maintenance_service : url_URL :=
  mk_URL "http" "maintenance-service" EmptyString EmptyString.

(** A configuration as decoded from a document that gives the inline
    content and nothing else. *)
Definition bare_inline : Config.t :=
  Config.mk EmptyString EmptyString "<p>inline</p>" EmptyString EmptyString true 0 []
            false 0 0 EmptyString.

(** The header map of a request that carries the bypass header. *)
Definition bypass_header : http_Header := {[ "X-Maintenance-Bypass" := ["true"] ]}.

(** An instance made without [New], from a configuration that names no
    content source. *)
Definition unconfigured : MaintenanceBypass :=
  new_middleware Scenario.next CreateConfig "maintenance-test".

(** The inline handler of the scenarios. *)
Definition inline : MaintenanceBypass :=
  new_middleware Scenario.next Scenario.inline_config "maintenance-test".



End Cases.

(** * Properties *)

(** ** Prefixes and suffixes *)

Lemma append_cons (c : ascii) (s t : string) : String c s ++ t = String c (s ++ t).
Proof. reflexivity. Qed.

Lemma substring_whole (s : string) : substring 0 (len s) s = s.
Proof. induction s as [|c s IH]; simpl; [reflexivity | now rewrite IH]. Qed.

Lemma substring_0_app (p t : string) : substring 0 (len p) (p ++ t) = p.
Proof.
  induction p as [|c p IH]; simpl.
  - now destruct t.
  - now rewrite IH.
Qed.

Lemma substring_skip_app (t x : string) : substring (len t) (len x) (t ++ x) = x.
Proof. induction t as [|c t IH]; simpl; [apply substring_whole | exact IH]. Qed.

Lemma len_app (s t : string) : len (s ++ t) = (len s + len t)%nat.
Proof. induction s as [|c s IH]; simpl; [reflexivity | now rewrite IH]. Qed.

Lemma substring_split (s : string) (n : nat) :
  (n <= len s)%nat -> s = substring 0 n s ++ substring n (len s - n) s.
Proof.
  revert n; induction s as [|c s IH]; intros n Hn; simpl in *.
  - now destruct n.
  - destruct n as [|n]; simpl.
    + now rewrite substring_whole.
    + rewrite append_cons. f_equal. apply IH. lia.
Qed.

(** [strings.HasPrefix s p] holds exactly when [s] is [p] followed by
    something. *)
Lemma strings_HasPrefix_iff (s p : string) :
  strings_HasPrefix s p = true <-> exists rest, s = p ++ rest.
Proof.
  unfold strings_HasPrefix. rewrite andb_true_iff, Nat.leb_le, String.eqb_eq. split.
  - intros [Hlen Hsub]. exists (substring (len p) (len s - len p) s).
    rewrite <- Hsub at 1. now apply substring_split.
  - intros [rest ->]. rewrite len_app. split; [lia | apply substring_0_app].
Qed.

(** [strings.HasSuffix s x] holds exactly when [s] is something followed by
    [x]. *)
Lemma strings_HasSuffix_iff (s x : string) :
  strings_HasSuffix s x = true <-> exists front, s = front ++ x.
Proof.
  unfold strings_HasSuffix. rewrite andb_true_iff, Nat.leb_le, String.eqb_eq. split.
  - intros [Hlen Hsub]. exists (substring 0 (len s - len x) s).
    pose proof (substring_split s (len s - len x)) as Hs.
    replace (len s - (len s - len x))%nat with (len x) in Hs by lia.
    rewrite Hsub in Hs. apply Hs. lia.
  - intros [front ->]. rewrite len_app. split; [lia |].
    replace (len front + len x - len x)%nat with (len front) by lia.
    apply substring_skip_app.
Qed.

(** ** Running the primitives *)

Lemma set_trace_id (w : World) : set_trace (trace w) w = w.
Proof. now destruct w. Qed.

Lemma log_run (m : MaintenanceBypass) (level : LogLevel) (format : string) (w : World) :
  log m level format w = Returns tt (logged m level format w).
Proof.
  unfold log, logged, log_events. destruct (level <=? logLevel m).
  - reflexivity.
  - unfold ret. now rewrite app_nil_r, set_trace_id.
Qed.

Lemma invocations_app (a b : list Event) :
  invocations (a ++ b) = (invocations a ++ invocations b)%list.
Proof. unfold invocations. apply omap_app. Qed.

Lemma invocations_log_events m level format :
  invocations (log_events m level format) = [].
Proof. unfold log_events. now destruct (level <=? logLevel m). Qed.

Lemma reads_app (a b : list Event) : reads (a ++ b) = (reads a ++ reads b)%list.
Proof. unfold reads. apply omap_app. Qed.

(** ** The file cache *)

(** What [loadMaintenanceFile] does, case by case on the disk. *)
Lemma loadMaintenanceFile_run (m : MaintenanceBypass) (w : World) :
  loadMaintenanceFile m w =
    let path := maintenanceFilePath m in
    let w1 := emitted (EvStat path) w in
    match disk w !! path with
    | None =>
        Returns (m, Some (ErrorfWrap "error accessing maintenance file: %w"
                                     (PathError "stat" path))) w1
    | Some e =>
        if not_nil (maintenanceFileContent m) &&
           negb (Time_After (entry_ModTime e) (maintenanceFileLastMod m))
        then Returns (m, None) w1
        else
          let w2 := emitted (EvReadFile path) w1 in
          match e with
          | NotReadable _ =>
              Returns (m, Some (ErrorfWrap "error reading maintenance file: %w"
                                           (PathError "read" path))) w2
          | RegularFile t content =>
              if (len content =? 0)%nat
              then Returns (m, Some (Errorf "maintenance file is empty: %s" path)) w2
              else
                let m' := set_file_cache content t m in
                Returns (m', None)
                        (logged m' LogLevelInfo "Loaded maintenance file: %s (%d bytes)" w2)
          end
    end.
Proof.
  unfold loadMaintenanceFile, os_Stat, ioutil_ReadFile, bind, emit, ret; cbn.
  destruct (disk w !! maintenanceFilePath m) as [e|] eqn:Hd; cbn; [|reflexivity].
  destruct (not_nil (maintenanceFileContent m) &&
            negb (Time_After (entry_ModTime e) (maintenanceFileLastMod m))); cbn;
    [reflexivity|].
  rewrite Hd. destruct e as [t|t content]; cbn; [reflexivity|].
  destruct (len content =? 0)%nat; [reflexivity|].
  now rewrite log_run.
Qed.

(** [loadMaintenanceFile] always returns: it never panics. *)
Lemma loadMaintenanceFile_returns (m : MaintenanceBypass) (w : World) :
  exists m' err w', loadMaintenanceFile m w = Returns (m', err) w'.
Proof.
  rewrite loadMaintenanceFile_run; cbn.
  destruct (disk w !! maintenanceFilePath m) as [e|]; [|eauto].
  destruct (_ && _); [eauto|].
  destruct e as [t|t content]; [eauto|].
  destruct (len content =? 0)%nat; eauto.
Qed.

(** With an entry cached and a file that is not newer, a load is the stat
    alone. *)
Lemma loadMaintenanceFile_not_newer (m : MaintenanceBypass) (w : World) (cached : string)
    (e : FileEntry) :
  maintenanceFileContent m = Some cached ->
  disk w !! maintenanceFilePath m = Some e ->
  Time_After (entry_ModTime e) (maintenanceFileLastMod m) = false ->
  loadMaintenanceFile m w = Returns (m, None) (emitted (EvStat (maintenanceFilePath m)) w).
Proof.
  intros Hc Hd Hafter. rewrite loadMaintenanceFile_run; cbn zeta.
  now rewrite Hd, Hc, Hafter.
Qed.

(** C8. Reload is idempotent: once a load has succeeded (the cached content
    is not nil), a load that finds the modification time on disk not after
    the cached one returns the nil error, performs the stat and nothing
    else (the file is not read), and leaves the cached content and the
    cached modification time as they were. *)
Theorem load_idempotent (m : MaintenanceBypass) (w : World) (cached : string)
    (e : FileEntry) :
  maintenanceFileContent m = Some cached ->
  disk w !! maintenanceFilePath m = Some e ->
  Time_After (entry_ModTime e) (maintenanceFileLastMod m) = false ->
  exists m' w',
    loadMaintenanceFile m w = Returns (m', None) w' /\
    trace w' = (trace w ++ [EvStat (maintenanceFilePath m)])%list /\
    reads (trace w') = reads (trace w) /\
    maintenanceFileContent m' = Some cached /\
    maintenanceFileLastMod m' = maintenanceFileLastMod m /\
    m' = m.
Proof.
  intros Hc Hd Hafter. exists m, (emitted (EvStat (maintenanceFilePath m)) w).
  rewrite (loadMaintenanceFile_not_newer m w cached e Hc Hd Hafter).
  repeat split; try assumption.
  cbn. rewrite reads_app; cbn. apply app_nil_r.
Qed.

(** C9. A load that returns an error leaves the cache alone: the receiver,
    and so its cached content and cached modification time, is what it was;
    the error is one of the three the function builds. *)
Theorem load_failure_keeps_cache (m m' : MaintenanceBypass) (w w' : World) (err : error) :
  loadMaintenanceFile m w = Returns (m', Some err) w' ->
  maintenanceFileContent m' = maintenanceFileContent m /\
  maintenanceFileLastMod m' = maintenanceFileLastMod m /\
  m' = m /\
  (err = ErrorfWrap "error accessing maintenance file: %w"
                    (PathError "stat" (maintenanceFilePath m)) \/
   err = ErrorfWrap "error reading maintenance file: %w"
                    (PathError "read" (maintenanceFilePath m)) \/
   err = Errorf "maintenance file is empty: %s" (maintenanceFilePath m)).
Proof.
  rewrite loadMaintenanceFile_run; cbn.
  destruct (disk w !! maintenanceFilePath m) as [e|].
  - destruct (_ && _); [discriminate|].
    destruct e as [t|t content].
    + intros [= <- <- <-]. repeat split; auto.
    + destruct (len content =? 0)%nat; [|discriminate].
      intros [= <- <- <-]. repeat split; auto.
  - intros [= <- <- <-]. repeat split; auto.
Qed.

(** ** The status-overriding writer *)

Lemma append_nil_r (s : string) : s ++ EmptyString = s.
Proof. induction s as [|c s IH]; [reflexivity | now rewrite append_cons, IH]. Qed.

Lemma append_assoc (a b c : string) : (a ++ b) ++ c = a ++ (b ++ c).
Proof. induction a as [|x a IH]; [reflexivity | now rewrite !append_cons, IH]. Qed.

Section Wrapper_facts.
Context {W : Type} `{http_ResponseWriter W}.
Implicit Types (w : maintenanceResponseWriter W).

(** Once [headerSet] holds, [WriteHeader] does nothing and [Write] goes
    straight to the embedded writer. *)
Lemma wrapper_after_commit (calls : list WriterCall) w :
  w_headerSet w = true ->
  apply_calls calls w =
    mk_maintenanceResponseWriter
      (write_all (payloads calls) (w_ResponseWriter w)) (w_statusCode w) true.
Proof.
  revert w; induction calls as [|c calls IH]; intros w Hset.
  - destruct w; cbn in *; now subst.
  - unfold apply_calls in *; cbn [fold_left]. destruct c as [code|b].
    + cbn [apply_call WriteHeader maintenance_ResponseWriter].
      unfold maintenance_WriteHeader. rewrite Hset; cbn [negb].
      now rewrite IH.
    + cbn [apply_call Write maintenance_ResponseWriter].
      unfold maintenance_Write. rewrite Hset; cbn [negb].
      now rewrite IH.
Qed.

(** The first call on a new wrapper passes the forced status on, whatever
    the call is. *)
Lemma wrapper_first_call (S : Z) (inner : W) (c : WriterCall) :
  apply_call (mk_maintenanceResponseWriter inner S false) c =
    mk_maintenanceResponseWriter
      (write_all (payloads [c]) (WriteHeader S inner)) S true.
Proof. destruct c; reflexivity. Qed.

Lemma wrapper_calls (S : Z) (inner : W) (c : WriterCall) (calls : list WriterCall) :
  apply_calls (c :: calls) (mk_maintenanceResponseWriter inner S false) =
    mk_maintenanceResponseWriter
      (write_all (payloads (c :: calls)) (WriteHeader S inner)) S true.
Proof.
  unfold apply_calls; cbn [fold_left]. rewrite wrapper_first_call.
  fold (apply_calls calls
          (mk_maintenanceResponseWriter (write_all (payloads [c]) (WriteHeader S inner)) S true)).
  rewrite wrapper_after_commit by reflexivity. cbn [w_ResponseWriter w_statusCode].
  f_equal. unfold write_all. rewrite <- fold_left_app. f_equal.
  destruct c; reflexivity.
Qed.
End Wrapper_facts.

Section Recorder_facts.
Implicit Types (r : ResponseRecorder).

Lemma Recorder_Write_fields (b : string) r :
  wroteHeader (Write b r) = true /\
  statusCalls (Write b r) = statusCalls r /\
  Body (Write b r) = Body r ++ b /\
  HeaderMap (Write b r) = HeaderMap r /\
  Code (Write b r) = (if wroteHeader r then Code r else http_StatusOK) /\
  sentHeader (Write b r) = (if wroteHeader r then sentHeader r else HeaderMap r).
Proof.
  change (Write b r) with (Recorder_Write b r). unfold Recorder_Write, commit.
  destruct (wroteHeader r) eqn:E; cbn; rewrite ?E; repeat split.
Qed.

Lemma Recorder_WriteHeader_fields (code : Z) r :
  wroteHeader (WriteHeader code r) = true /\
  statusCalls (WriteHeader code r) = (statusCalls r ++ [code])%list /\
  Body (WriteHeader code r) = Body r /\
  HeaderMap (WriteHeader code r) = HeaderMap r /\
  Code (WriteHeader code r) = (if wroteHeader r then Code r else code) /\
  sentHeader (WriteHeader code r) = (if wroteHeader r then sentHeader r else HeaderMap r).
Proof.
  change (WriteHeader code r) with (Recorder_WriteHeader code r).
  unfold Recorder_WriteHeader, commit.
  destruct (wroteHeader r) eqn:E; cbn; rewrite ?E; repeat split.
Qed.

Lemma Recorder_write_all (chunks : list string) r :
  statusCalls (write_all chunks r) = statusCalls r /\
  Body (write_all chunks r) = Body r ++ joined chunks /\
  HeaderMap (write_all chunks r) = HeaderMap r /\
  (wroteHeader r = true ->
   wroteHeader (write_all chunks r) = true /\
   Code (write_all chunks r) = Code r /\
   sentHeader (write_all chunks r) = sentHeader r).
Proof.
  revert r; induction chunks as [|b chunks IH]; intros r.
  - cbn. now rewrite append_nil_r.
  - unfold write_all in *; cbn [fold_left joined fold_right].
    destruct (IH (Write b r)) as (Hs & Hb & Hh & Hc).
    destruct (Recorder_Write_fields b r) as (Fw & Fs & Fb & Fh & Fc & Fsent).
    destruct (Hc Fw) as (Hw' & Hcode & Hsent).
    rewrite Hs, Hb, Hh, Hw', Hcode, Hsent, Fs, Fb, Fh, Fc, Fsent, append_assoc.
    do 3 (split; [reflexivity|]). intros ->. repeat split.
Qed.
End Recorder_facts.

(** C5. A new [maintenanceResponseWriter] forcing status [S] over a writer
    [inner] is driven by a sequence of [WriteHeader] and [Write] calls that
    starts with [first].  The embedded writer then receives exactly
    [WriteHeader S], triggered by the first call, followed by the [Write]s of
    the sequence in order and nothing else: it has been passed one status,
    [S]; later [WriteHeader] calls changed nothing; its body grew by the
    written bytes in order; and when it had not committed a status before,
    the status it committed is [S]. *)
Theorem wrapper_commits_status_once (S : Z) (inner : ResponseRecorder)
    (first : WriterCall) (later : list WriterCall) :
  let w := apply_calls (first :: later) (mk_maintenanceResponseWriter inner S false) in
  w_ResponseWriter w = write_all (payloads (first :: later)) (WriteHeader S inner) /\
  w_headerSet w = true /\
  statusCalls (w_ResponseWriter (apply_call (mk_maintenanceResponseWriter inner S false) first))
    = (statusCalls inner ++ [S])%list /\
  statusCalls (w_ResponseWriter w) = (statusCalls inner ++ [S])%list /\
  Body (w_ResponseWriter w) = Body inner ++ written (first :: later) /\
  committed (w_ResponseWriter w) = Some (if wroteHeader inner then Code inner else S).
Proof.
  cbn zeta. rewrite wrapper_calls, wrapper_first_call. cbn [w_ResponseWriter w_headerSet].
  destruct (Recorder_write_all (payloads (first :: later)) (WriteHeader S inner))
    as (Hs & Hb & _ & Hc).
  destruct (Recorder_write_all (payloads [first]) (WriteHeader S inner)) as (Hs1 & _).
  rewrite Hs, Hs1, Hb.
  destruct (Recorder_WriteHeader_fields S inner) as (Fw & Fs & Fb & _ & Fc & _).
  destruct (Hc Fw) as (Hw' & Hcode & _).
  unfold committed. rewrite Hw', Hcode, Fs, Fb, Fc.
  repeat split.
Qed.

(** ** Dispatching a request *)

Section Dispatch.
Variables (m : MaintenanceBypass) (req : loc) (w : World).
Variables (r : http_Request) (u : url_URL) (h : http_Header).
Hypothesis Hreq : valid_request w req r u h.

Lemma req_URL_run : req_URL req w = Returns u w.
Proof.
  destruct Hreq as (Hr & Hu & _).
  unfold req_URL, bind, load_request, load_url. now rewrite Hr, Hu.
Qed.

Lemma req_Header_run : req_Header req w = Returns h w.
Proof.
  destruct Hreq as (Hr & _ & Hh).
  unfold req_Header, bind, load_request, load_header. now rewrite Hr, Hh.
Qed.

Lemma next_ServeHTTP_run (rw : ResponseRecorder) (w0 : World) :
  next_ServeHTTP m rw req w0 =
    Returns (next m req (emitted (EvNext req) w0) rw) (emitted (EvNext req) w0).
Proof. reflexivity. Qed.

(** The loop over the bypass paths stops at the first prefix of the path. *)
Lemma bypassPaths_loop_run (rw : ResponseRecorder) (paths : list string) :
  bypassPaths_loop m rw req paths w =
    match find (strings_HasPrefix (Path u)) paths with
    | Some prefix =>
        let w' := emitted (EvNext req)
                    (logged m LogLevelDebug (rule_format (RulePathPrefix prefix)) w) in
        Returns (Some (next m req w' rw)) w'
    | None => Returns None w
    end.
Proof.
  induction paths as [|path rest IH]; [reflexivity|].
  cbn [bypassPaths_loop find]. unfold bind at 1. rewrite req_URL_run.
  destruct (strings_HasPrefix (Path u) path); [|exact IH].
  unfold bind. now rewrite log_run, next_ServeHTTP_run.
Qed.

(** [ServeHTTP], branch by branch: the first rule that holds sends the
    request to the next handler; with no rule, the content source decides
    which maintenance path runs. *)
Lemma ServeHTTP_run (rw : ResponseRecorder) :
  ServeHTTP m rw req w =
    match firstBypassRule m (Path u) h with
    | Some rule =>
        let w' := emitted (EvNext req) (logged m LogLevelDebug (rule_format rule) w) in
        Returns (m, next m req w' rw) w'
    | None =>
        let w1 := logged m LogLevelInfo
                    "No bypass condition met for %s, serving maintenance page" w in
        let rw1 := rw_Header_Set "X-Maintenance-Mode" "true"
                     (rw_Header_Set "Retry-After" "3600" rw) in
        if nonempty (maintenanceFilePath m) then serveMaintenanceFile m rw1 req w1
        else if nonempty (maintenanceContent m) then
          bind (serveMaintenanceContent m rw1 req) (fun rw => ret (m, rw)) w1
        else
          bind (proxyToMaintenanceService m rw1 req) (fun rw => ret (m, rw)) w1
    end.
Proof.
  unfold ServeHTTP, firstBypassRule.
  destruct (enabled m); cbn [negb].
  2:{ unfold bind. now rewrite req_URL_run, log_run, next_ServeHTTP_run. }
  unfold bind at 1.
  assert (Hfav :
    (if bypassFavicon m
     then bind (req_URL req) (fun u => ret (strings_HasSuffix (Path u) "/favicon.ico"))
     else ret false) w =
    Returns (bypassFavicon m && strings_HasSuffix (Path u) "/favicon.ico") w).
  { destruct (bypassFavicon m); [|reflexivity]. unfold bind. now rewrite req_URL_run. }
  rewrite Hfav.
  destruct (bypassFavicon m && strings_HasSuffix (Path u) "/favicon.ico").
  { unfold bind. now rewrite req_URL_run, log_run, next_ServeHTTP_run. }
  unfold bind at 1. rewrite bypassPaths_loop_run.
  destruct (find (strings_HasPrefix (Path u)) (bypassPaths m)); [reflexivity|].
  unfold bind at 1. rewrite req_Header_run.
  destruct (String.eqb (Header_Get h (bypassHeader m)) (bypassHeaderValue m)).
  { unfold bind. now rewrite log_run, next_ServeHTTP_run. }
  unfold bind at 1. rewrite req_URL_run. unfold bind at 1. rewrite log_run.
  destruct (nonempty (maintenanceFilePath m)); [reflexivity|].
  destruct (nonempty (maintenanceContent m)); reflexivity.
Qed.
End Dispatch.

(** The ordered rules and the yes/no answer agree. *)
Lemma shouldBypass_firstBypassRule (m : MaintenanceBypass) (path : string) (h : http_Header) :
  shouldBypass m path h = not_nil (firstBypassRule m path h).
Proof.
  unfold shouldBypass, firstBypassRule.
  destruct (negb (enabled m)); [reflexivity|].
  destruct (bypassFavicon m && strings_HasSuffix path "/favicon.ico"); [reflexivity|].
  induction (bypassPaths m) as [|p ps IH]; cbn.
  - now destruct (String.eqb _ _).
  - destruct (strings_HasPrefix path p); cbn; [reflexivity | exact IH].
Qed.

Lemma shouldBypass_false (m : MaintenanceBypass) (path : string) (h : http_Header) :
  shouldBypass m path h = false <-> firstBypassRule m path h = None.
Proof.
  rewrite shouldBypass_firstBypassRule.
  destruct (firstBypassRule m path h); cbn; split; congruence.
Qed.

(** A configured prefix of the path is enough to bypass. *)
Lemma shouldBypass_prefix (m : MaintenanceBypass) (path prefix rest : string)
    (h : http_Header) :
  In prefix (bypassPaths m) -> path = prefix ++ rest -> shouldBypass m path h = true.
Proof.
  intros Hin Hpath. unfold shouldBypass.
  destruct (negb (enabled m)); [reflexivity|].
  destruct (bypassFavicon m && _); [reflexivity|].
  assert (Hex : existsb (strings_HasPrefix path) (bypassPaths m) = true).
  { apply existsb_exists. exists prefix. split; [exact Hin|].
    apply strings_HasPrefix_iff. eauto. }
  now rewrite Hex.
Qed.

(** ** The remote branch: cloning and forwarding *)

Lemma valid_request_emitted (w : World) (e : Event) req r u h :
  valid_request w req r u h -> valid_request (emitted e w) req r u h.
Proof. exact id. Qed.

Lemma Request_Clone_run (w : World) (req : loc) r u h :
  valid_request w req r u h ->
  Request_Clone req w =
    let p := fresh (dom (requests w)) in
    let u2 := fresh (dom (urls w)) in
    let h2 := fresh (dom (headers w)) in
    Returns p
      (mk_World (disk w) (transport w)
         (<[p := mk_Request (Method r) u2 h2 (req_Host r)]> (requests w))
         (<[u2 := u]> (urls w)) (<[h2 := h]> (headers w)) (trace w)).
Proof.
  intros (Hr & Hu & Hh).
  unfold Request_Clone, bind, load_request, load_url, load_header.
  rewrite Hr, Hu, Hh. reflexivity.
Qed.

(** A location in use is not the one allocation picks. *)
Lemma fresh_not_allocated {A} (heap : gmap loc A) (p : loc) (x : A) :
  heap !! p = Some x -> p <> fresh (dom heap).
Proof.
  intros Hp ->. apply (is_fresh (dom heap)). apply elem_of_dom. eauto.
Qed.

Lemma load_request_run (w : World) (p : loc) (r : http_Request) :
  requests w !! p = Some r -> load_request p w = Returns r w.
Proof. unfold load_request. now intros ->. Qed.

Lemma load_url_run (w : World) (p : loc) (u : url_URL) :
  urls w !! p = Some u -> load_url p w = Returns u w.
Proof. unfold load_url. now intros ->. Qed.

Lemma store_url_run (w : World) (p : loc) (old u : url_URL) :
  urls w !! p = Some old ->
  store_url p u w = Returns tt (set_urls (<[p := u]> (urls w)) w).
Proof. unfold store_url. now intros ->. Qed.

Lemma store_request_run (w : World) (p : loc) (old r : http_Request) :
  requests w !! p = Some old ->
  store_request p r w = Returns tt (set_requests (<[p := r]> (requests w)) w).
Proof. unfold store_request. now intros ->. Qed.

Ltac heap_simpl :=
  cbn [requests urls headers disk transport trace set_urls set_requests set_trace
       emitted URL Header Method req_Host Scheme Host Path RawQuery].

Ltac io_step :=
  unfold bind at 1;
  first [ erewrite load_request_run by (heap_simpl; apply lookup_insert_eq)
        | erewrite load_url_run by (heap_simpl; apply lookup_insert_eq)
        | erewrite store_url_run by (heap_simpl; apply lookup_insert_eq)
        | erewrite store_request_run by (heap_simpl; apply lookup_insert_eq) ];
  heap_simpl.

Section Proxy.
Context {W : Type} `{http_ResponseWriter W}.

(** [proxyToMaintenanceService], step by step: the request is cloned, the
    clone is pointed at the target and forwarded; the objects allocated
    before the call are left as they were. *)
Lemma proxyToMaintenanceService_run (m : MaintenanceBypass) (rw : W) (req : loc)
    (w : World) r u h target :
  valid_request w req r u h ->
  maintenanceService m = Some target ->
  exists w' evs,
    proxyToMaintenanceService m rw req w =
      Returns (w_ResponseWriter
                 (relayed (statusCode m) (transport w (outbound_URL target u))
                    (mk_maintenanceResponseWriter rw (statusCode m) false))) w' /\
    trace w' = (trace w ++ EvProxyToMaintenanceService
                  :: EvRoundTrip (forwarded_URL target u) (Host target) :: evs)%list /\
    invocations evs = [] /\
    disk w' = disk w /\
    transport w' = transport w /\
    (forall p x, requests w !! p = Some x -> requests w' !! p = Some x) /\
    (forall p x, urls w !! p = Some x -> urls w' !! p = Some x) /\
    (forall p x, headers w !! p = Some x -> headers w' !! p = Some x) /\
    (exists pc uc hc,
       pc <> req /\ uc <> URL r /\ hc <> Header r /\
       requests w' !! pc = Some (mk_Request (Method r) uc hc (Host target)) /\
       urls w' !! uc = Some (forwarded_URL target u) /\
       headers w' !! hc = Some h).
Proof.
  intros Hreq Htarget.
  unfold proxyToMaintenanceService. rewrite Htarget.
  unfold bind at 1. cbn [emit].
  unfold bind at 1.
  rewrite (Request_Clone_run _ _ _ _ _ (valid_request_emitted _ EvProxyToMaintenanceService _ _ _ _ Hreq)).
  cbn zeta.
  cbn [requests urls headers disk transport trace emitted set_trace].
  set (p := fresh (dom (requests w))).
  set (u2 := fresh (dom (urls w))).
  set (h2 := fresh (dom (headers w))).
  do 2 io_step. io_step. do 2 io_step. io_step. io_step. io_step.
  unfold bind at 1. unfold ReverseProxy_ServeHTTP.
  do 2 io_step. unfold bind at 1. cbn [emit]. heap_simpl.
  fold (forwarded_URL target u). fold (outbound_URL target u).
  assert (Hclone : p <> req /\ u2 <> URL r /\ h2 <> Header r).
  { destruct Hreq as (Hr & Hu & Hh).
    repeat split; apply not_eq_sym; eapply fresh_not_allocated; eassumption. }
  destruct Hclone as (Hc1 & Hc2 & Hc3).
  assert (Hp : forall q x, requests w !! q = Some x -> q <> p)
    by (intros q x Hq; exact (fresh_not_allocated _ _ _ Hq)).
  assert (Hu2 : forall q x, urls w !! q = Some x -> q <> u2)
    by (intros q x Hq; exact (fresh_not_allocated _ _ _ Hq)).
  assert (Hh2 : forall q x, headers w !! q = Some x -> q <> h2)
    by (intros q x Hq; exact (fresh_not_allocated _ _ _ Hq)).
  destruct (transport w (outbound_URL target u)) as [code hdr chunks|err].
  - eexists _, []. split; [reflexivity|]. heap_simpl.
    rewrite <- app_assoc. repeat split.
    + intros q x Hq. rewrite !lookup_insert_ne by (symmetry; eauto). exact Hq.
    + intros q x Hq. rewrite !lookup_insert_ne by (symmetry; eauto). exact Hq.
    + intros q x Hq. rewrite !lookup_insert_ne by (symmetry; eauto). exact Hq.
    + exists p, u2, h2. repeat split; try assumption; apply lookup_insert_eq.
  - unfold bind at 1. rewrite log_run. unfold ret, bind.
    eexists _, (log_events m LogLevelError "Error proxying to maintenance service: %v").
    split; [reflexivity|]. unfold logged. heap_simpl.
    rewrite <- !app_assoc. split; [reflexivity|].
    split; [apply invocations_log_events|]. repeat split.
    + intros q x Hq. rewrite !lookup_insert_ne by (symmetry; eauto). exact Hq.
    + intros q x Hq. rewrite !lookup_insert_ne by (symmetry; eauto). exact Hq.
    + intros q x Hq. rewrite !lookup_insert_ne by (symmetry; eauto). exact Hq.
    + exists p, u2, h2. repeat split; try assumption; apply lookup_insert_eq.
Qed.
End Proxy.

(** C7. In remote mode the request the caller passed is left as it was: when
    [proxyToMaintenanceService] returns, the caller's request object, the
    URL it points to (scheme, host, path, query) and its header map hold
    what they held before, and its [Host] field is unchanged.  What was
    forwarded is a clone at other locations: the clone carries the scheme
    and host of the maintenance service and the path of the original. *)
Theorem proxy_leaves_request_unmodified {W : Type} `{http_ResponseWriter W}
    (m : MaintenanceBypass) (rw : W) (req : loc) (w : World)
    (r : http_Request) (u : url_URL) (h : http_Header) (target : url_URL) :
  valid_request w req r u h ->
  maintenanceService m = Some target ->
  exists rw' w',
    proxyToMaintenanceService m rw req w = Returns rw' w' /\
    valid_request w' req r u h /\
    (exists pc uc hc,
       pc <> req /\ uc <> URL r /\ hc <> Header r /\
       requests w' !! pc = Some (mk_Request (Method r) uc hc (Host target)) /\
       urls w' !! uc = Some (forwarded_URL target u) /\
       headers w' !! hc = Some h) /\
    In (EvRoundTrip (forwarded_URL target u) (Host target)) (trace w').
Proof.
  intros Hreq Htarget.
  destruct (proxyToMaintenanceService_run m rw req w r u h target Hreq Htarget)
    as (w' & evs & Hrun & Htrace & _ & _ & _ & Hrs & Hus & Hhs & Hclone).
  eexists _, w'. split; [exact Hrun|].
  destruct Hreq as (Hr & Hu & Hh).
  split; [repeat split; eauto|]. split; [exact Hclone|].
  rewrite Htrace. apply in_or_app. right. right. left. reflexivity.
Qed.

(** ** The maintenance branches on the writer of the host *)

Lemma wrapper_header_adds {W : Type} `{http_ResponseWriter W}
    (hdr : list (string * string)) (inner : W) (S : Z) (b : bool) :
  fold_left (fun rw kv => rw_Header_Add (fst kv) (snd kv) rw) hdr
            (mk_maintenanceResponseWriter inner S b) =
  mk_maintenanceResponseWriter
    (fold_left (fun rw kv => rw_Header_Add (fst kv) (snd kv) rw) hdr inner) S b.
Proof.
  revert inner; induction hdr as [|kv hdr IH]; intros inner; [reflexivity|].
  cbn [fold_left]. exact (IH _).
Qed.

Lemma wrapper_write_all {W : Type} `{http_ResponseWriter W}
    (chunks : list string) (inner : W) (S : Z) :
  write_all chunks (mk_maintenanceResponseWriter inner S true) =
  mk_maintenanceResponseWriter (write_all chunks inner) S true.
Proof.
  revert inner; induction chunks as [|b chunks IH]; intros inner; [reflexivity|].
  unfold write_all in *. cbn [fold_left]. exact (IH _).
Qed.

Lemma Recorder_header_adds (hdr : list (string * string)) (r : ResponseRecorder) :
  let r' := fold_left (fun rw kv => rw_Header_Add (fst kv) (snd kv) rw) hdr r in
  wroteHeader r' = wroteHeader r /\ statusCalls r' = statusCalls r /\
  Body r' = Body r /\ Code r' = Code r.
Proof.
  revert r; induction hdr as [|kv hdr IH]; intros r; [now cbn|].
  cbn [fold_left]. cbn zeta in *.
  destruct (IH (rw_Header_Add kv.1 kv.2 r)) as (-> & -> & -> & ->). now cbn.
Qed.

(** Whatever the backend answers, the writer behind the wrapper is passed
    the forced status once. *)
Lemma relayed_status (S : Z) (outcome : RoundTrip) (rw : ResponseRecorder) :
  let rw' := w_ResponseWriter
               (relayed S outcome (mk_maintenanceResponseWriter rw S false)) in
  statusCalls rw' = (statusCalls rw ++ [S])%list /\
  committed rw' = Some (if wroteHeader rw then Code rw else S).
Proof.
  destruct outcome as [code hdr chunks|err]; cbn zeta; unfold relayed.
  - rewrite wrapper_header_adds.
    change (WriteHeader code (mk_maintenanceResponseWriter ?x S false))
      with (mk_maintenanceResponseWriter (WriteHeader S x) S true).
    rewrite wrapper_write_all. cbn [w_ResponseWriter].
    set (r1 := fold_left _ hdr rw).
    destruct (Recorder_header_adds hdr rw) as (Hw & Hs & _ & Hc). fold r1 in Hw, Hs, Hc.
    destruct (Recorder_WriteHeader_fields S r1) as (Fw & Fs & _ & _ & Fc & _).
    destruct (Recorder_write_all chunks (WriteHeader S r1)) as (Ws & _ & _ & Wc).
    destruct (Wc Fw) as (Ww & Wcode & _).
    unfold committed. now rewrite Ws, Ww, Wcode, Fs, Fc, Hs, Hw, Hc.
  - change (w_ResponseWriter _) with
      (Write "Service temporarily unavailable"
         (WriteHeader S (rw_Header_Set "X-Maintenance-Mode" "true" rw))).
    set (r1 := rw_Header_Set "X-Maintenance-Mode" "true" rw).
    destruct (Recorder_WriteHeader_fields S r1) as (Fw & Fs & _ & _ & Fc & _).
    destruct (Recorder_Write_fields "Service temporarily unavailable" (WriteHeader S r1))
      as (Ww & Ws & _ & _ & Wc & _).
    unfold committed. rewrite Ww, Ws, Wc, Fw, Fs, Fc. now cbn.
Qed.

Lemma Recorder_respond (S : Z) (b : string) (r0 r : ResponseRecorder) :
  wroteHeader r = wroteHeader r0 -> statusCalls r = statusCalls r0 ->
  Code r = Code r0 -> Body r = Body r0 ->
  let r' := Write b (WriteHeader S r) in
  statusCalls r' = (statusCalls r0 ++ [S])%list /\
  committed r' = Some (if wroteHeader r0 then Code r0 else S) /\
  Body r' = Body r0 ++ b /\
  (wroteHeader r0 = false -> sentHeader r' = HeaderMap r).
Proof.
  intros Hw Hs Hc Hb. cbn zeta.
  destruct (Recorder_WriteHeader_fields S r) as (Fw & Fs & Fb & _ & Fc & Fh).
  destruct (Recorder_Write_fields b (WriteHeader S r)) as (Ww & Ws & Wb & _ & Wc & Wh).
  unfold committed. rewrite Ww, Ws, Wb, Wc, Wh, Fw, Fs, Fb, Fc, Fh, Hw, Hs, Hc, Hb.
  repeat split. now intros ->.
Qed.

(** [serveMaintenanceFile] in terms of the load it starts with. *)
Lemma serveMaintenanceFile_run {W : Type} `{http_ResponseWriter W}
    (m : MaintenanceBypass) (rw : W) (req : loc) (w : World) :
  serveMaintenanceFile m rw req w =
    match loadMaintenanceFile m (emitted EvServeMaintenanceFile w) with
    | Returns (m', Some err) w1 =>
        Returns (m', http_Error (rw_Header_Set "X-Maintenance-Mode" "true" rw)
                       "Service Temporarily Unavailable" (statusCode m'))
                (logged m' LogLevelError "Failed to load maintenance file: %v" w1)
    | Returns (m', None) w1 =>
        let rw := rw_Header_Set "Content-Type" (contentType m') rw in
        let rw := rw_Header_Set "Cache-Control" "no-cache, no-store, must-revalidate" rw in
        let rw := rw_Header_Set "X-Maintenance-Mode" "true" rw in
        Returns (m', Write (default EmptyString (maintenanceFileContent m'))
                       (WriteHeader (statusCode m') rw)) w1
    | Panics reason => Panics reason
    end.
Proof.
  unfold serveMaintenanceFile. unfold bind at 1. cbn [emit]. unfold bind at 1.
  destruct (loadMaintenanceFile m (emitted EvServeMaintenanceFile w))
    as [[m' [err|]] w1|reason]; [|reflexivity|reflexivity].
  unfold bind. now rewrite log_run.
Qed.

(** A load touches the trace only, with no handler invoked, and none of the
    fields that configure the middleware. *)
Lemma loadMaintenanceFile_effects (m m' : MaintenanceBypass) (err : option error)
    (w w' : World) :
  loadMaintenanceFile m w = Returns (m', err) w' ->
  exists evs,
    w' = set_trace (trace w ++ evs)%list w /\ invocations evs = [] /\
    statusCode m' = statusCode m /\ contentType m' = contentType m /\
    maintenanceFilePath m' = maintenanceFilePath m /\
    (err = None -> is_Some (maintenanceFileContent m')).
Proof.
  rewrite loadMaintenanceFile_run; cbn zeta.
  destruct (disk w !! maintenanceFilePath m) as [e|].
  2:{ intros [= <- <- <-]. exists [EvStat (maintenanceFilePath m)].
      repeat split. discriminate. }
  destruct (not_nil (maintenanceFileContent m) && _) eqn:Hcached.
  { intros [= <- <- <-]. exists [EvStat (maintenanceFilePath m)].
    repeat split. intros _. apply andb_true_iff in Hcached as [Hnn _].
    destruct (maintenanceFileContent m) as [c|]; [eauto | discriminate]. }
  destruct e as [t|t content].
  { intros [= <- <- <-].
    exists [EvStat (maintenanceFilePath m); EvReadFile (maintenanceFilePath m)].
    unfold emitted; cbn. rewrite <- app_assoc. repeat split. discriminate. }
  destruct (len content =? 0)%nat.
  { intros [= <- <- <-].
    exists [EvStat (maintenanceFilePath m); EvReadFile (maintenanceFilePath m)].
    unfold emitted; cbn. rewrite <- app_assoc. repeat split. discriminate. }
  intros [= <- <- <-].
  exists ([EvStat (maintenanceFilePath m); EvReadFile (maintenanceFilePath m)] ++
          log_events (set_file_cache content t m) LogLevelInfo
            "Loaded maintenance file: %s (%d bytes)")%list.
  unfold logged, emitted; cbn. rewrite <- !app_assoc. repeat split.
  - exact (invocations_log_events _ _ _).
  - intros _. eauto.
Qed.

(** Every run of [serveMaintenanceFile] returns, invokes no other handler
    and passes the configured status to the writer once. *)
Lemma serveMaintenanceFile_status (m : MaintenanceBypass) (rw : ResponseRecorder)
    (req : loc) (w : World) :
  exists m' rw' w' evs,
    serveMaintenanceFile m rw req w = Returns (m', rw') w' /\
    w' = set_trace (trace w ++ EvServeMaintenanceFile :: evs)%list w /\
    invocations evs = [] /\
    statusCalls rw' = (statusCalls rw ++ [statusCode m])%list /\
    committed rw' = Some (if wroteHeader rw then Code rw else statusCode m) /\
    statusCode m' = statusCode m.
Proof.
  rewrite serveMaintenanceFile_run.
  destruct (loadMaintenanceFile_returns m (emitted EvServeMaintenanceFile w))
    as (m' & err & w1 & Hload).
  rewrite Hload.
  destruct (loadMaintenanceFile_effects _ _ _ _ _ Hload)
    as (evs & -> & Hinv & Hstatus & _).
  rewrite <- Hstatus. destruct err as [err|].
  - eexists m', _, _, (evs ++ log_events m' LogLevelError _)%list.
    split; [reflexivity|]. split.
    { unfold logged, emitted; cbn. now rewrite <- !app_assoc. }
    split; [rewrite invocations_app, Hinv; apply invocations_log_events|].
    unfold http_Error.
    destruct (Recorder_respond (statusCode m') ("Service Temporarily Unavailable" ++ LF) rw
                (rw_Header_Set "X-Content-Type-Options" "nosniff"
                   (rw_Header_Set "Content-Type" "text/plain; charset=utf-8"
                      (rw_Header_Del "Content-Length"
                         (rw_Header_Set "X-Maintenance-Mode" "true" rw)))))
      as (Hs & Hc & _); try reflexivity.
    repeat split; try assumption.
  - eexists m', _, _, evs. split; [reflexivity|]. split.
    { unfold emitted; cbn. now rewrite <- !app_assoc. }
    split; [exact Hinv|]. cbn zeta.
    destruct (Recorder_respond (statusCode m') (default EmptyString (maintenanceFileContent m'))
                rw
                (rw_Header_Set "X-Maintenance-Mode" "true"
                   (rw_Header_Set "Cache-Control" "no-cache, no-store, must-revalidate"
                      (rw_Header_Set "Content-Type" (contentType m') rw))))
      as (Hs & Hc & _); try reflexivity.
    repeat split; try assumption.
Qed.

Lemma serveMaintenanceContent_status (m : MaintenanceBypass) (rw : ResponseRecorder)
    (req : loc) (w : World) :
  exists rw',
    serveMaintenanceContent m rw req w =
      Returns rw' (emitted EvServeMaintenanceContent w) /\
    statusCalls rw' = (statusCalls rw ++ [statusCode m])%list /\
    committed rw' = Some (if wroteHeader rw then Code rw else statusCode m) /\
    Body rw' = Body rw ++ maintenanceContent m.
Proof.
  eexists. split; [reflexivity|].
  destruct (Recorder_respond (statusCode m) (maintenanceContent m) rw
              (rw_Header_Set "X-Maintenance-Mode" "true"
                 (rw_Header_Set "Cache-Control" "no-cache, no-store, must-revalidate"
                    (rw_Header_Set "Content-Type" (contentType m) rw))))
    as (Hs & Hc & Hb & _); try reflexivity.
  repeat split; assumption.
Qed.

Lemma well_formed_remote (m : MaintenanceBypass) :
  well_formed m = true ->
  nonempty (maintenanceFilePath m) = false ->
  nonempty (maintenanceContent m) = false ->
  exists target, maintenanceService m = Some target.
Proof.
  unfold well_formed. intros Hwf Hf Hc. rewrite Hf, Hc in Hwf. cbn in Hwf.
  destruct (maintenanceService m) as [target|]; [eauto | discriminate].
Qed.

Section Dispatch_outcome.
Variables (m : MaintenanceBypass) (rw : ResponseRecorder) (req : loc) (w : World).
Variables (r : http_Request) (u : url_URL) (h : http_Header).
Hypothesis Hreq : valid_request w req r u h.

(** A rule holds: the request goes to the next handler and nowhere else. *)
Lemma ServeHTTP_bypass (rule : BypassRule) :
  firstBypassRule m (Path u) h = Some rule ->
  let evs := (log_events m LogLevelDebug (rule_format rule) ++ [EvNext req])%list in
  let w' := set_trace (trace w ++ evs)%list w in
  ServeHTTP m rw req w = Returns (m, next m req w' rw) w' /\
  invocations evs = [NextHandler].
Proof.
  intros Hrule. cbn zeta. rewrite (ServeHTTP_run m req w r u h Hreq), Hrule.
  unfold logged, emitted; cbn. rewrite <- !app_assoc. split; [reflexivity|].
  rewrite invocations_app, invocations_log_events. reflexivity.
Qed.

(** No rule holds: exactly the maintenance path of the content source
    runs, and the writer is passed the configured status once. *)
Lemma ServeHTTP_maintenance :
  well_formed m = true ->
  firstBypassRule m (Path u) h = None ->
  exists m' rw' w' evs,
    ServeHTTP m rw req w = Returns (m', rw') w' /\
    trace w' = (trace w ++ evs)%list /\
    invocations evs = [maintenance_path m] /\
    statusCalls rw' = (statusCalls rw ++ [statusCode m])%list /\
    committed rw' = Some (if wroteHeader rw then Code rw else statusCode m) /\
    statusCode m' = statusCode m /\
    valid_request w' req r u h.
Proof.
  intros Hwf Hrule. rewrite (ServeHTTP_run m req w r u h Hreq), Hrule. cbn zeta.
  set (rw1 := rw_Header_Set "X-Maintenance-Mode" "true"
                (rw_Header_Set "Retry-After" "3600" rw)).
  set (fmt := "No bypass condition met for %s, serving maintenance page").
  unfold maintenance_path.
  destruct (nonempty (maintenanceFilePath m)) eqn:Hfile.
  { destruct (serveMaintenanceFile_status m rw1 req (logged m LogLevelInfo fmt w))
      as (m' & rw' & w' & evs & Hrun & -> & Hinv & Hs & Hc & Hst).
    eexists m', rw', _, (log_events m LogLevelInfo fmt ++ EvServeMaintenanceFile :: evs)%list.
    split; [exact Hrun|]. split; [cbn; now rewrite <- app_assoc|].
    split; [rewrite invocations_app, invocations_log_events; cbn;
            unfold invocations in Hinv; now rewrite Hinv|].
    split; [exact Hs|]. split; [exact Hc|]. split; [exact Hst|]. exact Hreq. }
  destruct (nonempty (maintenanceContent m)) eqn:Hinline.
  { destruct (serveMaintenanceContent_status m rw1 req (logged m LogLevelInfo fmt w))
      as (rw' & Hrun & Hs & Hc & _).
    eexists m, rw', _, (log_events m LogLevelInfo fmt ++ [EvServeMaintenanceContent])%list.
    unfold bind. rewrite Hrun. split; [reflexivity|].
    split; [cbn; now rewrite <- app_assoc|].
    split; [rewrite invocations_app, invocations_log_events; reflexivity|].
    split; [exact Hs|]. split; [exact Hc|]. split; [reflexivity|]. exact Hreq. }
  destruct (well_formed_remote m Hwf Hfile Hinline) as (target & Htarget).
  assert (Hreq1 : valid_request (logged m LogLevelInfo fmt w) req r u h) by exact Hreq.
  destruct (proxyToMaintenanceService_run m rw1 req _ r u h target Hreq1 Htarget)
    as (w' & evs & Hrun & Htrace & Hinv & _ & _ & Hrs & Hus & Hhs & _).
  destruct (relayed_status (statusCode m)
              (transport (logged m LogLevelInfo fmt w) (outbound_URL target u)) rw1)
    as (Hs & Hc).
  eexists m, _, w',
    (log_events m LogLevelInfo fmt ++ EvProxyToMaintenanceService
       :: EvRoundTrip (forwarded_URL target u) (Host target) :: evs)%list.
  unfold bind. rewrite Hrun. split; [reflexivity|].
  split; [rewrite Htrace; cbn; now rewrite <- app_assoc|].
  split; [rewrite invocations_app, invocations_log_events; cbn;
          unfold invocations in Hinv; now rewrite Hinv|].
  split; [exact Hs|]. split; [exact Hc|]. split; [reflexivity|].
  destruct Hreq as (Hr & Hu & Hh). repeat split; eauto.
Qed.
End Dispatch_outcome.

(** ** The dispatcher: decision, single invocation, status *)

(** C4. For a middleware [m] and a request with path [Path u] and headers
    [h], [ServeHTTP] returns having handed the request to exactly one
    collaborator [i], and [i] is a maintenance path exactly when the
    reference evaluator [shouldBypass] answers false: the request passes
    through iff (1) [enabled] is false, else (2) [bypassFavicon] holds and
    the path ends with "/favicon.ico", else (3) the path starts with a
    configured prefix, else (4) the value of the bypass header (empty when
    absent) equals the expected value.  The order is the one of
    [firstBypassRule]: when a rule is the first to hold, the events of the
    call are the debug line of that very rule followed by the call of the
    next handler.  In particular a path that has a configured prefix as a
    prefix goes to the next handler. *)
Theorem ServeHTTP_decides_as_shouldBypass (m : MaintenanceBypass)
    (rw : ResponseRecorder) (req : loc) (w : World)
    (r : http_Request) (u : url_URL) (h : http_Header) :
  valid_request w req r u h ->
  well_formed m = true ->
  exists m' rw' w' evs i,
    ServeHTTP m rw req w = Returns (m', rw') w' /\
    trace w' = (trace w ++ evs)%list /\
    invocations evs = [i] /\
    is_maintenance i = negb (shouldBypass m (Path u) h) /\
    shouldBypass m (Path u) h = not_nil (firstBypassRule m (Path u) h) /\
    (forall rule, firstBypassRule m (Path u) h = Some rule ->
       evs = (log_events m LogLevelDebug (rule_format rule) ++ [EvNext req])%list) /\
    (forall prefix rest, In prefix (bypassPaths m) -> Path u = prefix ++ rest ->
       i = NextHandler).
Proof.
  intros Hreq Hwf.
  pose proof (shouldBypass_firstBypassRule m (Path u) h) as Hagree.
  destruct (firstBypassRule m (Path u) h) as [rule|] eqn:Hrule.
  - destruct (ServeHTTP_bypass m rw req w r u h Hreq rule Hrule) as (Hrun & Hinv).
    eexists m, _, _, _, NextHandler. split; [exact Hrun|].
    split; [reflexivity|]. split; [exact Hinv|].
    rewrite Hagree. split; [reflexivity|]. split; [reflexivity|].
    split; [now intros rule' [= <-] | reflexivity].
  - destruct (ServeHTTP_maintenance m rw req w r u h Hreq Hwf Hrule)
      as (m' & rw' & w' & evs & Hrun & Htrace & Hinv & _).
    exists m', rw', w', evs, (maintenance_path m). split; [exact Hrun|].
    split; [exact Htrace|]. split; [exact Hinv|]. rewrite Hagree.
    split; [unfold maintenance_path; now repeat destruct (nonempty _)|].
    split; [reflexivity|]. split; [discriminate|].
    intros prefix rest Hin Hpath.
    pose proof (shouldBypass_prefix m (Path u) prefix rest h Hin Hpath) as Htrue.
    rewrite Hagree in Htrue. discriminate.
Qed.

(** C4 on the remote scenario: a request to /test without bypass header. *)
Lemma ServeHTTP_decides_as_shouldBypass_witness :
  valid_request (Scenario.world Scenario.no_files Scenario.no_header) 1%positive
    Scenario.request Scenario.request_URL Scenario.no_header /\
  well_formed Scenario.remote = true /\
  exists m' rw' w' evs i,
    ServeHTTP Scenario.remote (NewRecorder empty) 1%positive
      (Scenario.world Scenario.no_files Scenario.no_header) = Returns (m', rw') w' /\
    trace w' = (trace (Scenario.world Scenario.no_files Scenario.no_header) ++ evs)%list /\
    invocations evs = [i] /\
    is_maintenance i =
      negb (shouldBypass Scenario.remote (Path Scenario.request_URL) Scenario.no_header) /\
    shouldBypass Scenario.remote (Path Scenario.request_URL) Scenario.no_header =
      not_nil (firstBypassRule Scenario.remote (Path Scenario.request_URL) Scenario.no_header) /\
    (forall rule,
       firstBypassRule Scenario.remote (Path Scenario.request_URL) Scenario.no_header
         = Some rule ->
       evs = (log_events Scenario.remote LogLevelDebug (rule_format rule)
                ++ [EvNext 1%positive])%list) /\
    (forall prefix rest, In prefix (bypassPaths Scenario.remote) ->
       Path Scenario.request_URL = prefix ++ rest -> i = NextHandler).
Proof.
  assert (Hv : valid_request (Scenario.world Scenario.no_files Scenario.no_header) 1%positive
                 Scenario.request Scenario.request_URL Scenario.no_header)
    by (repeat split; reflexivity).
  split; [exact Hv|]. split; [reflexivity|].
  apply (ServeHTTP_decides_as_shouldBypass Scenario.remote (NewRecorder empty) 1%positive
           (Scenario.world Scenario.no_files Scenario.no_header)
           Scenario.request Scenario.request_URL Scenario.no_header Hv).
  reflexivity.
Defined.






(** ** Construction *)

Section New_facts.
Variable url_Parse : string -> url_URL + error.
Variables (next : Handler) (config : Config.t) (name : string) (w : World).

(** File mode: the file is loaded at once; construction succeeds exactly
    when it is a readable regular file that is not empty. *)
Lemma New_file_mode :
  nonempty (Config.MaintenanceFilePath config) = true ->
  exists res w',
    New url_Parse next config name w = Returns res w' /\
    disk w' = disk w /\
    match disk w !! Config.MaintenanceFilePath config with
    | Some (RegularFile t content) =>
        if (len content =? 0)%nat
        then exists err, res = inr err /\ err <> no_source_error
        else res = inl (set_file_cache content t (new_middleware next config name))
    | _ => exists err, res = inr err /\ err <> no_source_error
    end.
Proof.
  intros Hfile. unfold New. rewrite Hfile. unfold bind.
  rewrite loadMaintenanceFile_run. cbn zeta.
  change (maintenanceFilePath (new_middleware next config name))
    with (Config.MaintenanceFilePath config).
  change (maintenanceFileContent (new_middleware next config name)) with (@None string).
  cbn [not_nil andb].
  destruct (disk w !! Config.MaintenanceFilePath config) as [[t|t content]|];
    try (eexists _, _; repeat split; eexists; split; [reflexivity | discriminate]).
  destruct (len content =? 0)%nat; eexists _, _; repeat split.
  eexists; split; [reflexivity | discriminate].
Qed.

(** Inline mode: no input or output, construction succeeds. *)
Lemma New_inline_mode :
  nonempty (Config.MaintenanceFilePath config) = false ->
  nonempty (Config.MaintenanceContent config) = true ->
  New url_Parse next config name w =
    Returns (inl (new_middleware next config name))
      (logged (new_middleware next config name) LogLevelInfo
         "Using provided maintenance content (%d bytes)" w).
Proof.
  intros Hfile Hinline. unfold New. rewrite Hfile, Hinline.
  unfold bind. now rewrite log_run.
Qed.

(** Remote mode: the address must parse to a URL with scheme and host. *)
Lemma New_remote_mode :
  nonempty (Config.MaintenanceFilePath config) = false ->
  nonempty (Config.MaintenanceContent config) = false ->
  nonempty (Config.MaintenanceService config) = true ->
  exists res,
    New url_Parse next config name w = Returns res w /\
    match url_Parse (Config.MaintenanceService config) with
    | inl maintenanceURL =>
        if nonempty (Scheme maintenanceURL) && nonempty (Host maintenanceURL)
        then exists t, res = inl (set_service maintenanceURL t (new_middleware next config name))
        else exists err, res = inr err /\ err <> no_source_error
    | inr _ => exists err, res = inr err /\ err <> no_source_error
    end.
Proof.
  intros Hfile Hinline Hservice. unfold New. rewrite Hfile, Hinline, Hservice.
  destruct (url_Parse (Config.MaintenanceService config)) as [maintenanceURL|err];
    [|eexists; split; [reflexivity|]; eexists; split; [reflexivity | discriminate]].
  unfold nonempty.
  destruct (String.eqb (Scheme maintenanceURL) EmptyString); cbn;
    [eexists; split; [reflexivity|]; eexists; split; [reflexivity | discriminate]|].
  destruct (String.eqb (Host maintenanceURL) EmptyString); cbn;
    eexists; split; try reflexivity; eauto.
Qed.

(** A handler [New] returns takes the remote branch only with a target
    set, and keeps the status code with its default resolved. *)
Lemma New_well_formed (m : MaintenanceBypass) (w' : World) :
  New url_Parse next config name w = Returns (inl m) w' ->
  well_formed m = true /\
  statusCode m = (if Config.StatusCode config =? 0 then 503 else Config.StatusCode config) /\
  maintenanceFilePath m = Config.MaintenanceFilePath config /\
  maintenanceContent m = Config.MaintenanceContent config.
Proof.
  destruct (nonempty (Config.MaintenanceFilePath config)) eqn:Hfile.
  { destruct (New_file_mode Hfile) as (res & w1 & -> & _ & Hres).
    intros [= -> <-].
    destruct (disk w !! Config.MaintenanceFilePath config) as [[t|t content]|];
      try (destruct Hres as (err & [= ] & _)).
    destruct (len content =? 0)%nat; [destruct Hres as (err & [= ] & _)|].
    injection Hres as ->.
    unfold well_formed; cbn. rewrite Hfile. repeat split. }
  destruct (nonempty (Config.MaintenanceContent config)) eqn:Hinline.
  { rewrite (New_inline_mode Hfile Hinline). intros [= <- <-].
    unfold well_formed; cbn. rewrite Hfile, Hinline. repeat split. }
  destruct (nonempty (Config.MaintenanceService config)) eqn:Hservice.
  { destruct (New_remote_mode Hfile Hinline Hservice) as (res & -> & Hres).
    intros [= ->].
    destruct (url_Parse (Config.MaintenanceService config)) as [maintenanceURL|err];
      [|destruct Hres as (err' & [= ] & _)].
    destruct (nonempty (Scheme maintenanceURL) && nonempty (Host maintenanceURL));
      [|destruct Hres as (err' & [= ] & _)].
    destruct Hres as (t & [= ->]).
    unfold well_formed; cbn. rewrite Hfile, Hinline. repeat split. }
  unfold New. rewrite Hfile, Hinline, Hservice. discriminate.
Qed.

End New_facts.

(** C2, as amended.  [New] always returns.  It fails with the
    no-content-source error when none of file path, inline content and
    remote address is given.  Otherwise only the source that prevails
    (file path, then inline content, then remote address) is validated, and
    construction succeeds exactly when that validation passes; giving more
    than one source is not an error. *)
Theorem New_succeeds_iff_prevailing_source_validates
    (url_Parse : string -> url_URL + error) (next : Handler) (config : Config.t)
    (name : string) (w : World) :
  exists res w',
    New url_Parse next config name w = Returns res w' /\
    succeeded res = source_validates url_Parse config w /\
    (sources_given config = 0%nat <-> res = inr no_source_error).
Proof.
  unfold source_validates, prevailing_source, sources_given.
  destruct (nonempty (Config.MaintenanceFilePath config)) eqn:Hfile.
  { destruct (New_file_mode url_Parse next config name w Hfile) as (res & w1 & Hrun & _ & Hres).
    exists res, w1. split; [exact Hrun|]. unfold file_loads, file_bytes.
    destruct (disk w !! Config.MaintenanceFilePath config) as [[t|t content]|].
    - destruct Hres as (err & -> & Hne). split; [reflexivity|].
      split; [cbn; lia | congruence].
    - destruct (len content =? 0)%nat.
      + destruct Hres as (err & -> & Hne). split; [reflexivity|].
        split; [cbn; lia | congruence].
      + rewrite Hres. split; [reflexivity|]. split; [cbn; lia | discriminate].
    - destruct Hres as (err & -> & Hne). split; [reflexivity|].
      split; [cbn; lia | congruence]. }
  destruct (nonempty (Config.MaintenanceContent config)) eqn:Hinline.
  { rewrite (New_inline_mode url_Parse next config name w Hfile Hinline). eexists _, _. split; [reflexivity|].
    split; [reflexivity|]. split; [cbn; lia | discriminate]. }
  destruct (nonempty (Config.MaintenanceService config)) eqn:Hservice.
  { destruct (New_remote_mode url_Parse next config name w Hfile Hinline Hservice) as (res & Hrun & Hres).
    exists res, w. split; [exact Hrun|].
    destruct (url_Parse (Config.MaintenanceService config)) as [maintenanceURL|perr].
    - destruct (nonempty (Scheme maintenanceURL) && nonempty (Host maintenanceURL)).
      + destruct Hres as (t & ->). split; [reflexivity|].
        split; [cbn; lia | discriminate].
      + destruct Hres as (err & -> & Hne). split; [reflexivity|].
        split; [cbn; lia | congruence].
    - destruct Hres as (err & -> & Hne). split; [reflexivity|].
      split; [cbn; lia | congruence]. }
  unfold New. rewrite Hfile, Hinline, Hservice. eexists _, _.
  repeat split; reflexivity.
Qed.

(** ** Serving from the file cache *)

Section File_branch.
Variables (m : MaintenanceBypass) (rw : ResponseRecorder) (req : loc) (w : World).
Variable cached : string.
Hypothesis Hcached : maintenanceFileContent m = Some cached.

(** The file can be stat-ed and is not newer than the cache: the cached
    bytes are the body. *)
Lemma serveMaintenanceFile_cached (e : FileEntry) :
  disk w !! maintenanceFilePath m = Some e ->
  Time_After (entry_ModTime e) (maintenanceFileLastMod m) = false ->
  exists rw' w',
    serveMaintenanceFile m rw req w = Returns (m, rw') w' /\
    disk w' = disk w /\
    Body rw' = Body rw ++ cached /\
    committed rw' = Some (if wroteHeader rw then Code rw else statusCode m).
Proof.
  intros Hdisk Hafter. rewrite serveMaintenanceFile_run.
  rewrite (loadMaintenanceFile_not_newer m (emitted EvServeMaintenanceFile w) cached e
             Hcached Hdisk Hafter).
  cbn zeta. rewrite Hcached. eexists _, _. split; [reflexivity|].
  split; [reflexivity|].
  destruct (Recorder_respond (statusCode m) cached rw
              (rw_Header_Set "X-Maintenance-Mode" "true"
                 (rw_Header_Set "Cache-Control" "no-cache, no-store, must-revalidate"
                    (rw_Header_Set "Content-Type" (contentType m) rw))))
    as (_ & Hc & Hb & _); try reflexivity.
  split; assumption.
Qed.

(** The reload fails: the cache is kept, the body is the generic one. *)
Lemma serveMaintenanceFile_failed :
  reload_fails m w = true ->
  exists rw' w',
    serveMaintenanceFile m rw req w = Returns (m, rw') w' /\
    Body rw' = Body rw ++ ("Service Temporarily Unavailable" ++ LF) /\
    committed rw' = Some (if wroteHeader rw then Code rw else statusCode m) /\
    (wroteHeader rw = false ->
     Header_Get (sentHeader rw') "X-Maintenance-Mode" = "true").
Proof.
  intros Hfails. rewrite serveMaintenanceFile_run.
  assert (Hload : exists err w1,
            loadMaintenanceFile m (emitted EvServeMaintenanceFile w) =
              Returns (m, Some err) w1).
  { rewrite loadMaintenanceFile_run. cbn zeta.
    change (disk (emitted EvServeMaintenanceFile w)) with (disk w).
    unfold reload_fails in Hfails.
    destruct (disk w !! maintenanceFilePath m) as [e|]; [|eauto].
    apply andb_true_iff in Hfails as [Hafter Hbad].
    rewrite Hafter, andb_false_r. destruct e as [t|t content]; [eauto|].
    rewrite Hbad. eauto. }
  destruct Hload as (err & w1 & ->). eexists _, _. split; [reflexivity|].
  unfold http_Error.
  destruct (Recorder_respond (statusCode m) ("Service Temporarily Unavailable" ++ LF) rw
              (rw_Header_Set "X-Content-Type-Options" "nosniff"
                 (rw_Header_Set "Content-Type" "text/plain; charset=utf-8"
                    (rw_Header_Del "Content-Length"
                       (rw_Header_Set "X-Maintenance-Mode" "true" rw)))))
    as (_ & Hc & Hb & Hh); try reflexivity.
  split; [exact Hb|]. split; [exact Hc|].
  intros Hfresh. rewrite (Hh Hfresh).
  change (Header_Get (Header_Set "X-Content-Type-Options" "nosniff"
            (Header_Set "Content-Type" "text/plain; charset=utf-8"
               (Header_Del "Content-Length"
                  (Header_Set "X-Maintenance-Mode" "true" (HeaderMap rw)))))
            "X-Maintenance-Mode" = "true").
  unfold Header_Get, Header_Set, Header_Del.
  change (CanonicalMIMEHeaderKey "X-Maintenance-Mode") with "X-Maintenance-Mode".
  change (CanonicalMIMEHeaderKey "X-Content-Type-Options") with "X-Content-Type-Options".
  change (CanonicalMIMEHeaderKey "Content-Type") with "Content-Type".
  change (CanonicalMIMEHeaderKey "Content-Length") with "Content-Length".
  rewrite lookup_insert_ne by discriminate.
  rewrite lookup_insert_ne by discriminate.
  rewrite lookup_delete_ne by discriminate.
  now rewrite lookup_insert_eq.
Qed.
End File_branch.

(** C1, as amended.  In file mode, once a load has succeeded, a request
    served while the file is deleted, or emptied or unreadable with a
    modification time after the cached one, does not lose the cache: the
    middleware still holds the cached content and modification time.  But
    that request is answered with the generic body
    "Service Temporarily Unavailable" and a line feed, with
    X-Maintenance-Mode: true, not with the cached content.  The cached
    content is the body while the file can be stat-ed and its modification
    time is not after the cached one.  Either response goes out at the
    configured status code; this is stated for the status codes the writer
    commits and follows with a body ([answers_with_body]: 200 to 999, 204
    and 304 apart). *)
Theorem failed_reload_serves_generic_body (m : MaintenanceBypass)
    (rw : ResponseRecorder) (req : loc) (w : World) (cached : string) :
  maintenanceFileContent m = Some cached ->
  answers_with_body (statusCode m) = true ->
  wroteHeader rw = false ->
  (reload_fails m w = true ->
   exists rw' w',
     serveMaintenanceFile m rw req w = Returns (m, rw') w' /\
     Body rw' = Body rw ++ ("Service Temporarily Unavailable" ++ LF) /\
     committed rw' = Some (statusCode m) /\
     Header_Get (sentHeader rw') "X-Maintenance-Mode" = "true") /\
  (forall e, disk w !! maintenanceFilePath m = Some e ->
     Time_After (entry_ModTime e) (maintenanceFileLastMod m) = false ->
     exists rw' w',
       serveMaintenanceFile m rw req w = Returns (m, rw') w' /\
       Body rw' = Body rw ++ cached /\
       committed rw' = Some (statusCode m)).
Proof.
  intros Hcached _ Hfresh. split.
  - intros Hfails.
    destruct (serveMaintenanceFile_failed m rw req w Hfails)
      as (rw' & w' & Hrun & Hb & Hc & Hh).
    rewrite Hfresh in Hc. eauto 8.
  - intros e Hdisk Hafter.
    destruct (serveMaintenanceFile_cached m rw req w cached Hcached e Hdisk Hafter)
      as (rw' & w' & Hrun & _ & Hb & Hc).
    rewrite Hfresh in Hc. eauto 8.
Qed.

(** C1, as amended, on the file scenario with the file emptied on disk. *)
Lemma failed_reload_serves_generic_body_witness :
  maintenanceFileContent Scenario.loaded = Some Scenario.html /\
  answers_with_body (statusCode Scenario.loaded) = true /\
  wroteHeader (NewRecorder empty) = false /\
  reload_fails Scenario.loaded (Scenario.world Scenario.file_emptied Scenario.no_header) = true /\
  exists rw' w',
    serveMaintenanceFile Scenario.loaded (NewRecorder empty) 1%positive
      (Scenario.world Scenario.file_emptied Scenario.no_header)
      = Returns (Scenario.loaded, rw') w' /\
    Body rw' = Body (NewRecorder empty) ++ ("Service Temporarily Unavailable" ++ LF) /\
    committed rw' = Some (statusCode Scenario.loaded) /\
    Header_Get (sentHeader rw') "X-Maintenance-Mode" = "true".
Proof.
  split; [reflexivity|]. split; [reflexivity|]. split; [reflexivity|].
  split; [vm_compute; reflexivity|].
  apply (failed_reload_serves_generic_body Scenario.loaded (NewRecorder empty) 1%positive
           (Scenario.world Scenario.file_emptied Scenario.no_header) Scenario.html);
    [reflexivity | reflexivity | reflexivity | vm_compute; reflexivity].
Defined.

(** C1 as stated fails: the file is loaded at construction, then emptied
    on disk (with a later modification time); the next request is answered
    with the generic body, not with the cached content. *)
Lemma emptied_file_counterexample :
  constructed (New Scenario.url_Parse Scenario.next Scenario.file_config "maintenance-test"
                 (Scenario.world Scenario.file_present Scenario.no_header))
    = Some Scenario.loaded /\
  maintenanceFileContent Scenario.loaded = Some "<html>down</html>" /\
  option_map Body
    (response_of (ServeHTTP Scenario.loaded (NewRecorder empty) 1%positive
                    (Scenario.world Scenario.file_emptied Scenario.no_header)))
    = Some ("Service Temporarily Unavailable" ++ LF) /\
  "Service Temporarily Unavailable" ++ LF <> "<html>down</html>".
Proof.
  split; [reflexivity|]. split; [reflexivity|].
  split; [vm_compute; reflexivity | discriminate].
Qed.

(** C2 as stated fails: with inline content and a remote address both
    given, [New] succeeds. *)
Lemma two_sources_counterexample :
  sources_given Scenario.inline_and_remote = 2%nat /\
  constructed (New Scenario.url_Parse Scenario.next Scenario.inline_and_remote
                 "maintenance-test" (Scenario.world Scenario.no_files Scenario.no_header))
    = Some (new_middleware Scenario.next Scenario.inline_and_remote "maintenance-test").
Proof. split; reflexivity. Qed.

(** C10 as stated fails: with a file path and inline content both given
    and no file under the path, [New] fails. *)
Lemma unloadable_file_counterexample :
  sources_given Scenario.file_and_inline = 2%nat /\
  construction_error
    (New Scenario.url_Parse Scenario.next Scenario.file_and_inline
       "maintenance-test" (Scenario.world Scenario.no_files Scenario.no_header))
    = Some (ErrorfWrap "failed to load maintenance file: %w"
              (ErrorfWrap "error accessing maintenance file: %w"
                 (PathError "stat" "/etc/traefik/maintenance.html"))).
Proof. split; vm_compute; reflexivity. Qed.

(** ** Precedence of the content sources *)

Lemma two_sources_prevailing (config : Config.t) :
  (2 <= sources_given config)%nat ->
  nonempty (Config.MaintenanceFilePath config) = true \/
  nonempty (Config.MaintenanceFilePath config) = false /\
  nonempty (Config.MaintenanceContent config) = true.
Proof.
  unfold sources_given.
  destruct (nonempty (Config.MaintenanceFilePath config)); [now left|].
  destruct (nonempty (Config.MaintenanceContent config)); [now right|].
  destruct (nonempty (Config.MaintenanceService config)); cbn; lia.
Qed.

(** C10, as amended.  With more than one content source given, [New] does
    not fail on that account: the file path prevails over the inline
    content, which prevails over the remote address; only the prevailing
    source is validated, so construction succeeds exactly when a given file
    can be loaded, and always when no file path is given.  The handler it
    returns serves every request that is not bypassed through the path of
    the prevailing source, and while the disk is as it was at construction
    the body is the bytes of the file (with a file path given) or the inline
    string (without), the other sources being ignored. *)
Theorem content_source_precedence (url_Parse : string -> url_URL + error)
    (next : Handler) (config : Config.t) (name : string) (w : World) :
  (2 <= sources_given config)%nat ->
  exists res w' source,
    New url_Parse next config name w = Returns res w' /\
    prevailing_source (Config.MaintenanceFilePath config)
      (Config.MaintenanceContent config) (Config.MaintenanceService config) = Some source /\
    source = (if nonempty (Config.MaintenanceFilePath config)
              then SourceFile else SourceInline) /\
    succeeded res =
      match source with
      | SourceFile => file_loads w (Config.MaintenanceFilePath config)
      | _ => true
      end /\
    forall m, res = inl m ->
      well_formed m = true /\
      maintenance_path m = source_path source /\
      forall (rw : ResponseRecorder) (req : loc) (wr : World) r u h,
        valid_request wr req r u h ->
        shouldBypass m (Path u) h = false ->
        exists m' rw' wr' evs,
          ServeHTTP m rw req wr = Returns (m', rw') wr' /\
          trace wr' = (trace wr ++ evs)%list /\
          invocations evs = [source_path source] /\
          (disk wr = disk w ->
           Body rw' = Body rw ++
             match source with
             | SourceFile =>
                 default EmptyString (file_bytes w (Config.MaintenanceFilePath config))
             | _ => Config.MaintenanceContent config
             end).
Proof.
  intros Htwo. unfold prevailing_source.
  destruct (two_sources_prevailing config Htwo) as [Hfile|[Hfile Hinline]].
  - (* a file path is given *)
    destruct (New_file_mode url_Parse next config name w Hfile)
      as (res & w' & Hrun & _ & Hres).
    exists res, w', SourceFile. rewrite Hfile. split; [exact Hrun|].
    split; [reflexivity|]. split; [reflexivity|].
    unfold file_loads, file_bytes.
    destruct (disk w !! Config.MaintenanceFilePath config) as [[t|t content]|] eqn:Hdisk;
      try (destruct Hres as (err & -> & _); split; [reflexivity | discriminate]).
    destruct (len content =? 0)%nat eqn:Hlen;
      [destruct Hres as (err & -> & _); split; [reflexivity | discriminate]|].
    subst res. split; [reflexivity|]. intros m [= <-].
    set (m := set_file_cache content t (new_middleware next config name)).
    assert (Hpath : maintenance_path m = MaintenanceFile)
      by (unfold maintenance_path; cbn; now rewrite Hfile).
    assert (Hwf : well_formed m = true)
      by (unfold well_formed; cbn; now rewrite Hfile).
    split; [exact Hwf|]. split; [exact Hpath|].
    intros rw req wr r u h Hreq Hno.
    pose proof Hno as Hrule. apply shouldBypass_false in Hrule.
    destruct (ServeHTTP_maintenance m rw req wr r u h Hreq Hwf Hrule)
      as (m' & rw' & wr' & evs & Hserve & Htrace & Hinv & _).
    exists m', rw', wr', evs. split; [exact Hserve|]. split; [exact Htrace|].
    split; [rewrite Hinv, Hpath; reflexivity|]. intros Hsame.
    revert Hserve. rewrite (ServeHTTP_run m req wr r u h Hreq), Hrule. cbn zeta.
    change (nonempty (maintenanceFilePath m))
      with (nonempty (Config.MaintenanceFilePath config)). rewrite Hfile.
    set (rw1 := rw_Header_Set "X-Maintenance-Mode" "true" _).
    set (w1 := logged m LogLevelInfo _ wr).
    destruct (serveMaintenanceFile_cached m rw1 req w1 content eq_refl
                (RegularFile t content))
      as (rw2 & w2 & -> & _ & Hbody & _).
    { change (disk w1) with (disk wr). rewrite Hsame. exact Hdisk. }
    { cbn. unfold Time_After. apply Z.ltb_irrefl. }
    intros [= _ <- _]. exact Hbody.
  - (* no file path, inline content and a remote address *)
    rewrite (New_inline_mode url_Parse next config name w Hfile Hinline).
    eexists _, _, SourceInline. rewrite Hfile, Hinline. split; [reflexivity|].
    split; [reflexivity|]. split; [reflexivity|]. split; [reflexivity|].
    intros m [= <-].
    set (m := new_middleware next config name).
    assert (Hpath : maintenance_path m = MaintenanceInline)
      by (unfold maintenance_path; cbn; now rewrite Hfile, Hinline).
    assert (Hwf : well_formed m = true)
      by (unfold well_formed; cbn; now rewrite Hfile, Hinline).
    split; [exact Hwf|]. split; [exact Hpath|].
    intros rw req wr r u h Hreq Hno.
    pose proof Hno as Hrule. apply shouldBypass_false in Hrule.
    destruct (ServeHTTP_maintenance m rw req wr r u h Hreq Hwf Hrule)
      as (m' & rw' & wr' & evs & Hserve & Htrace & Hinv & _).
    exists m', rw', wr', evs. split; [exact Hserve|]. split; [exact Htrace|].
    split; [rewrite Hinv, Hpath; reflexivity|]. intros _.
    revert Hserve. rewrite (ServeHTTP_run m req wr r u h Hreq), Hrule. cbn zeta.
    change (nonempty (maintenanceFilePath m))
      with (nonempty (Config.MaintenanceFilePath config)).
    change (nonempty (maintenanceContent m))
      with (nonempty (Config.MaintenanceContent config)).
    rewrite Hfile, Hinline.
    set (rw1 := rw_Header_Set "X-Maintenance-Mode" "true" _).
    set (w1 := logged m LogLevelInfo _ wr).
    destruct (serveMaintenanceContent_status m rw1 req w1) as (rw2 & Hrun & _ & _ & Hbody).
    unfold bind. rewrite Hrun. intros [= _ <- _]. exact Hbody.
Qed.

(** C10, as amended, with a file path and inline content both given. *)
Lemma content_source_precedence_witness :
  (2 <= sources_given Scenario.file_and_inline)%nat /\
  exists res w' source,
    New Scenario.url_Parse Scenario.next Scenario.file_and_inline "maintenance-test"
      (Scenario.world Scenario.file_present Scenario.no_header) = Returns res w' /\
    prevailing_source (Config.MaintenanceFilePath Scenario.file_and_inline)
      (Config.MaintenanceContent Scenario.file_and_inline)
      (Config.MaintenanceService Scenario.file_and_inline) = Some source /\
    source = (if nonempty (Config.MaintenanceFilePath Scenario.file_and_inline)
              then SourceFile else SourceInline) /\
    succeeded res =
      match source with
      | SourceFile =>
          file_loads (Scenario.world Scenario.file_present Scenario.no_header)
            (Config.MaintenanceFilePath Scenario.file_and_inline)
      | _ => true
      end /\
    forall m, res = inl m ->
      well_formed m = true /\
      maintenance_path m = source_path source /\
      forall (rw : ResponseRecorder) (req : loc) (wr : World) r u h,
        valid_request wr req r u h ->
        shouldBypass m (Path u) h = false ->
        exists m' rw' wr' evs,
          ServeHTTP m rw req wr = Returns (m', rw') wr' /\
          trace wr' = (trace wr ++ evs)%list /\
          invocations evs = [source_path source] /\
          (disk wr = disk (Scenario.world Scenario.file_present Scenario.no_header) ->
           Body rw' = Body rw ++
             match source with
             | SourceFile =>
                 default EmptyString
                   (file_bytes (Scenario.world Scenario.file_present Scenario.no_header)
                      (Config.MaintenanceFilePath Scenario.file_and_inline))
             | _ => Config.MaintenanceContent Scenario.file_and_inline
             end).
Proof.
  assert (Htwo : (2 <= sources_given Scenario.file_and_inline)%nat)
    by (vm_compute; lia).
  split; [exact Htwo|].
  exact (content_source_precedence Scenario.url_Parse Scenario.next
           Scenario.file_and_inline "maintenance-test"
           (Scenario.world Scenario.file_present Scenario.no_header) Htwo).
Defined.

(** ** The file cache and the proxy on the scenarios *)

(** C8 on the file scenario: the file on disk is the one that was loaded. *)
Lemma load_idempotent_witness :
  maintenanceFileContent Scenario.loaded = Some Scenario.html /\
  disk (Scenario.world Scenario.file_present Scenario.no_header)
    !! maintenanceFilePath Scenario.loaded = Some (RegularFile 100 Scenario.html) /\
  Time_After (entry_ModTime (RegularFile 100 Scenario.html))
    (maintenanceFileLastMod Scenario.loaded) = false /\
  exists m' w',
    loadMaintenanceFile Scenario.loaded
      (Scenario.world Scenario.file_present Scenario.no_header) = Returns (m', None) w' /\
    trace w' = (trace (Scenario.world Scenario.file_present Scenario.no_header)
                  ++ [EvStat (maintenanceFilePath Scenario.loaded)])%list /\
    reads (trace w') = reads (trace (Scenario.world Scenario.file_present Scenario.no_header)) /\
    maintenanceFileContent m' = Some Scenario.html /\
    maintenanceFileLastMod m' = maintenanceFileLastMod Scenario.loaded /\
    m' = Scenario.loaded.
Proof.
  split; [reflexivity|]. split; [reflexivity|]. split; [reflexivity|].
  apply (load_idempotent Scenario.loaded
           (Scenario.world Scenario.file_present Scenario.no_header)
           Scenario.html (RegularFile 100 Scenario.html)); reflexivity.
Defined.

(** C9 on the file scenario: the file was emptied, the load fails. *)
Lemma load_failure_keeps_cache_witness :
  loadMaintenanceFile Scenario.loaded
    (Scenario.world Scenario.file_emptied Scenario.no_header)
    = Returns (Scenario.loaded,
               Some (Errorf "maintenance file is empty: %s" "/etc/traefik/maintenance.html"))
        (emitted (EvReadFile "/etc/traefik/maintenance.html")
           (emitted (EvStat "/etc/traefik/maintenance.html")
              (Scenario.world Scenario.file_emptied Scenario.no_header))) /\
  maintenanceFileContent Scenario.loaded = maintenanceFileContent Scenario.loaded /\
  maintenanceFileLastMod Scenario.loaded = maintenanceFileLastMod Scenario.loaded /\
  Scenario.loaded = Scenario.loaded /\
  (Errorf "maintenance file is empty: %s" "/etc/traefik/maintenance.html" =
     ErrorfWrap "error accessing maintenance file: %w"
       (PathError "stat" (maintenanceFilePath Scenario.loaded)) \/
   Errorf "maintenance file is empty: %s" "/etc/traefik/maintenance.html" =
     ErrorfWrap "error reading maintenance file: %w"
       (PathError "read" (maintenanceFilePath Scenario.loaded)) \/
   Errorf "maintenance file is empty: %s" "/etc/traefik/maintenance.html" =
     Errorf "maintenance file is empty: %s" (maintenanceFilePath Scenario.loaded)).
Proof.
  assert (Hrun :
    loadMaintenanceFile Scenario.loaded
      (Scenario.world Scenario.file_emptied Scenario.no_header)
    = Returns (Scenario.loaded,
               Some (Errorf "maintenance file is empty: %s" "/etc/traefik/maintenance.html"))
        (emitted (EvReadFile "/etc/traefik/maintenance.html")
           (emitted (EvStat "/etc/traefik/maintenance.html")
              (Scenario.world Scenario.file_emptied Scenario.no_header))))
    by reflexivity.
  split; [exact Hrun|].
  exact (load_failure_keeps_cache Scenario.loaded Scenario.loaded _ _ _ Hrun).
Defined.

(** C7 on the remote scenario. *)
Lemma proxy_leaves_request_unmodified_witness :
  valid_request (Scenario.world Scenario.no_files Scenario.no_header) 1%positive
    Scenario.request Scenario.request_URL Scenario.no_header /\
  maintenanceService Scenario.remote
    = Some (mk_URL "http" "maintenance-service" EmptyString EmptyString) /\
  exists rw' w',
    proxyToMaintenanceService Scenario.remote (NewRecorder empty) 1%positive
      (Scenario.world Scenario.no_files Scenario.no_header) = Returns rw' w' /\
    valid_request w' 1%positive Scenario.request Scenario.request_URL Scenario.no_header /\
    (exists pc uc hc,
       pc <> 1%positive /\ uc <> URL Scenario.request /\ hc <> Header Scenario.request /\
       requests w' !! pc =
         Some (mk_Request (Method Scenario.request) uc hc "maintenance-service") /\
       urls w' !! uc =
         Some (forwarded_URL (mk_URL "http" "maintenance-service" EmptyString EmptyString)
                 Scenario.request_URL) /\
       headers w' !! hc = Some Scenario.no_header) /\
    In (EvRoundTrip
          (forwarded_URL (mk_URL "http" "maintenance-service" EmptyString EmptyString)
             Scenario.request_URL) "maintenance-service") (trace w').
Proof.
  assert (Hv : valid_request (Scenario.world Scenario.no_files Scenario.no_header) 1%positive
                 Scenario.request Scenario.request_URL Scenario.no_header)
    by (repeat split; reflexivity).
  split; [exact Hv|]. split; [reflexivity|].
  exact (proxy_leaves_request_unmodified Scenario.remote (NewRecorder empty) 1%positive
           (Scenario.world Scenario.no_files Scenario.no_header)
           Scenario.request Scenario.request_URL Scenario.no_header
           (mk_URL "http" "maintenance-service" EmptyString EmptyString) Hv eq_refl).
Defined.

(** The scenarios of the specification. *)

(** Inline content, no bypass header: 503, the inline body, the
    maintenance header. *)
Example inline_scenario :
  let rw := response_of
              (ServeHTTP (new_middleware Scenario.next Scenario.inline_config "maintenance-test")
                 (NewRecorder empty) 1%positive
                 (Scenario.world Scenario.no_files Scenario.no_header)) in
  option_map committed rw = Some (Some 503) /\
  option_map Body rw = Some "<html>down</html>" /\
  option_map (fun rw => Header_Get (sentHeader rw) "X-Maintenance-Mode") rw = Some "true" /\
  option_map (fun rw => Header_Get (sentHeader rw) "Retry-After") rw = Some "3600".
Proof. vm_compute. repeat split. Qed.

(** The bypass header with the expected value: the next handler answers. *)
Example bypass_header_scenario :
  let rw := response_of
              (ServeHTTP (new_middleware Scenario.next Scenario.inline_config "maintenance-test")
                 (NewRecorder empty) 1%positive
                 (Scenario.world Scenario.no_files
                    {[ "X-Maintenance-Bypass" := ["true"] ]})) in
  option_map committed rw = Some (Some 200) /\
  option_map Body rw = Some "This is the real service content" /\
  option_map (fun rw => Header_Get (sentHeader rw) "X-Maintenance-Mode") rw
    = Some EmptyString.
Proof. vm_compute. repeat split. Qed.

(** A path under a bypass prefix is bypassed whatever the headers. *)
Example bypass_path_scenario :
  shouldBypass Scenario.loaded "/health/live" Scenario.no_header = true /\
  firstBypassRule Scenario.loaded "/health/live" Scenario.no_header
    = Some (RulePathPrefix "/health").
Proof. vm_compute. repeat split. Qed.

(** The backend answers 200, the client is sent 503 and the relayed body. *)
Example remote_scenario :
  let rw := response_of
              (ServeHTTP Scenario.remote (NewRecorder empty) 1%positive
                 (Scenario.world Scenario.no_files Scenario.no_header)) in
  option_map committed rw = Some (Some 503) /\
  option_map statusCalls rw = Some [503] /\
  option_map Body rw = Some "<html>maintenance</html>".
Proof. vm_compute. repeat split. Qed.

(** File path and inline content both given, the file present: the bytes
    of the file are served. *)
Example file_over_inline_scenario :
  let w := Scenario.world Scenario.file_present Scenario.no_header in
  match New Scenario.url_Parse Scenario.next Scenario.file_and_inline "maintenance-test" w with
  | Returns (inl m) w' =>
      option_map Body (response_of (ServeHTTP m (NewRecorder empty) 1%positive w'))
        = Some "<html>down</html>"
  | _ => False
  end.
Proof. vm_compute. reflexivity. Qed.

(** Writing through the original pointers instead of a clone would change
    the caller's request: the heap tells the two apart. *)
Example store_through_original_pointer :
  match store_url (URL Scenario.request)
          (forwarded_URL (mk_URL "http" "maintenance-service" EmptyString EmptyString)
             Scenario.request_URL)
          (Scenario.world Scenario.no_files Scenario.no_header) with
  | Returns _ w' => urls w' !! URL Scenario.request <> Some Scenario.request_URL
  | Panics _ => False
  end.
Proof. vm_compute. discriminate. Qed.

(** The default configuration names no content source. *)
Example default_config_has_no_source :
  construction_error
    (New Scenario.url_Parse Scenario.next CreateConfig "maintenance-test"
       (Scenario.world Scenario.no_files Scenario.no_header))
    = Some no_source_error.
Proof. reflexivity. Qed.

(** * Further properties of the code *)

(** ** Traces *)

Lemma stats_app (a b : list Event) : stats (a ++ b) = (stats a ++ stats b)%list.
Proof. unfold stats. apply omap_app. Qed.

Lemma log_lines_app (a b : list Event) :
  log_lines (a ++ b) = (log_lines a ++ log_lines b)%list.
Proof. unfold log_lines. apply omap_app. Qed.

Lemma stats_log_events m level format : stats (log_events m level format) = [].
Proof. unfold log_events. now destruct (level <=? logLevel m). Qed.

Lemma reads_log_events m level format : reads (log_events m level format) = [].
Proof. unfold log_events. now destruct (level <=? logLevel m). Qed.

Lemma set_trace_twice (w : World) (evs evs' : list Event) :
  set_trace (trace (set_trace (trace w ++ evs)%list w) ++ evs')%list
            (set_trace (trace w ++ evs)%list w) =
  set_trace (trace w ++ evs ++ evs')%list w.
Proof. unfold set_trace. cbn. now rewrite <- app_assoc. Qed.

(** Rewrites a world built by [emitted] and [logged] into the first world
    with a longer trace. *)
Ltac trace_norm := unfold emitted, logged; rewrite ?set_trace_twice.

(** ** What [New] returns *)

(** A handler [New] returns is the new instance with the file cache filled
    (file mode), as it is (inline mode), or with target and timeout set
    (remote mode). *)
Lemma New_shape (url_Parse : string -> url_URL + error) (next_handler : Handler)
    (config : Config.t) (name : string) (w w' : World) (m : MaintenanceBypass) :
  New url_Parse next_handler config name w = Returns (inl m) w' ->
  (nonempty (Config.MaintenanceFilePath config) = true /\
   exists t content,
     disk w !! Config.MaintenanceFilePath config = Some (RegularFile t content) /\
     (len content =? 0)%nat = false /\
     m = set_file_cache content t (new_middleware next_handler config name)) \/
  (nonempty (Config.MaintenanceFilePath config) = false /\
   nonempty (Config.MaintenanceContent config) = true /\
   m = new_middleware next_handler config name) \/
  (nonempty (Config.MaintenanceFilePath config) = false /\
   nonempty (Config.MaintenanceContent config) = false /\
   nonempty (Config.MaintenanceService config) = true /\
   w' = w /\
   exists maintenanceURL,
     url_Parse (Config.MaintenanceService config) = inl maintenanceURL /\
     nonempty (Scheme maintenanceURL) = true /\ nonempty (Host maintenanceURL) = true /\
     m = set_service maintenanceURL
           (let timeout := wrap64 (wrap64 (Config.MaintenanceTimeout config) * time_Second) in
            if timeout =? 0 then wrap64 (10 * time_Second) else timeout)
           (new_middleware next_handler config name)).
Proof.
  destruct (nonempty (Config.MaintenanceFilePath config)) eqn:Hfile.
  { destruct (New_file_mode url_Parse next_handler config name w Hfile)
      as (res & w1 & -> & _ & Hres).
    intros [= -> <-]. left. split; [reflexivity|].
    destruct (disk w !! Config.MaintenanceFilePath config) as [[t|t content]|];
      try (destruct Hres as (err & [= ] & _)).
    destruct (len content =? 0)%nat eqn:Hlen; [destruct Hres as (err & [= ] & _)|].
    injection Hres as ->. eauto. }
  destruct (nonempty (Config.MaintenanceContent config)) eqn:Hinline.
  { rewrite (New_inline_mode url_Parse next_handler config name w Hfile Hinline).
    intros [= <- <-]. right. left. auto. }
  destruct (nonempty (Config.MaintenanceService config)) eqn:Hservice.
  2:{ unfold New. rewrite Hfile, Hinline, Hservice. discriminate. }
  unfold New. rewrite Hfile, Hinline, Hservice. intros HNew. right. right.
  destruct (url_Parse (Config.MaintenanceService config)) as [maintenanceURL|err];
    [|discriminate].
  unfold nonempty.
  destruct (String.eqb (Scheme maintenanceURL) EmptyString) eqn:HScheme; [discriminate|].
  destruct (String.eqb (Host maintenanceURL) EmptyString) eqn:HHost; [discriminate|].
  cbn [orb] in HNew. injection HNew as <- <-.
  repeat split. exists maintenanceURL. rewrite HScheme, HHost. repeat split.
Qed.

Lemma wrap64_in_range (z : Z) : - 2 ^ 63 <= z < 2 ^ 63 -> wrap64 z = z.
Proof.
  intros Hz. unfold wrap64.
  change (2 ^ 63) with 9223372036854775808 in *.
  change (2 ^ 64) with 18446744073709551616.
  rewrite Z.mod_small by lia. lia.
Qed.

(** X1. The handler [New] returns has its status code and content type
    resolved: a zero status code has become 503 and an empty content type
    "text/html; charset=utf-8", any other value is kept, so neither is ever
    zero or empty; the next handler, the name, the file path, the inline
    content, the bypass settings, the enabled flag and the log level are the
    configured ones. *)
Theorem New_resolves_defaults (url_Parse : string -> url_URL + error)
    (next_handler : Handler) (config : Config.t) (middleware_name : string)
    (w w' : World) (m : MaintenanceBypass) :
  New url_Parse next_handler config middleware_name w = Returns (inl m) w' ->
  statusCode m = (if Config.StatusCode config =? 0 then http_StatusServiceUnavailable
                  else Config.StatusCode config) /\
  statusCode m <> 0 /\
  contentType m = (if String.eqb (Config.ContentType config) EmptyString
                   then "text/html; charset=utf-8" else Config.ContentType config) /\
  contentType m <> EmptyString /\
  next m = next_handler /\
  name m = middleware_name /\
  maintenanceFilePath m = Config.MaintenanceFilePath config /\
  maintenanceContent m = Config.MaintenanceContent config /\
  bypassHeader m = Config.BypassHeader config /\
  bypassHeaderValue m = Config.BypassHeaderValue config /\
  bypassPaths m = Config.BypassPaths config /\
  bypassFavicon m = Config.BypassFavicon config /\
  enabled m = Config.Enabled config /\
  logLevel m = Config.LogLevel config.
Proof.
  intros HNew.
  assert (Hm : exists content t service timeout,
             m = mk_MaintenanceBypass next_handler service (Config.MaintenanceFilePath config)
                   content (Config.MaintenanceContent config) t
                   (Config.BypassHeader config) (Config.BypassHeaderValue config)
                   (Config.Enabled config)
                   (if Config.StatusCode config =? 0 then http_StatusServiceUnavailable
                    else Config.StatusCode config)
                   (Config.BypassPaths config) (Config.BypassFavicon config)
                   middleware_name (Config.LogLevel config) timeout
                   (if String.eqb (Config.ContentType config) EmptyString
                    then "text/html; charset=utf-8" else Config.ContentType config)).
  { destruct (New_shape _ _ _ _ _ _ _ HNew)
      as [(_ & t & content & _ & _ & ->)
         |[(_ & _ & ->)
          |(_ & _ & _ & _ & maintenanceURL & _ & _ & _ & ->)]];
      repeat eexists. }
  destruct Hm as (content & t & service & timeout & ->).
  cbn [statusCode contentType next name maintenanceFilePath maintenanceContent
       bypassHeader bypassHeaderValue bypassPaths bypassFavicon enabled logLevel].
  repeat split.
  - destruct (Config.StatusCode config =? 0) eqn:E; [discriminate|].
    now apply Z.eqb_neq.
  - destruct (String.eqb (Config.ContentType config) EmptyString) eqn:E; [discriminate|].
    now apply String.eqb_neq.
Qed.

Lemma New_resolves_defaults_witness :
  New Scenario.url_Parse Scenario.next Cases.bare_inline "maintenance-test"
      (Scenario.world Scenario.no_files Scenario.no_header)
    = Returns (inl (new_middleware Scenario.next Cases.bare_inline "maintenance-test"))
              (Scenario.world Scenario.no_files Scenario.no_header) /\
  let m := new_middleware Scenario.next Cases.bare_inline "maintenance-test" in
  statusCode m = (if Config.StatusCode Cases.bare_inline =? 0
                  then http_StatusServiceUnavailable
                  else Config.StatusCode Cases.bare_inline) /\
  statusCode m <> 0 /\
  contentType m = (if String.eqb (Config.ContentType Cases.bare_inline) EmptyString
                   then "text/html; charset=utf-8"
                   else Config.ContentType Cases.bare_inline) /\
  contentType m <> EmptyString /\
  next m = Scenario.next /\
  name m = "maintenance-test" /\
  maintenanceFilePath m = Config.MaintenanceFilePath Cases.bare_inline /\
  maintenanceContent m = Config.MaintenanceContent Cases.bare_inline /\
  bypassHeader m = Config.BypassHeader Cases.bare_inline /\
  bypassHeaderValue m = Config.BypassHeaderValue Cases.bare_inline /\
  bypassPaths m = Config.BypassPaths Cases.bare_inline /\
  bypassFavicon m = Config.BypassFavicon Cases.bare_inline /\
  enabled m = Config.Enabled Cases.bare_inline /\
  logLevel m = Config.LogLevel Cases.bare_inline.
Proof.
  split; [reflexivity|].
  apply (New_resolves_defaults Scenario.url_Parse Scenario.next Cases.bare_inline
           "maintenance-test" (Scenario.world Scenario.no_files Scenario.no_header)
           (Scenario.world Scenario.no_files Scenario.no_header)).
  reflexivity.
Defined.

(** X2. Remote mode: the handler [New] returns holds the parsed address,
    which has a scheme and a host, and a timeout that is never zero: ten
    seconds when the configured number of seconds is zero, and otherwise,
    while the nanoseconds fit 64 bits, that number of seconds, a negative
    number included.  The world is left as it was: nothing is read and
    nothing is logged. *)
Theorem New_remote_target_and_timeout (url_Parse : string -> url_URL + error)
    (next_handler : Handler) (config : Config.t) (middleware_name : string)
    (w w' : World) (m : MaintenanceBypass) :
  nonempty (Config.MaintenanceFilePath config) = false ->
  nonempty (Config.MaintenanceContent config) = false ->
  New url_Parse next_handler config middleware_name w = Returns (inl m) w' ->
  w' = w /\
  (exists maintenanceURL,
     url_Parse (Config.MaintenanceService config) = inl maintenanceURL /\
     maintenanceService m = Some maintenanceURL /\
     Scheme maintenanceURL <> EmptyString /\ Host maintenanceURL <> EmptyString) /\
  maintenanceFileContent m = None /\
  timeout m <> 0 /\
  (Config.MaintenanceTimeout config = 0 -> timeout m = 10 * time_Second) /\
  (- max_timeout_seconds <= Config.MaintenanceTimeout config <= max_timeout_seconds ->
   Config.MaintenanceTimeout config <> 0 ->
   timeout m = Config.MaintenanceTimeout config * time_Second).
Proof.
  intros Hfile Hinline HNew.
  destruct (New_shape _ _ _ _ _ _ _ HNew)
    as [(Hf & _)|[(_ & Hi & _)|(_ & _ & _ & -> & maintenanceURL & Hparse & HS & HH & ->)]];
    [congruence | congruence |].
  cbn [maintenanceService maintenanceFileContent timeout set_service new_middleware].
  split; [reflexivity|]. split.
  { exists maintenanceURL. repeat split; try assumption.
    - intros E. rewrite E in HS. discriminate.
    - intros E. rewrite E in HH. discriminate. }
  split; [reflexivity|].
  assert (Hten : wrap64 (10 * time_Second) = 10 * time_Second) by (vm_compute; reflexivity).
  rewrite Hten. cbn zeta. split; [|split].
  - destruct (wrap64 (wrap64 (Config.MaintenanceTimeout config) * time_Second) =? 0) eqn:E.
    + unfold time_Second. lia.
    + now apply Z.eqb_neq.
  - intros ->. reflexivity.
  - unfold max_timeout_seconds. intros Hrange Hnz.
    rewrite (wrap64_in_range (Config.MaintenanceTimeout config)) by lia.
    rewrite wrap64_in_range by (unfold time_Second; lia).
    destruct (Config.MaintenanceTimeout config * time_Second =? 0) eqn:E; [|reflexivity].
    apply Z.eqb_eq in E. unfold time_Second in E. lia.
Qed.

Lemma New_remote_target_and_timeout_witness :
  nonempty (Config.MaintenanceFilePath Cases.remote_config) = false /\
  nonempty (Config.MaintenanceContent Cases.remote_config) = false /\
  New Scenario.url_Parse Scenario.next Cases.remote_config "maintenance-test"
      (Scenario.world Scenario.no_files Scenario.no_header)
    = Returns (inl Scenario.remote) (Scenario.world Scenario.no_files Scenario.no_header) /\
  Scenario.world Scenario.no_files Scenario.no_header
    = Scenario.world Scenario.no_files Scenario.no_header /\
  (exists maintenanceURL,
     Scenario.url_Parse (Config.MaintenanceService Cases.remote_config)
       = inl maintenanceURL /\
     maintenanceService Scenario.remote = Some maintenanceURL /\
     Scheme maintenanceURL <> EmptyString /\ Host maintenanceURL <> EmptyString) /\
  maintenanceFileContent Scenario.remote = None /\
  timeout Scenario.remote <> 0 /\
  (Config.MaintenanceTimeout Cases.remote_config = 0 ->
   timeout Scenario.remote = 10 * time_Second) /\
  (- max_timeout_seconds <= Config.MaintenanceTimeout Cases.remote_config
     <= max_timeout_seconds ->
   Config.MaintenanceTimeout Cases.remote_config <> 0 ->
   timeout Scenario.remote = Config.MaintenanceTimeout Cases.remote_config * time_Second).
Proof.
  split; [reflexivity|]. split; [reflexivity|]. split; [reflexivity|].
  apply (New_remote_target_and_timeout Scenario.url_Parse Scenario.next Cases.remote_config
           "maintenance-test" (Scenario.world Scenario.no_files Scenario.no_header)
           (Scenario.world Scenario.no_files Scenario.no_header) Scenario.remote);
    reflexivity.
Defined.

Lemma new_middleware_without_service (next_handler : Handler) (service : string)
    (config : Config.t) (middleware_name : string) :
  new_middleware next_handler (with_MaintenanceService service config) middleware_name =
  new_middleware next_handler config middleware_name.
Proof. reflexivity. Qed.

(** X3. While a file path or inline content is configured, the remote
    address plays no part in construction: [New] returns the same result in
    the same world whatever the address is and whatever [url.Parse] would
    make of it, so a malformed address goes unnoticed. *)
Theorem New_ignores_remote_address (parse1 parse2 : string -> url_URL + error)
    (next_handler : Handler) (service : string) (config : Config.t)
    (middleware_name : string) (w : World) :
  nonempty (Config.MaintenanceFilePath config) = true \/
  nonempty (Config.MaintenanceContent config) = true ->
  New parse1 next_handler (with_MaintenanceService service config) middleware_name w =
  New parse2 next_handler config middleware_name w.
Proof.
  intros Hsource. unfold New. rewrite new_middleware_without_service.
  cbn [with_MaintenanceService Config.MaintenanceFilePath Config.MaintenanceContent].
  destruct (nonempty (Config.MaintenanceFilePath config)); [reflexivity|].
  destruct (nonempty (Config.MaintenanceContent config)); [reflexivity|].
  destruct Hsource; discriminate.
Qed.

Lemma New_ignores_remote_address_witness :
  (nonempty (Config.MaintenanceFilePath Scenario.inline_config) = true \/
   nonempty (Config.MaintenanceContent Scenario.inline_config) = true) /\
  New (fun rawURL => inr (url_Error "parse" rawURL)) Scenario.next
      (with_MaintenanceService "::not a url" Scenario.inline_config) "maintenance-test"
      (Scenario.world Scenario.no_files Scenario.no_header) =
  New Scenario.url_Parse Scenario.next Scenario.inline_config "maintenance-test"
      (Scenario.world Scenario.no_files Scenario.no_header).
Proof.
  split; [right; reflexivity|].
  apply (New_ignores_remote_address (fun rawURL => inr (url_Error "parse" rawURL))
           Scenario.url_Parse Scenario.next "::not a url" Scenario.inline_config
           "maintenance-test" (Scenario.world Scenario.no_files Scenario.no_header)).
  right; reflexivity.
Defined.

(** X4. What construction touches: [New] changes nothing in the world but
    the trace, calls no handler, and goes to the file system only in file
    mode, where it stats the configured path once and, when there is an
    entry under it, reads it once; inline and remote mode make no file
    system call.  This holds whether [New] returns a handler or an error. *)
Theorem New_file_access (url_Parse : string -> url_URL + error)
    (next_handler : Handler) (config : Config.t) (middleware_name : string) (w : World) :
  exists res evs,
    New url_Parse next_handler config middleware_name w =
      Returns res (set_trace (trace w ++ evs)%list w) /\
    invocations evs = [] /\
    stats evs = (if nonempty (Config.MaintenanceFilePath config)
                 then [Config.MaintenanceFilePath config] else []) /\
    reads evs = (if nonempty (Config.MaintenanceFilePath config)
                 then match disk w !! Config.MaintenanceFilePath config with
                      | Some _ => [Config.MaintenanceFilePath config]
                      | None => []
                      end
                 else []).
Proof.
  unfold New.
  destruct (nonempty (Config.MaintenanceFilePath config)) eqn:Hfile.
  - unfold bind. rewrite loadMaintenanceFile_run.
    cbn [maintenanceFilePath maintenanceFileContent new_middleware not_nil andb].
    cbn zeta.
    destruct (disk w !! Config.MaintenanceFilePath config) as [[t|t content]|].
    + unfold ret. trace_norm. eexists _, _. split; [reflexivity|]. repeat split.
    + destruct (len content =? 0)%nat.
      * unfold ret. trace_norm. eexists _, _. split; [reflexivity|]. repeat split.
      * unfold ret. trace_norm. eexists _, _. split; [reflexivity|].
        rewrite !invocations_app, !stats_app, !reads_app,
          invocations_log_events, stats_log_events, reads_log_events.
        repeat split.
    + unfold ret. trace_norm. eexists _, _. split; [reflexivity|]. repeat split.
  - destruct (nonempty (Config.MaintenanceContent config)).
    + unfold bind. rewrite log_run. unfold ret. trace_norm.
      eexists _, _. split; [reflexivity|].
      rewrite invocations_log_events, stats_log_events, reads_log_events. repeat split.
    + assert (Hw : w = set_trace (trace w ++ [])%list w)
        by (rewrite app_nil_r; symmetry; apply set_trace_id).
      destruct (nonempty (Config.MaintenanceService config)).
      * destruct (url_Parse (Config.MaintenanceService config)) as [maintenanceURL|err].
        -- destruct (String.eqb (Scheme maintenanceURL) EmptyString ||
                     String.eqb (Host maintenanceURL) EmptyString);
             unfold ret; eexists _, []; (split; [f_equal; exact Hw|]); repeat split.
        -- unfold ret; eexists _, []; (split; [f_equal; exact Hw|]); repeat split.
      * unfold ret; eexists _, []; (split; [f_equal; exact Hw|]); repeat split.
Qed.

(** X5. The defaults of [CreateConfig] are the fallbacks of [New]: a
    configuration whose status code, maintenance timeout and content type
    are left at their zero values is constructed exactly as the same
    configuration with the three values [CreateConfig] gives (503, 10
    seconds, "text/html; charset=utf-8"). *)
Theorem New_fallbacks_are_CreateConfig_defaults (url_Parse : string -> url_URL + error)
    (next_handler : Handler) (config : Config.t) (middleware_name : string) (w : World) :
  New url_Parse next_handler (with_response_settings 0 0 EmptyString config)
      middleware_name w =
  New url_Parse next_handler
      (with_response_settings (Config.StatusCode CreateConfig)
         (Config.MaintenanceTimeout CreateConfig) (Config.ContentType CreateConfig) config)
      middleware_name w.
Proof.
  unfold New.
  change (new_middleware next_handler (with_response_settings 0 0 EmptyString config)
            middleware_name)
    with (new_middleware next_handler
            (with_response_settings (Config.StatusCode CreateConfig)
               (Config.MaintenanceTimeout CreateConfig) (Config.ContentType CreateConfig)
               config) middleware_name).
  cbn [with_response_settings Config.MaintenanceFilePath Config.MaintenanceContent
       Config.MaintenanceService Config.MaintenanceTimeout CreateConfig].
  destruct (nonempty (Config.MaintenanceFilePath config)); [reflexivity|].
  destruct (nonempty (Config.MaintenanceContent config)); [reflexivity|].
  destruct (nonempty (Config.MaintenanceService config)); [|reflexivity].
  destruct (url_Parse (Config.MaintenanceService config)) as [maintenanceURL|err];
    [|reflexivity].
  destruct (String.eqb (Scheme maintenanceURL) EmptyString ||
            String.eqb (Host maintenanceURL) EmptyString); [reflexivity|].
  cbn zeta.
  assert (Hzero : (wrap64 (wrap64 0 * time_Second) =? 0) = true) by (vm_compute; reflexivity).
  assert (Hten : (wrap64 (wrap64 10 * time_Second) =? 0) = false) by (vm_compute; reflexivity).
  assert (Heq : wrap64 (10 * time_Second) = wrap64 (wrap64 10 * time_Second))
    by (vm_compute; reflexivity).
  rewrite Hzero, Hten, Heq. reflexivity.
Qed.

(** X21. The error of a failed construction names its cause.  In file mode
    it wraps the error of the load under "failed to load maintenance file",
    and the load error is the stat error when there is no entry under the
    path, the read error when the entry cannot be read, and the empty-file
    error when the file has no bytes.  In remote mode it wraps the error of
    [url.Parse] under "invalid maintenance service URL", or, for an address
    that parses but lacks a scheme or a host, says that both are required.
    With no source at all it is the no-content-source error.  Inline mode
    never fails. *)
Theorem New_error_names_its_cause (url_Parse : string -> url_URL + error)
    (next_handler : Handler) (config : Config.t) (middleware_name : string)
    (w w' : World) (err : error) :
  New url_Parse next_handler config middleware_name w = Returns (inr err) w' ->
  match prevailing_source (Config.MaintenanceFilePath config)
          (Config.MaintenanceContent config) (Config.MaintenanceService config) with
  | Some SourceFile =>
      let path := Config.MaintenanceFilePath config in
      err = ErrorfWrap "failed to load maintenance file: %w"
              match disk w !! path with
              | None => ErrorfWrap "error accessing maintenance file: %w"
                                   (PathError "stat" path)
              | Some (NotReadable _) =>
                  ErrorfWrap "error reading maintenance file: %w" (PathError "read" path)
              | Some (RegularFile _ _) => Errorf "maintenance file is empty: %s" path
              end /\
      file_loads w path = false
  | Some SourceInline => False
  | Some SourceRemote =>
      match url_Parse (Config.MaintenanceService config) with
      | inr cause => err = ErrorfWrap "invalid maintenance service URL: %w" cause
      | inl maintenanceURL =>
          err = Errorf "maintenance service URL must include scheme and host" EmptyString /\
          (Scheme maintenanceURL = EmptyString \/ Host maintenanceURL = EmptyString)
      end
  | None => err = no_source_error
  end.
Proof.
  unfold New, prevailing_source.
  destruct (nonempty (Config.MaintenanceFilePath config)) eqn:Hfile.
  - unfold bind. rewrite loadMaintenanceFile_run. unfold file_loads, file_bytes.
    cbn [maintenanceFilePath maintenanceFileContent new_middleware not_nil andb].
    cbn zeta.
    destruct (disk w !! Config.MaintenanceFilePath config) as [[t|t content]|].
    + intros [= <- _]. split; reflexivity.
    + destruct (len content =? 0)%nat eqn:Hlen.
      * intros [= <- _]. split; reflexivity.
      * discriminate.
    + intros [= <- _]. split; reflexivity.
  - destruct (nonempty (Config.MaintenanceContent config)).
    + unfold bind. rewrite log_run. discriminate.
    + destruct (nonempty (Config.MaintenanceService config)).
      * destruct (url_Parse (Config.MaintenanceService config)) as [maintenanceURL|cause].
        -- destruct (String.eqb (Scheme maintenanceURL) EmptyString) eqn:HScheme.
           ++ intros [= <- _]. split; [reflexivity|]. left. now apply String.eqb_eq.
           ++ destruct (String.eqb (Host maintenanceURL) EmptyString) eqn:HHost.
              ** intros [= <- _]. split; [reflexivity|]. right. now apply String.eqb_eq.
              ** discriminate.
        -- now intros [= <- _].
      * now intros [= <- _].
Qed.

Lemma New_error_names_its_cause_witness :
  New Scenario.url_Parse Scenario.next
      (Scenario.with_sources "maintenance-service" EmptyString EmptyString)
      "maintenance-test" (Scenario.world Scenario.no_files Scenario.no_header)
    = Returns (inr (Errorf "maintenance service URL must include scheme and host"
                           EmptyString))
              (Scenario.world Scenario.no_files Scenario.no_header) /\
  match prevailing_source
          (Config.MaintenanceFilePath
             (Scenario.with_sources "maintenance-service" EmptyString EmptyString))
          (Config.MaintenanceContent
             (Scenario.with_sources "maintenance-service" EmptyString EmptyString))
          (Config.MaintenanceService
             (Scenario.with_sources "maintenance-service" EmptyString EmptyString)) with
  | Some SourceFile =>
      let path := Config.MaintenanceFilePath
                    (Scenario.with_sources "maintenance-service" EmptyString EmptyString) in
      Errorf "maintenance service URL must include scheme and host" EmptyString
        = ErrorfWrap "failed to load maintenance file: %w"
            match disk (Scenario.world Scenario.no_files Scenario.no_header) !! path with
            | None => ErrorfWrap "error accessing maintenance file: %w"
                                 (PathError "stat" path)
            | Some (NotReadable _) =>
                ErrorfWrap "error reading maintenance file: %w" (PathError "read" path)
            | Some (RegularFile _ _) => Errorf "maintenance file is empty: %s" path
            end /\
      file_loads (Scenario.world Scenario.no_files Scenario.no_header) path = false
  | Some SourceInline => False
  | Some SourceRemote =>
      match Scenario.url_Parse
              (Config.MaintenanceService
                 (Scenario.with_sources "maintenance-service" EmptyString EmptyString)) with
      | inr cause =>
          Errorf "maintenance service URL must include scheme and host" EmptyString
            = ErrorfWrap "invalid maintenance service URL: %w" cause
      | inl maintenanceURL =>
          Errorf "maintenance service URL must include scheme and host" EmptyString
            = Errorf "maintenance service URL must include scheme and host" EmptyString /\
          (Scheme maintenanceURL = EmptyString \/ Host maintenanceURL = EmptyString)
      end
  | None =>
      Errorf "maintenance service URL must include scheme and host" EmptyString
        = no_source_error
  end.
Proof.
  split; [reflexivity|].
  apply (New_error_names_its_cause Scenario.url_Parse Scenario.next
           (Scenario.with_sources "maintenance-service" EmptyString EmptyString)
           "maintenance-test" (Scenario.world Scenario.no_files Scenario.no_header)
           (Scenario.world Scenario.no_files Scenario.no_header)).
  reflexivity.
Defined.

(** ** The file cache *)

Lemma same_settings_refl (m : MaintenanceBypass) : same_settings m m.
Proof. now destruct m. Qed.

Lemma same_settings_cache (content : string) (t : Time) (m : MaintenanceBypass) :
  same_settings m (set_file_cache content t m).
Proof. reflexivity. Qed.

Lemma same_settings_well_formed (m m' : MaintenanceBypass) :
  same_settings m m' -> well_formed m' = well_formed m.
Proof. intros ->. reflexivity. Qed.

(** A load that finds a regular, non-empty file, with nothing cached or
    with the file newer than the cache, reads it and fills the cache. *)
Lemma loadMaintenanceFile_reload (m : MaintenanceBypass) (w : World) (t : Time)
    (content : string) :
  disk w !! maintenanceFilePath m = Some (RegularFile t content) ->
  (len content =? 0)%nat = false ->
  maintenanceFileContent m = None \/ Time_After t (maintenanceFileLastMod m) = true ->
  loadMaintenanceFile m w =
    Returns (set_file_cache content t m, None)
      (set_trace (trace w ++ [EvStat (maintenanceFilePath m)] ++
                  [EvReadFile (maintenanceFilePath m)] ++
                  log_events m LogLevelInfo "Loaded maintenance file: %s (%d bytes)")%list w).
Proof.
  intros Hdisk Hlen Hstale. rewrite loadMaintenanceFile_run. cbn zeta.
  rewrite Hdisk. cbn [entry_ModTime].
  assert (Hcond : not_nil (maintenanceFileContent m) &&
                  negb (Time_After t (maintenanceFileLastMod m)) = false).
  { destruct Hstale as [-> | ->]; [reflexivity|]. apply andb_false_r. }
  rewrite Hcond, Hlen. trace_norm. reflexivity.
Qed.

(** X6. A file that was replaced is picked up by the next request: when the
    path holds a regular, non-empty file and nothing is cached yet or the
    file's modification time is after the cached one, [loadMaintenanceFile]
    stats and reads the file once, caches its bytes and its modification
    time and returns no error, and [serveMaintenanceFile] answers with the
    new bytes at the configured status code, a status code the writer
    commits and follows with a body ([answers_with_body]). *)
Theorem newer_file_is_reloaded_and_served (m : MaintenanceBypass)
    (rw : ResponseRecorder) (req : loc) (w : World) (t : Time) (content : string) :
  disk w !! maintenanceFilePath m = Some (RegularFile t content) ->
  (len content =? 0)%nat = false ->
  maintenanceFileContent m = None \/ Time_After t (maintenanceFileLastMod m) = true ->
  answers_with_body (statusCode m) = true ->
  loadMaintenanceFile m w =
    Returns (set_file_cache content t m, None)
      (set_trace (trace w ++ [EvStat (maintenanceFilePath m)] ++
                  [EvReadFile (maintenanceFilePath m)] ++
                  log_events m LogLevelInfo "Loaded maintenance file: %s (%d bytes)")%list w) /\
  exists rw' w',
    serveMaintenanceFile m rw req w = Returns (set_file_cache content t m, rw') w' /\
    Body rw' = Body rw ++ content /\
    committed rw' = Some (if wroteHeader rw then Code rw else statusCode m) /\
    reads (trace w') = (reads (trace w) ++ [maintenanceFilePath m])%list /\
    disk w' = disk w.
Proof.
  intros Hdisk Hlen Hstale _.
  split; [now apply loadMaintenanceFile_reload|].
  rewrite serveMaintenanceFile_run.
  rewrite (loadMaintenanceFile_reload m (emitted EvServeMaintenanceFile w) t content)
    by assumption.
  cbn zeta. eexists _, _. split; [reflexivity|].
  cbn [maintenanceFileContent set_file_cache default statusCode contentType].
  change (id content) with content.
  match goal with
  | |- context [Write content (WriteHeader ?S ?r)] =>
      destruct (Recorder_respond S content rw r) as (_ & Hcommitted & HBody & _);
        try reflexivity
  end.
  split; [exact HBody|]. split; [exact Hcommitted|].
  split; [|reflexivity].
  cbn [trace set_trace emitted]. rewrite !reads_app, reads_log_events.
  cbn. now rewrite app_nil_r.
Qed.

Lemma newer_file_is_reloaded_and_served_witness :
  disk (Scenario.world Cases.file_updated Scenario.no_header)
    !! maintenanceFilePath Scenario.loaded
    = Some (RegularFile 300 "<html>back soon</html>") /\
  (len "<html>back soon</html>" =? 0)%nat = false /\
  (maintenanceFileContent Scenario.loaded = None \/
   Time_After 300 (maintenanceFileLastMod Scenario.loaded) = true) /\
  answers_with_body (statusCode Scenario.loaded) = true /\
  loadMaintenanceFile Scenario.loaded (Scenario.world Cases.file_updated Scenario.no_header) =
    Returns (set_file_cache "<html>back soon</html>" 300 Scenario.loaded, None)
      (set_trace
         (trace (Scenario.world Cases.file_updated Scenario.no_header) ++
          [EvStat (maintenanceFilePath Scenario.loaded)] ++
          [EvReadFile (maintenanceFilePath Scenario.loaded)] ++
          log_events Scenario.loaded LogLevelInfo
            "Loaded maintenance file: %s (%d bytes)")%list
         (Scenario.world Cases.file_updated Scenario.no_header)) /\
  exists rw' w',
    serveMaintenanceFile Scenario.loaded (NewRecorder empty) 1%positive
      (Scenario.world Cases.file_updated Scenario.no_header)
      = Returns (set_file_cache "<html>back soon</html>" 300 Scenario.loaded, rw') w' /\
    Body rw' = Body (NewRecorder empty) ++ "<html>back soon</html>" /\
    committed rw' = Some (if wroteHeader (NewRecorder empty) then Code (NewRecorder empty)
                          else statusCode Scenario.loaded) /\
    reads (trace w') =
      (reads (trace (Scenario.world Cases.file_updated Scenario.no_header)) ++
       [maintenanceFilePath Scenario.loaded])%list /\
    disk w' = disk (Scenario.world Cases.file_updated Scenario.no_header).
Proof.
  split; [reflexivity|]. split; [reflexivity|]. split; [right; reflexivity|].
  split; [reflexivity|].
  apply (newer_file_is_reloaded_and_served Scenario.loaded (NewRecorder empty) 1%positive
           (Scenario.world Cases.file_updated Scenario.no_header) 300
           "<html>back soon</html>").
  - reflexivity.
  - reflexivity.
  - right; reflexivity.
  - reflexivity.
Defined.

(** The outcomes of a load, by the state of the cache and of the disk. *)
Lemma loadMaintenanceFile_cases (m m' : MaintenanceBypass) (err : option error)
    (w w' : World) :
  loadMaintenanceFile m w = Returns (m', err) w' ->
  (m' = m /\ exists cause, err = Some cause) \/
  (m' = m /\ err = None /\
   exists e cached,
     disk w !! maintenanceFilePath m = Some e /\
     maintenanceFileContent m = Some cached /\
     Time_After (entry_ModTime e) (maintenanceFileLastMod m) = false) \/
  (err = None /\
   exists t content,
     disk w !! maintenanceFilePath m = Some (RegularFile t content) /\
     (len content =? 0)%nat = false /\
     (maintenanceFileContent m = None \/
      Time_After t (maintenanceFileLastMod m) = true) /\
     m' = set_file_cache content t m).
Proof.
  rewrite loadMaintenanceFile_run. cbn zeta.
  destruct (disk w !! maintenanceFilePath m) as [e|] eqn:Hdisk.
  2:{ intros [= <- <- _]. left. eauto. }
  destruct (maintenanceFileContent m) as [cached|] eqn:Hcache; cbn [not_nil andb].
  - destruct (Time_After (entry_ModTime e) (maintenanceFileLastMod m)) eqn:Hafter;
      cbn [negb].
    + destruct e as [t|t content].
      * intros [= <- <- _]. left. eauto.
      * destruct (len content =? 0)%nat eqn:Hlen.
        -- intros [= <- <- _]. left. eauto.
        -- intros [= <- <- _]. right. right. split; [reflexivity|].
           exists t, content. auto.
    + intros [= <- <- _]. right. left. repeat split. eauto.
  - destruct e as [t|t content].
    + intros [= <- <- _]. left. eauto.
    + destruct (len content =? 0)%nat eqn:Hlen.
      * intros [= <- <- _]. left. eauto.
      * intros [= <- <- _]. right. right. split; [reflexivity|].
        exists t, content. auto.
Qed.

(** X7. What a load can do to the cache, whatever is on disk: it changes no
    field of the middleware but the cached bytes and their modification
    time; it never caches an empty content; when it returns no error there
    is cached content, and that content is not empty; and once something is
    cached it stays cached, the cached modification time never goes back,
    and the bytes change only together with it. *)
Theorem loadMaintenanceFile_cache_invariants (m m' : MaintenanceBypass)
    (err : option error) (w w' : World) :
  loadMaintenanceFile m w = Returns (m', err) w' ->
  cache_ok m = true ->
  same_settings m m' /\
  cache_ok m' = true /\
  (err = None ->
   exists content, maintenanceFileContent m' = Some content /\ content <> EmptyString) /\
  (forall cached, maintenanceFileContent m = Some cached ->
     exists content,
       maintenanceFileContent m' = Some content /\
       maintenanceFileLastMod m <= maintenanceFileLastMod m' /\
       (maintenanceFileLastMod m' = maintenanceFileLastMod m -> content = cached)).
Proof.
  intros Hload Hok.
  assert (Hnonempty : forall content, (len content =? 0)%nat = false ->
                                      content <> EmptyString).
  { intros content Hlen ->. discriminate. }
  destruct (loadMaintenanceFile_cases _ _ _ _ _ Hload)
    as [(-> & cause & ->)
       |[(-> & -> & e & cached & Hdisk & Hcache & Hafter)
        |(-> & t & content & Hdisk & Hlen & Hstale & ->)]].
  - split; [apply same_settings_refl|]. split; [exact Hok|]. split; [discriminate|].
    intros cached Hcache. exists cached. split; [exact Hcache|]. split; [lia|reflexivity].
  - split; [apply same_settings_refl|]. split; [exact Hok|]. split.
    + intros _. exists cached. split; [exact Hcache|].
      unfold cache_ok in Hok. rewrite Hcache in Hok.
      apply Hnonempty. now apply negb_true_iff.
    + intros cached' Hcache'. exists cached'. split; [exact Hcache'|].
      split; [lia|reflexivity].
  - split; [apply same_settings_cache|].
    split; [unfold cache_ok; cbn; now rewrite Hlen|]. split.
    + intros _. exists content. split; [reflexivity|]. now apply Hnonempty.
    + intros cached Hcache. exists content. split; [reflexivity|].
      cbn [maintenanceFileLastMod set_file_cache].
      destruct Hstale as [Hnil|Hafter]; [congruence|].
      unfold Time_After in Hafter. apply Z.ltb_lt in Hafter. split; lia.
Qed.

Lemma loadMaintenanceFile_cache_invariants_witness :
  loadMaintenanceFile Scenario.loaded (Scenario.world Cases.file_updated Scenario.no_header) =
    Returns (set_file_cache "<html>back soon</html>" 300 Scenario.loaded, None)
      (emitted (EvReadFile "/etc/traefik/maintenance.html")
         (emitted (EvStat "/etc/traefik/maintenance.html")
            (Scenario.world Cases.file_updated Scenario.no_header))) /\
  cache_ok Scenario.loaded = true /\
  let m' := set_file_cache "<html>back soon</html>" 300 Scenario.loaded in
  same_settings Scenario.loaded m' /\
  cache_ok m' = true /\
  (@None error = None ->
   exists content, maintenanceFileContent m' = Some content /\ content <> EmptyString) /\
  (forall cached, maintenanceFileContent Scenario.loaded = Some cached ->
     exists content,
       maintenanceFileContent m' = Some content /\
       maintenanceFileLastMod Scenario.loaded <= maintenanceFileLastMod m' /\
       (maintenanceFileLastMod m' = maintenanceFileLastMod Scenario.loaded ->
        content = cached)).
Proof.
  split; [reflexivity|]. split; [reflexivity|].
  apply (loadMaintenanceFile_cache_invariants Scenario.loaded
           (set_file_cache "<html>back soon</html>" 300 Scenario.loaded) None
           (Scenario.world Cases.file_updated Scenario.no_header)
           (emitted (EvReadFile "/etc/traefik/maintenance.html")
              (emitted (EvStat "/etc/traefik/maintenance.html")
                 (Scenario.world Cases.file_updated Scenario.no_header))));
    reflexivity.
Defined.

(** X8. A load that returned no error settles the cache: the next load,
    while the disk is as it was, is the stat alone; it reads nothing,
    returns no error and leaves the middleware as the first load left it.
    This holds from any state of the cache, a first load included. *)
Theorem load_after_successful_load_only_stats (m m' : MaintenanceBypass)
    (w w' w2 : World) :
  loadMaintenanceFile m w = Returns (m', None) w' ->
  disk w2 = disk w ->
  loadMaintenanceFile m' w2 =
    Returns (m', None) (emitted (EvStat (maintenanceFilePath m)) w2) /\
  reads (trace (emitted (EvStat (maintenanceFilePath m)) w2)) = reads (trace w2).
Proof.
  intros Hload Hdisk. split.
  - destruct (loadMaintenanceFile_cases _ _ _ _ _ Hload)
      as [(_ & cause & [= ])
         |[(-> & _ & e & cached & He & Hcache & Hafter)
          |(_ & t & content & He & Hlen & _ & ->)]].
    + apply (loadMaintenanceFile_not_newer m w2 cached e); [assumption| |assumption].
      now rewrite Hdisk.
    + apply (loadMaintenanceFile_not_newer (set_file_cache content t m) w2 content
               (RegularFile t content)).
      * reflexivity.
      * cbn [maintenanceFilePath set_file_cache]. now rewrite Hdisk.
      * cbn. unfold Time_After. apply Z.ltb_irrefl.
  - cbn [trace emitted set_trace]. rewrite reads_app. cbn. now rewrite app_nil_r.
Qed.

Lemma load_after_successful_load_only_stats_witness :
  loadMaintenanceFile
      (new_middleware Scenario.next Scenario.file_config "maintenance-test")
      (Scenario.world Scenario.file_present Scenario.no_header) =
    Returns (Scenario.loaded, None)
      (emitted (EvReadFile "/etc/traefik/maintenance.html")
         (emitted (EvStat "/etc/traefik/maintenance.html")
            (Scenario.world Scenario.file_present Scenario.no_header))) /\
  disk (Scenario.world Scenario.file_present Scenario.no_header)
    = disk (Scenario.world Scenario.file_present Scenario.no_header) /\
  loadMaintenanceFile Scenario.loaded
      (Scenario.world Scenario.file_present Scenario.no_header) =
    Returns (Scenario.loaded, None)
      (emitted (EvStat (maintenanceFilePath
                          (new_middleware Scenario.next Scenario.file_config
                             "maintenance-test")))
         (Scenario.world Scenario.file_present Scenario.no_header)) /\
  reads (trace (emitted (EvStat (maintenanceFilePath
                                   (new_middleware Scenario.next Scenario.file_config
                                      "maintenance-test")))
                  (Scenario.world Scenario.file_present Scenario.no_header)))
    = reads (trace (Scenario.world Scenario.file_present Scenario.no_header)).
Proof.
  split; [reflexivity|]. split; [reflexivity|].
  apply (load_after_successful_load_only_stats
           (new_middleware Scenario.next Scenario.file_config "maintenance-test")
           Scenario.loaded
           (Scenario.world Scenario.file_present Scenario.no_header)
           (emitted (EvReadFile "/etc/traefik/maintenance.html")
              (emitted (EvStat "/etc/traefik/maintenance.html")
                 (Scenario.world Scenario.file_present Scenario.no_header)))
           (Scenario.world Scenario.file_present Scenario.no_header));
    reflexivity.
Defined.

(** ** What a request does to the world and to the middleware *)

Lemma within_level_app (m : MaintenanceBypass) (a b : list Event) :
  within_level m a -> within_level m b -> within_level m (a ++ b).
Proof.
  unfold within_level. rewrite log_lines_app. intros Ha Hb.
  apply Forall_app. now split.
Qed.

Lemma within_level_log_events (m : MaintenanceBypass) (level : LogLevel) (format : string) :
  LogLevelError <= level -> within_level m (log_events m level format).
Proof.
  intros Hlevel. unfold within_level, log_events.
  destruct (level <=? logLevel m) eqn:E; [|constructor].
  apply Z.leb_le in E. repeat constructor; cbn; lia.
Qed.

Lemma within_level_silent (m : MaintenanceBypass) (evs : list Event) :
  log_lines evs = [] -> within_level m evs.
Proof. unfold within_level. intros ->. constructor. Qed.

Lemma log_events_same_settings (m m' : MaintenanceBypass) (level : LogLevel)
    (format : string) :
  same_settings m m' -> log_events m' level format = log_events m level format.
Proof. intros ->. reflexivity. Qed.

Lemma extends_set_trace (w : World) (tr : list Event) : extends w (set_trace tr w).
Proof. repeat split; auto. Qed.

Lemma extends_valid_request (w w' : World) req r u h :
  extends w w' -> valid_request w req r u h -> valid_request w' req r u h.
Proof.
  intros (_ & _ & Hr & Hu & Hh) (Hreq & Hurl & Hheader).
  repeat split; auto.
Qed.

Create HintDb effects.

#[local] Hint Resolve within_level_app within_level_log_events within_level_silent
  same_settings_refl same_settings_cache extends_set_trace : effects.

(** Every outcome of a load: one stat, at most one read, no handler called,
    log lines within the level, the settings kept. *)
Lemma loadMaintenanceFile_events (m : MaintenanceBypass) (w : World) :
  exists m' err evs,
    loadMaintenanceFile m w = Returns (m', err) (set_trace (trace w ++ evs)%list w) /\
    invocations evs = [] /\
    stats evs = [maintenanceFilePath m] /\
    reads evs = (if load_reads m w then [maintenanceFilePath m] else []) /\
    within_level m evs /\
    same_settings m m' /\
    (cache_ok m = true -> cache_ok m' = true).
Proof.
  rewrite loadMaintenanceFile_run. unfold load_reads. cbn zeta.
  destruct (disk w !! maintenanceFilePath m) as [e|].
  2:{ eexists m, _, [_]. split; [reflexivity|].
      repeat split; auto with effects. }
  destruct (not_nil (maintenanceFileContent m) &&
            negb (Time_After (entry_ModTime e) (maintenanceFileLastMod m))).
  { eexists m, _, [_]. split; [reflexivity|].
    repeat split; auto with effects. }
  cbn [negb].
  destruct e as [t|t content].
  { trace_norm. eexists m, _, _. split; [reflexivity|].
    repeat split; auto with effects. }
  destruct (len content =? 0)%nat eqn:Hlen.
  { trace_norm. eexists m, _, _. split; [reflexivity|].
    repeat split; auto with effects. }
  trace_norm. eexists _, _, _. split; [reflexivity|].
  rewrite !invocations_app, !stats_app, !reads_app,
    invocations_log_events, stats_log_events, reads_log_events.
  repeat split; auto with effects.
  - apply (within_level_app m [_]); [now apply within_level_silent|].
    apply (within_level_app m [_]); [now apply within_level_silent|].
    apply (within_level_log_events m). unfold LogLevelError, LogLevelInfo. lia.
  - intros _. unfold cache_ok. cbn. now rewrite Hlen.
Qed.

Lemma serveMaintenanceFile_events {W : Type} `{http_ResponseWriter W}
    (m : MaintenanceBypass) (rw : W) (req : loc) (w : World) :
  exists m' rw' evs,
    serveMaintenanceFile m rw req w =
      Returns (m', rw') (set_trace (trace w ++ evs)%list w) /\
    invocations evs = [MaintenanceFile] /\
    stats evs = [maintenanceFilePath m] /\
    reads evs = (if load_reads m w then [maintenanceFilePath m] else []) /\
    within_level m evs /\
    same_settings m m' /\
    (cache_ok m = true -> cache_ok m' = true).
Proof.
  rewrite serveMaintenanceFile_run.
  destruct (loadMaintenanceFile_events m (emitted EvServeMaintenanceFile w))
    as (m' & err & evs & -> & Hinv & Hstats & Hreads & Hlevel & Hsame & Hok).
  change (load_reads m (emitted EvServeMaintenanceFile w)) with (load_reads m w) in Hreads.
  destruct err as [err|].
  - trace_norm. eexists m', _, _. split; [reflexivity|].
    rewrite !invocations_app, !stats_app, !reads_app, Hinv, Hstats, Hreads,
      invocations_log_events, stats_log_events, reads_log_events, !app_nil_r.
    repeat split; auto.
    apply (within_level_app m [_]); [now apply within_level_silent|].
    apply within_level_app; [assumption|].
    rewrite (log_events_same_settings m m') by assumption.
    apply within_level_log_events. unfold LogLevelError. lia.
  - cbn zeta. trace_norm. eexists m', _, _. split; [reflexivity|].
    rewrite !invocations_app, !stats_app, !reads_app, Hinv, Hstats, Hreads.
    repeat split; auto.
Qed.

Section Proxy_events.
Context {W : Type} `{http_ResponseWriter W}.

(** The trace of [proxyToMaintenanceService]: the call, the round trip, and
    the error line when the backend cannot be reached. *)
Lemma proxyToMaintenanceService_events (m : MaintenanceBypass) (rw : W) (req : loc)
    (w : World) r u h target :
  valid_request w req r u h ->
  maintenanceService m = Some target ->
  exists rw' w',
    proxyToMaintenanceService m rw req w = Returns rw' w' /\
    trace w' =
      (trace w ++
       [EvProxyToMaintenanceService;
        EvRoundTrip (forwarded_URL target u) (Host target)] ++
       match transport w (outbound_URL target u) with
       | RoundTripResponse _ _ _ => []
       | RoundTripError _ =>
           log_events m LogLevelError "Error proxying to maintenance service: %v"
       end)%list /\
    extends w w'.
Proof.
  intros Hreq Htarget.
  unfold proxyToMaintenanceService. rewrite Htarget.
  unfold bind at 1. cbn [emit].
  unfold bind at 1.
  rewrite (Request_Clone_run _ _ _ _ _
             (valid_request_emitted _ EvProxyToMaintenanceService _ _ _ _ Hreq)).
  cbn zeta.
  cbn [requests urls headers disk transport trace emitted set_trace].
  set (p := fresh (dom (requests w))).
  set (u2 := fresh (dom (urls w))).
  set (h2 := fresh (dom (headers w))).
  do 2 io_step. io_step. do 2 io_step. io_step. io_step. io_step.
  unfold bind at 1. unfold ReverseProxy_ServeHTTP.
  do 2 io_step. unfold bind at 1. cbn [emit]. heap_simpl.
  fold (forwarded_URL target u). fold (outbound_URL target u).
  assert (Hp : forall q x, requests w !! q = Some x -> q <> p)
    by (intros q x Hq; exact (fresh_not_allocated _ _ _ Hq)).
  assert (Hu2 : forall q x, urls w !! q = Some x -> q <> u2)
    by (intros q x Hq; exact (fresh_not_allocated _ _ _ Hq)).
  assert (Hh2 : forall q x, headers w !! q = Some x -> q <> h2)
    by (intros q x Hq; exact (fresh_not_allocated _ _ _ Hq)).
  destruct (transport w (outbound_URL target u)) as [code hdr chunks|err].
  - eexists _, _. split; [reflexivity|]. heap_simpl.
    rewrite <- app_assoc. split; [reflexivity|]. unfold extends. heap_simpl.
    repeat split.
    + intros q x Hq. rewrite !lookup_insert_ne by (symmetry; eauto). exact Hq.
    + intros q x Hq. rewrite !lookup_insert_ne by (symmetry; eauto). exact Hq.
    + intros q x Hq. rewrite !lookup_insert_ne by (symmetry; eauto). exact Hq.
  - unfold bind at 1. rewrite log_run. unfold ret, bind.
    eexists _, _. split; [reflexivity|]. unfold logged. heap_simpl.
    rewrite <- !app_assoc. split; [reflexivity|]. unfold extends. heap_simpl.
    repeat split.
    + intros q x Hq. rewrite !lookup_insert_ne by (symmetry; eauto). exact Hq.
    + intros q x Hq. rewrite !lookup_insert_ne by (symmetry; eauto). exact Hq.
    + intros q x Hq. rewrite !lookup_insert_ne by (symmetry; eauto). exact Hq.
Qed.
End Proxy_events.

Lemma shouldBypass_true (m : MaintenanceBypass) (path : string) (h : http_Header) :
  shouldBypass m path h = true <-> exists rule, firstBypassRule m path h = Some rule.
Proof.
  rewrite shouldBypass_firstBypassRule.
  destruct (firstBypassRule m path h) as [rule|]; cbn; split; eauto; try discriminate.
  intros (rule & [= ]).
Qed.

(** Everything one call of [ServeHTTP] does besides answering. *)
Lemma ServeHTTP_effects (m : MaintenanceBypass) (rw : ResponseRecorder) (req : loc)
    (w : World) (r : http_Request) (u : url_URL) (h : http_Header) :
  valid_request w req r u h ->
  well_formed m = true ->
  exists m' rw' evs w',
    ServeHTTP m rw req w = Returns (m', rw') w' /\
    trace w' = (trace w ++ evs)%list /\
    extends w w' /\
    same_settings m m' /\
    (cache_ok m = true -> cache_ok m' = true) /\
    (shouldBypass m (Path u) h = true \/ nonempty (maintenanceFilePath m) = false ->
     m' = m) /\
    within_level m evs /\
    stats evs = (if shouldBypass m (Path u) h then []
                 else if nonempty (maintenanceFilePath m) then [maintenanceFilePath m]
                 else []) /\
    reads evs = (if shouldBypass m (Path u) h then []
                 else if nonempty (maintenanceFilePath m) && load_reads m w
                 then [maintenanceFilePath m] else []).
Proof.
  intros Hreq Hwf. rewrite (ServeHTTP_run m req w r u h Hreq).
  rewrite shouldBypass_firstBypassRule.
  destruct (firstBypassRule m (Path u) h) as [rule|] eqn:Hrule; cbn [not_nil].
  { cbn zeta. trace_norm. eexists m, _, _, _. split; [reflexivity|].
    cbn [trace set_trace]. split; [reflexivity|].
    rewrite stats_app, reads_app, stats_log_events, reads_log_events.
    repeat split; auto with effects.
    apply within_level_app; [|now apply within_level_silent].
    apply within_level_log_events. unfold LogLevelError, LogLevelDebug. lia. }
  cbn zeta.
  assert (Hinfo : within_level m
            (log_events m LogLevelInfo
               "No bypass condition met for %s, serving maintenance page")).
  { apply within_level_log_events. unfold LogLevelError, LogLevelInfo. lia. }
  destruct (nonempty (maintenanceFilePath m)) eqn:Hfile.
  - match goal with
    | |- context [serveMaintenanceFile m ?rw1 req ?w1] =>
        destruct (serveMaintenanceFile_events m rw1 req w1)
          as (m' & rw' & evs & -> & Hinv & Hstats & Hreads & Hlevel & Hsame & Hok)
    end.
    change (load_reads m (logged m LogLevelInfo
              "No bypass condition met for %s, serving maintenance page" w))
      with (load_reads m w) in Hreads.
    trace_norm. eexists m', rw', _, _. split; [reflexivity|].
    cbn [trace set_trace]. split; [reflexivity|].
    rewrite stats_app, reads_app, stats_log_events, reads_log_events, Hstats, Hreads.
    cbn [andb app].
    repeat split; auto with effects.
    intros [[= ]|[= ]].
  - destruct (nonempty (maintenanceContent m)) eqn:Hinline.
    + unfold serveMaintenanceContent, bind. cbn [emit]. unfold ret. trace_norm.
      eexists m, _, _, _. split; [reflexivity|].
      cbn [trace set_trace]. split; [reflexivity|].
      rewrite stats_app, reads_app, stats_log_events, reads_log_events.
      repeat split; auto with effects.
    + destruct (well_formed_remote m Hwf Hfile Hinline) as (target & Htarget).
      unfold bind at 1.
      match goal with
      | |- context [proxyToMaintenanceService m ?rw1 req ?w1] =>
          destruct (proxyToMaintenanceService_events m rw1 req w1 r u h target)
            as (rw' & w' & -> & Htrace & Hext); [exact Hreq|exact Htarget|]
      end.
      unfold ret. eexists m, rw', _, w'. split; [reflexivity|].
      rewrite Htrace. unfold logged. cbn [trace set_trace transport].
      rewrite <- app_assoc. split; [reflexivity|].
      rewrite !stats_app, !reads_app, stats_log_events, reads_log_events.
      split.
      { destruct Hext as (Hd & Ht & Hr & Hu & Hh). repeat split; auto. }
      split; [apply same_settings_refl|]. split; [auto|]. split; [auto|].
      split.
      { apply within_level_app; [assumption|].
        apply (within_level_app m [_; _]); [now apply within_level_silent|].
        destruct (transport w (outbound_URL target u)).
        - now apply within_level_silent.
        - apply within_level_log_events. unfold LogLevelError. lia. }
      split.
      * destruct (transport w (outbound_URL target u));
          [reflexivity|now rewrite stats_log_events].
      * destruct (transport w (outbound_URL target u));
          [reflexivity|now rewrite reads_log_events].
Qed.

(** X9. A request that a bypass rule lets through reaches the next handler
    untouched: [ServeHTTP] calls the next handler with the writer it was
    given, before setting any header on it or writing to it, and what the
    next handler makes of that writer is the response; the middleware is
    unchanged, the file system is not consulted, and the call of the next
    handler is the last thing that happens. *)
Theorem bypassed_request_reaches_next_untouched (m : MaintenanceBypass)
    (rw : ResponseRecorder) (req : loc) (w : World)
    (r : http_Request) (u : url_URL) (h : http_Header) :
  valid_request w req r u h ->
  shouldBypass m (Path u) h = true ->
  exists evs,
    ServeHTTP m rw req w =
      Returns (m, next m req (set_trace (trace w ++ evs)%list w) rw)
              (set_trace (trace w ++ evs)%list w) /\
    invocations evs = [NextHandler] /\
    last evs = Some (EvNext req) /\
    stats evs = [] /\
    reads evs = [].
Proof.
  intros Hreq Hbypass.
  apply shouldBypass_true in Hbypass. destruct Hbypass as (rule & Hrule).
  destruct (ServeHTTP_bypass m rw req w r u h Hreq rule Hrule) as (Hrun & Hinv).
  cbn zeta in Hrun, Hinv.
  exists (log_events m LogLevelDebug (rule_format rule) ++ [EvNext req])%list.
  split; [exact Hrun|]. split; [exact Hinv|].
  split; [apply last_snoc|].
  rewrite stats_app, reads_app, stats_log_events, reads_log_events. split; reflexivity.
Qed.

Lemma bypassed_request_reaches_next_untouched_witness :
  valid_request (Scenario.world Scenario.file_present Cases.bypass_header) 1%positive
    Scenario.request Scenario.request_URL Cases.bypass_header /\
  shouldBypass Scenario.loaded (Path Scenario.request_URL) Cases.bypass_header = true /\
  exists evs,
    ServeHTTP Scenario.loaded (NewRecorder empty) 1%positive
      (Scenario.world Scenario.file_present Cases.bypass_header) =
      Returns (Scenario.loaded,
               next Scenario.loaded 1%positive
                 (set_trace
                    (trace (Scenario.world Scenario.file_present Cases.bypass_header)
                     ++ evs)%list
                    (Scenario.world Scenario.file_present Cases.bypass_header))
                 (NewRecorder empty))
              (set_trace
                 (trace (Scenario.world Scenario.file_present Cases.bypass_header)
                  ++ evs)%list
                 (Scenario.world Scenario.file_present Cases.bypass_header)) /\
    invocations evs = [NextHandler] /\
    last evs = Some (EvNext 1%positive) /\
    stats evs = [] /\
    reads evs = [].
Proof.
  split; [repeat split; reflexivity|]. split; [vm_compute; reflexivity|].
  apply (bypassed_request_reaches_next_untouched Scenario.loaded (NewRecorder empty)
           1%positive (Scenario.world Scenario.file_present Cases.bypass_header)
           Scenario.request Scenario.request_URL Cases.bypass_header).
  - repeat split; reflexivity.
  - vm_compute; reflexivity.
Defined.

Lemma strings_HasPrefix_empty (s : string) : strings_HasPrefix s EmptyString = true.
Proof. unfold strings_HasPrefix. cbn. now destruct s. Qed.

Lemma Header_Get_absent (h : http_Header) (key : string) :
  h !! CanonicalMIMEHeaderKey key = None -> Header_Get h key = EmptyString.
Proof. unfold Header_Get. now intros ->. Qed.

(** X10. Two settings switch maintenance off for requests one might expect
    to be held back.  An empty string among the bypass paths is a prefix of
    every path, so every request goes to the next handler; and with an empty
    expected header value, every request that does not carry the bypass
    header goes to the next handler, because an absent header reads as the
    empty string. *)
Theorem empty_bypass_setting_lets_requests_through (m : MaintenanceBypass)
    (rw : ResponseRecorder) (req : loc) (w : World)
    (r : http_Request) (u : url_URL) (h : http_Header) :
  valid_request w req r u h ->
  In EmptyString (bypassPaths m) \/
  (bypassHeaderValue m = EmptyString /\
   h !! CanonicalMIMEHeaderKey (bypassHeader m) = None) ->
  shouldBypass m (Path u) h = true /\
  exists rw' w' evs,
    ServeHTTP m rw req w = Returns (m, rw') w' /\
    trace w' = (trace w ++ evs)%list /\
    invocations evs = [NextHandler].
Proof.
  intros Hreq Hsetting.
  assert (Hbypass : shouldBypass m (Path u) h = true).
  { destruct Hsetting as [Hin|(Hvalue & Habsent)].
    - apply (shouldBypass_prefix m (Path u) EmptyString (Path u) h Hin). reflexivity.
    - unfold shouldBypass. rewrite (Header_Get_absent h _ Habsent), Hvalue.
      destruct (negb (enabled m)); [reflexivity|].
      destruct (bypassFavicon m && strings_HasSuffix (Path u) "/favicon.ico");
        [reflexivity|].
      destruct (existsb (strings_HasPrefix (Path u)) (bypassPaths m)); reflexivity. }
  split; [exact Hbypass|].
  apply shouldBypass_true in Hbypass. destruct Hbypass as (rule & Hrule).
  destruct (ServeHTTP_bypass m rw req w r u h Hreq rule Hrule) as (Hrun & Hinv).
  cbn zeta in Hrun, Hinv. eexists _, _, _. split; [exact Hrun|].
  split; [reflexivity|exact Hinv].
Qed.

Lemma empty_bypass_setting_lets_requests_through_witness :
  valid_request (Scenario.world Scenario.no_files Scenario.no_header) 1%positive
    Scenario.request Scenario.request_URL Scenario.no_header /\
  (In EmptyString (bypassPaths (new_middleware Scenario.next Cases.bare_inline
                                  "maintenance-test")) \/
   (bypassHeaderValue (new_middleware Scenario.next Cases.bare_inline "maintenance-test")
      = EmptyString /\
    Scenario.no_header
      !! CanonicalMIMEHeaderKey
           (bypassHeader (new_middleware Scenario.next Cases.bare_inline
                            "maintenance-test")) = None)) /\
  shouldBypass (new_middleware Scenario.next Cases.bare_inline "maintenance-test")
    (Path Scenario.request_URL) Scenario.no_header = true /\
  exists rw' w' evs,
    ServeHTTP (new_middleware Scenario.next Cases.bare_inline "maintenance-test")
      (NewRecorder empty) 1%positive
      (Scenario.world Scenario.no_files Scenario.no_header)
      = Returns (new_middleware Scenario.next Cases.bare_inline "maintenance-test", rw') w' /\
    trace w' = (trace (Scenario.world Scenario.no_files Scenario.no_header) ++ evs)%list /\
    invocations evs = [NextHandler].
Proof.
  split; [repeat split; reflexivity|]. split; [right; split; reflexivity|].
  apply (empty_bypass_setting_lets_requests_through
           (new_middleware Scenario.next Cases.bare_inline "maintenance-test")
           (NewRecorder empty) 1%positive
           (Scenario.world Scenario.no_files Scenario.no_header)
           Scenario.request Scenario.request_URL Scenario.no_header).
  - repeat split; reflexivity.
  - right; split; reflexivity.
Defined.

Lemma proxyToMaintenanceService_nil {W : Type} `{http_ResponseWriter W}
    (m : MaintenanceBypass) (rw : W) (req : loc) (w : World) :
  maintenanceService m = None ->
  proxyToMaintenanceService m rw req w = Panics nil_dereference.
Proof. unfold proxyToMaintenanceService. intros ->. reflexivity. Qed.

(** X11. A middleware without a content source dereferences nil.  When a
    middleware has neither a file path, nor inline content, nor a remote
    target, every valid request that no bypass rule lets through makes
    [ServeHTTP] panic with a nil pointer dereference: the remote branch is
    taken and reads the target.  [New] never returns such a middleware; it
    can only be made without [New]. *)
Theorem ServeHTTP_without_source_dereferences_nil (m : MaintenanceBypass)
    (rw : ResponseRecorder) (req : loc) (w : World)
    (r : http_Request) (u : url_URL) (h : http_Header) :
  valid_request w req r u h ->
  shouldBypass m (Path u) h = false ->
  well_formed m = false ->
  ServeHTTP m rw req w = Panics nil_dereference /\
  forall url_Parse next_handler config middleware_name w0 w1,
    New url_Parse next_handler config middleware_name w0 <> Returns (inl m) w1.
Proof.
  intros Hreq Hbypass Hwf. split.
  - apply shouldBypass_false in Hbypass.
    rewrite (ServeHTTP_run m req w r u h Hreq), Hbypass. cbn zeta.
    unfold well_formed in Hwf.
    destruct (nonempty (maintenanceFilePath m)); [discriminate|].
    destruct (nonempty (maintenanceContent m)); [discriminate|].
    destruct (maintenanceService m) eqn:Hservice; [discriminate|].
    unfold bind. now rewrite proxyToMaintenanceService_nil.
  - intros url_Parse next_handler config middleware_name w0 w1 HNew.
    destruct (New_well_formed _ _ _ _ _ _ _ HNew) as (Hwf' & _). congruence.
Qed.

Lemma ServeHTTP_without_source_dereferences_nil_witness :
  valid_request (Scenario.world Scenario.no_files Scenario.no_header) 1%positive
    Scenario.request Scenario.request_URL Scenario.no_header /\
  shouldBypass Cases.unconfigured (Path Scenario.request_URL) Scenario.no_header = false /\
  well_formed Cases.unconfigured = false /\
  ServeHTTP Cases.unconfigured (NewRecorder empty) 1%positive
    (Scenario.world Scenario.no_files Scenario.no_header) = Panics nil_dereference /\
  forall url_Parse next_handler config middleware_name w0 w1,
    New url_Parse next_handler config middleware_name w0
      <> Returns (inl Cases.unconfigured) w1.
Proof.
  split; [repeat split; reflexivity|]. split; [vm_compute; reflexivity|].
  split; [reflexivity|].
  apply (ServeHTTP_without_source_dereferences_nil Cases.unconfigured (NewRecorder empty)
           1%positive (Scenario.world Scenario.no_files Scenario.no_header)
           Scenario.request Scenario.request_URL Scenario.no_header).
  - repeat split; reflexivity.
  - vm_compute; reflexivity.
  - reflexivity.
Defined.

(** X12. A request leaves the world as it found it, apart from the trace and
    from the objects the proxy allocates for its clone: whatever branch
    [ServeHTTP] takes, the disk and the transport are the same afterwards,
    every request, URL and header map that was allocated holds what it held,
    and the request pointer is still valid for the same request. *)
Theorem ServeHTTP_frame (m : MaintenanceBypass) (rw : ResponseRecorder) (req : loc)
    (w : World) (r : http_Request) (u : url_URL) (h : http_Header) :
  valid_request w req r u h ->
  well_formed m = true ->
  exists m' rw' w' evs,
    ServeHTTP m rw req w = Returns (m', rw') w' /\
    trace w' = (trace w ++ evs)%list /\
    extends w w' /\
    valid_request w' req r u h.
Proof.
  intros Hreq Hwf.
  destruct (ServeHTTP_effects m rw req w r u h Hreq Hwf)
    as (m' & rw' & evs & w' & Hrun & Htrace & Hext & _).
  exists m', rw', w', evs.
  split; [exact Hrun|]. split; [exact Htrace|]. split; [exact Hext|].
  eapply extends_valid_request; eassumption.
Qed.

Lemma ServeHTTP_frame_witness :
  valid_request (Scenario.world Scenario.no_files Scenario.no_header) 1%positive
    Scenario.request Scenario.request_URL Scenario.no_header /\
  well_formed Scenario.remote = true /\
  exists m' rw' w' evs,
    ServeHTTP Scenario.remote (NewRecorder empty) 1%positive
      (Scenario.world Scenario.no_files Scenario.no_header) = Returns (m', rw') w' /\
    trace w' = (trace (Scenario.world Scenario.no_files Scenario.no_header) ++ evs)%list /\
    extends (Scenario.world Scenario.no_files Scenario.no_header) w' /\
    valid_request w' 1%positive Scenario.request Scenario.request_URL Scenario.no_header.
Proof.
  split; [repeat split; reflexivity|]. split; [reflexivity|].
  apply (ServeHTTP_frame Scenario.remote (NewRecorder empty) 1%positive
           (Scenario.world Scenario.no_files Scenario.no_header)
           Scenario.request Scenario.request_URL Scenario.no_header).
  - repeat split; reflexivity.
  - reflexivity.
Defined.

Lemma same_settings_shouldBypass (m m' : MaintenanceBypass) (path : string)
    (h : http_Header) :
  same_settings m m' -> shouldBypass m' path h = shouldBypass m path h.
Proof. intros ->. reflexivity. Qed.

(** X13. Serving a request changes nothing in the middleware but the file
    cache: every setting is as before, so the next request is judged by the
    same bypass rules and takes the same maintenance path; the middleware
    stays fit for the next request; a cache that holds no empty content
    still holds none; and on a bypass, and in inline and remote mode, the
    middleware is not changed at all. *)
Theorem ServeHTTP_changes_only_the_file_cache (m : MaintenanceBypass)
    (rw : ResponseRecorder) (req : loc) (w : World)
    (r : http_Request) (u : url_URL) (h : http_Header) :
  valid_request w req r u h ->
  well_formed m = true ->
  exists m' rw' w',
    ServeHTTP m rw req w = Returns (m', rw') w' /\
    same_settings m m' /\
    well_formed m' = true /\
    maintenance_path m' = maintenance_path m /\
    (forall path h', shouldBypass m' path h' = shouldBypass m path h') /\
    (cache_ok m = true -> cache_ok m' = true) /\
    (shouldBypass m (Path u) h = true \/ nonempty (maintenanceFilePath m) = false ->
     m' = m).
Proof.
  intros Hreq Hwf.
  destruct (ServeHTTP_effects m rw req w r u h Hreq Hwf)
    as (m' & rw' & evs & w' & Hrun & _ & _ & Hsame & Hok & Hm & _).
  exists m', rw', w'. split; [exact Hrun|]. split; [exact Hsame|].
  split; [now rewrite (same_settings_well_formed m m')|].
  split; [rewrite Hsame; reflexivity|].
  split; [intros path h'; now apply same_settings_shouldBypass|].
  split; assumption.
Qed.

Lemma ServeHTTP_changes_only_the_file_cache_witness :
  valid_request (Scenario.world Cases.file_updated Scenario.no_header) 1%positive
    Scenario.request Scenario.request_URL Scenario.no_header /\
  well_formed Scenario.loaded = true /\
  exists m' rw' w',
    ServeHTTP Scenario.loaded (NewRecorder empty) 1%positive
      (Scenario.world Cases.file_updated Scenario.no_header) = Returns (m', rw') w' /\
    same_settings Scenario.loaded m' /\
    well_formed m' = true /\
    maintenance_path m' = maintenance_path Scenario.loaded /\
    (forall path h', shouldBypass m' path h' = shouldBypass Scenario.loaded path h') /\
    (cache_ok Scenario.loaded = true -> cache_ok m' = true) /\
    (shouldBypass Scenario.loaded (Path Scenario.request_URL) Scenario.no_header = true \/
     nonempty (maintenanceFilePath Scenario.loaded) = false ->
     m' = Scenario.loaded).
Proof.
  split; [repeat split; reflexivity|]. split; [reflexivity|].
  apply (ServeHTTP_changes_only_the_file_cache Scenario.loaded (NewRecorder empty)
           1%positive (Scenario.world Cases.file_updated Scenario.no_header)
           Scenario.request Scenario.request_URL Scenario.no_header).
  - repeat split; reflexivity.
  - reflexivity.
Defined.

(** X14. The file system calls of one request.  A request that is let
    through, and any request in inline or remote mode, makes none.  In file
    mode a request that is not let through stats the configured path exactly
    once, and reads it at most once: exactly when there is an entry under
    the path and nothing is cached or the entry is newer than the cache.  No
    other path is touched and nothing is written to disk. *)
Theorem ServeHTTP_file_access (m : MaintenanceBypass) (rw : ResponseRecorder)
    (req : loc) (w : World) (r : http_Request) (u : url_URL) (h : http_Header) :
  valid_request w req r u h ->
  well_formed m = true ->
  exists m' rw' w' evs,
    ServeHTTP m rw req w = Returns (m', rw') w' /\
    trace w' = (trace w ++ evs)%list /\
    disk w' = disk w /\
    stats evs = (if shouldBypass m (Path u) h then []
                 else if nonempty (maintenanceFilePath m) then [maintenanceFilePath m]
                 else []) /\
    reads evs = (if shouldBypass m (Path u) h then []
                 else if nonempty (maintenanceFilePath m) && load_reads m w
                 then [maintenanceFilePath m] else []).
Proof.
  intros Hreq Hwf.
  destruct (ServeHTTP_effects m rw req w r u h Hreq Hwf)
    as (m' & rw' & evs & w' & Hrun & Htrace & Hext & _ & _ & _ & _ & Hstats & Hreads).
  exists m', rw', w', evs. repeat split; try assumption. apply Hext.
Qed.

Lemma ServeHTTP_file_access_witness :
  valid_request (Scenario.world Cases.file_updated Scenario.no_header) 1%positive
    Scenario.request Scenario.request_URL Scenario.no_header /\
  well_formed Scenario.loaded = true /\
  exists m' rw' w' evs,
    ServeHTTP Scenario.loaded (NewRecorder empty) 1%positive
      (Scenario.world Cases.file_updated Scenario.no_header) = Returns (m', rw') w' /\
    trace w' = (trace (Scenario.world Cases.file_updated Scenario.no_header) ++ evs)%list /\
    disk w' = disk (Scenario.world Cases.file_updated Scenario.no_header) /\
    stats evs =
      (if shouldBypass Scenario.loaded (Path Scenario.request_URL) Scenario.no_header
       then []
       else if nonempty (maintenanceFilePath Scenario.loaded)
       then [maintenanceFilePath Scenario.loaded] else []) /\
    reads evs =
      (if shouldBypass Scenario.loaded (Path Scenario.request_URL) Scenario.no_header
       then []
       else if nonempty (maintenanceFilePath Scenario.loaded) &&
               load_reads Scenario.loaded
                 (Scenario.world Cases.file_updated Scenario.no_header)
       then [maintenanceFilePath Scenario.loaded] else []).
Proof.
  split; [repeat split; reflexivity|]. split; [reflexivity|].
  apply (ServeHTTP_file_access Scenario.loaded (NewRecorder empty) 1%positive
           (Scenario.world Cases.file_updated Scenario.no_header)
           Scenario.request Scenario.request_URL Scenario.no_header).
  - repeat split; reflexivity.
  - reflexivity.
Defined.

(** X15. Logging follows the configured level on every path through
    [ServeHTTP], the file reload and the proxy error handler included: each
    line a request logs has a level between [LogLevelError] and the level of
    the middleware, so at [LogLevelNone] (or below) a request logs
    nothing. *)
Theorem ServeHTTP_logs_within_level (m : MaintenanceBypass) (rw : ResponseRecorder)
    (req : loc) (w : World) (r : http_Request) (u : url_URL) (h : http_Header) :
  valid_request w req r u h ->
  well_formed m = true ->
  exists m' rw' w' evs,
    ServeHTTP m rw req w = Returns (m', rw') w' /\
    trace w' = (trace w ++ evs)%list /\
    within_level m evs /\
    (logLevel m <= LogLevelNone -> log_lines evs = []).
Proof.
  intros Hreq Hwf.
  destruct (ServeHTTP_effects m rw req w r u h Hreq Hwf)
    as (m' & rw' & evs & w' & Hrun & Htrace & _ & _ & _ & _ & Hlevel & _).
  exists m', rw', w', evs. repeat split; try assumption.
  intros Hnone. unfold within_level in Hlevel.
  destruct (log_lines evs) as [|line lines]; [reflexivity|].
  inversion Hlevel as [|? ? Hline _]. unfold LogLevelError, LogLevelNone in *. lia.
Qed.

Lemma ServeHTTP_logs_within_level_witness :
  valid_request (Cases.world_down) 1%positive
    Scenario.request Scenario.request_URL Scenario.no_header /\
  well_formed Scenario.remote = true /\
  exists m' rw' w' evs,
    ServeHTTP Scenario.remote (NewRecorder empty) 1%positive Cases.world_down
      = Returns (m', rw') w' /\
    trace w' = (trace Cases.world_down ++ evs)%list /\
    within_level Scenario.remote evs /\
    (logLevel Scenario.remote <= LogLevelNone -> log_lines evs = []).
Proof.
  split; [repeat split; reflexivity|]. split; [reflexivity|].
  apply (ServeHTTP_logs_within_level Scenario.remote (NewRecorder empty) 1%positive
           Cases.world_down Scenario.request Scenario.request_URL Scenario.no_header).
  - repeat split; reflexivity.
  - reflexivity.
Defined.

(** ** The maintenance response *)

Lemma first_value_Get (h : http_Header) (key value : string) :
  first_value h key value -> Header_Get h key = value.
Proof. intros (rest & Hkey). unfold Header_Get. now rewrite Hkey. Qed.

Lemma first_value_Set (h : http_Header) (key value : string) :
  first_value (Header_Set key value h) key value.
Proof. exists []. unfold Header_Set. apply lookup_insert_eq. Qed.

Lemma first_value_Set_other (h : http_Header) (key value key' value' : string) :
  CanonicalMIMEHeaderKey key' <> CanonicalMIMEHeaderKey key ->
  first_value h key value -> first_value (Header_Set key' value' h) key value.
Proof.
  intros Hne (rest & Hkey). exists rest. unfold Header_Set.
  now rewrite lookup_insert_ne.
Qed.

Lemma first_value_Del_other (h : http_Header) (key value key' : string) :
  CanonicalMIMEHeaderKey key' <> CanonicalMIMEHeaderKey key ->
  first_value h key value -> first_value (Header_Del key' h) key value.
Proof.
  intros Hne (rest & Hkey). exists rest. unfold Header_Del.
  now rewrite lookup_delete_ne.
Qed.

Lemma first_value_Add (h : http_Header) (key value key' value' : string) :
  first_value h key value -> first_value (Header_Add key' value' h) key value.
Proof.
  intros (rest & Hkey). unfold Header_Add, first_value.
  destruct (decide (CanonicalMIMEHeaderKey key' = CanonicalMIMEHeaderKey key)) as [E|Hne].
  - rewrite E, Hkey, lookup_insert_eq. cbn. eauto.
  - rewrite lookup_insert_ne by assumption. eauto.
Qed.

Lemma Header_Get_Set_other (h : http_Header) (key key' value' : string) :
  CanonicalMIMEHeaderKey key' <> CanonicalMIMEHeaderKey key ->
  Header_Get (Header_Set key' value' h) key = Header_Get h key.
Proof.
  intros Hne. unfold Header_Get, Header_Set. now rewrite lookup_insert_ne.
Qed.

Lemma Header_Get_Del_other (h : http_Header) (key key' : string) :
  CanonicalMIMEHeaderKey key' <> CanonicalMIMEHeaderKey key ->
  Header_Get (Header_Del key' h) key = Header_Get h key.
Proof.
  intros Hne. unfold Header_Get, Header_Del. now rewrite lookup_delete_ne.
Qed.

Lemma HeaderMap_Del (key : string) (r : ResponseRecorder) :
  HeaderMap (rw_Header_Del key r) = Header_Del key (HeaderMap r).
Proof. reflexivity. Qed.

Lemma HeaderMap_Set (key value : string) (r : ResponseRecorder) :
  HeaderMap (rw_Header_Set key value r) = Header_Set key value (HeaderMap r).
Proof. reflexivity. Qed.

Lemma HeaderMap_Add (key value : string) (r : ResponseRecorder) :
  HeaderMap (rw_Header_Add key value r) = Header_Add key value (HeaderMap r).
Proof. reflexivity. Qed.

(** The headers of the backend are added after the ones already set: the
    first value of a header that is present stays. *)
Lemma first_value_header_adds (hdr : list (string * string)) (r : ResponseRecorder)
    (key value : string) :
  first_value (HeaderMap r) key value ->
  first_value
    (HeaderMap (fold_left (fun rw kv => rw_Header_Add (fst kv) (snd kv) rw) hdr r))
    key value.
Proof.
  revert r. induction hdr as [|kv hdr IH]; intros r Hfirst; [exact Hfirst|].
  cbn [fold_left]. apply IH. rewrite HeaderMap_Add. now apply first_value_Add.
Qed.

(** Solves [first_value] for a header under a spelled-out key in a map built
    by [Header.Set] calls with spelled-out keys. *)
Ltac header_solve :=
  repeat first [ rewrite HeaderMap_Set | rewrite HeaderMap_Del ];
  repeat first [ apply first_value_Set
               | apply first_value_Set_other; [vm_compute; discriminate|]
               | apply first_value_Del_other; [vm_compute; discriminate|]
               | assumption ].

Lemma marked_intro (h : http_Header) :
  first_value h "X-Maintenance-Mode" "true" -> first_value h "Retry-After" "3600" ->
  marked h.
Proof. intros H1 H2. split; now apply first_value_Get. Qed.

(** What the client is sent once a new writer got [WriteHeader] and
    [Write]. *)
Lemma Recorder_sent (S : Z) (b : string) (r : ResponseRecorder) :
  wroteHeader r = false ->
  sentHeader (Write b (WriteHeader S r)) = HeaderMap r /\
  committed (Write b (WriteHeader S r)) = Some S /\
  Body (Write b (WriteHeader S r)) = Body r ++ b.
Proof.
  intros Hnew.
  destruct (Recorder_respond S b r r) as (_ & Hcommitted & HBody & Hsent);
    try reflexivity.
  rewrite Hnew in Hcommitted. auto.
Qed.

Section Relay.
Context {W : Type} `{http_ResponseWriter W}.

(** Relaying a response through the wrapper is relaying it with the status
    code of the wrapper. *)
Lemma relayed_response_through_wrapper (S code : Z) (hdr : list (string * string))
    (chunks : list string) (rw : W) :
  w_ResponseWriter (relayed S (RoundTripResponse code hdr chunks)
                      (mk_maintenanceResponseWriter rw S false)) =
  relayed S (RoundTripResponse S hdr chunks) rw.
Proof.
  unfold relayed. rewrite wrapper_header_adds.
  change (WriteHeader code
            (mk_maintenanceResponseWriter
               (fold_left (fun rw kv => rw_Header_Add (fst kv) (snd kv) rw) hdr rw) S false))
    with (mk_maintenanceResponseWriter
            (WriteHeader S
               (fold_left (fun rw kv => rw_Header_Add (fst kv) (snd kv) rw) hdr rw)) S true).
  now rewrite wrapper_write_all.
Qed.

Lemma relayed_error_through_wrapper (S : Z) (err : error) (rw : W) :
  w_ResponseWriter (relayed S (RoundTripError err)
                      (mk_maintenanceResponseWriter rw S false)) =
  relayed S (RoundTripError err) rw.
Proof. reflexivity. Qed.
End Relay.

Lemma relayed_sent (S : Z) (outcome : RoundTrip) (rw : ResponseRecorder) :
  wroteHeader rw = false ->
  let rw' := w_ResponseWriter (relayed S outcome (mk_maintenanceResponseWriter rw S false)) in
  forall key value,
    first_value (HeaderMap rw) key value ->
    CanonicalMIMEHeaderKey "X-Maintenance-Mode" <> CanonicalMIMEHeaderKey key ->
    first_value (sentHeader rw') key value.
Proof.
  intros Hnew rw' key value Hfirst Hkey. subst rw'.
  destruct outcome as [code hdr chunks|err].
  - rewrite relayed_response_through_wrapper. unfold relayed.
    set (r1 := fold_left (fun rw kv => rw_Header_Add (fst kv) (snd kv) rw) hdr rw).
    destruct (Recorder_header_adds hdr rw) as (Hwrote & _). fold r1 in Hwrote.
    destruct (Recorder_WriteHeader_fields S r1) as (Hw1 & _ & _ & _ & _ & Hsent1).
    destruct (Recorder_write_all chunks (WriteHeader S r1)) as (_ & _ & _ & Hkeep).
    destruct (Hkeep Hw1) as (_ & _ & ->).
    rewrite Hsent1, Hwrote, Hnew. now apply first_value_header_adds.
  - rewrite relayed_error_through_wrapper. unfold relayed.
    destruct (Recorder_sent S "Service temporarily unavailable"
                (rw_Header_Set "X-Maintenance-Mode" "true" rw)) as (-> & _); [exact Hnew|].
    rewrite HeaderMap_Set. now apply first_value_Set_other.
Qed.

Lemma relayed_sent_mode (S : Z) (outcome : RoundTrip) (rw : ResponseRecorder) :
  wroteHeader rw = false ->
  first_value (HeaderMap rw) "X-Maintenance-Mode" "true" ->
  first_value
    (sentHeader (w_ResponseWriter
                   (relayed S outcome (mk_maintenanceResponseWriter rw S false))))
    "X-Maintenance-Mode" "true".
Proof.
  intros Hnew Hfirst.
  destruct outcome as [code hdr chunks|err].
  - rewrite relayed_response_through_wrapper. unfold relayed.
    set (r1 := fold_left (fun rw kv => rw_Header_Add (fst kv) (snd kv) rw) hdr rw).
    destruct (Recorder_header_adds hdr rw) as (Hwrote & _). fold r1 in Hwrote.
    destruct (Recorder_WriteHeader_fields S r1) as (Hw1 & _ & _ & _ & _ & Hsent1).
    destruct (Recorder_write_all chunks (WriteHeader S r1)) as (_ & _ & _ & Hkeep).
    destruct (Hkeep Hw1) as (_ & _ & ->).
    rewrite Hsent1, Hwrote, Hnew. now apply first_value_header_adds.
  - rewrite relayed_error_through_wrapper. unfold relayed.
    destruct (Recorder_sent S "Service temporarily unavailable"
                (rw_Header_Set "X-Maintenance-Mode" "true" rw)) as (-> & _); [exact Hnew|].
    header_solve.
Qed.

(** X16. Every maintenance response is marked: whichever branch answers
    (the cached file, the generic error of a failed load, the inline
    content, the relayed page of the backend with whatever headers it sent,
    or the error handler of the proxy), the headers the client is sent have
    X-Maintenance-Mode: true and Retry-After: 3600 as their first values. *)
Theorem maintenance_response_is_marked (m : MaintenanceBypass)
    (rw : ResponseRecorder) (req : loc) (w : World)
    (r : http_Request) (u : url_URL) (h : http_Header) :
  valid_request w req r u h ->
  well_formed m = true ->
  wroteHeader rw = false ->
  shouldBypass m (Path u) h = false ->
  exists m' rw' w',
    ServeHTTP m rw req w = Returns (m', rw') w' /\
    marked (sentHeader rw').
Proof.
  intros Hreq Hwf Hnew Hbypass. apply shouldBypass_false in Hbypass.
  rewrite (ServeHTTP_run m req w r u h Hreq), Hbypass. cbn zeta.
  set (w1 := logged m LogLevelInfo
               "No bypass condition met for %s, serving maintenance page" w).
  destruct (nonempty (maintenanceFilePath m)) eqn:Hfile.
  - rewrite serveMaintenanceFile_run.
    destruct (loadMaintenanceFile_returns m (emitted EvServeMaintenanceFile w1))
      as (m' & err & w2 & ->).
    destruct err as [err|].
    + eexists _, _, _. split; [reflexivity|]. unfold http_Error.
      match goal with
      | |- marked (sentHeader (Write ?b (WriteHeader ?S ?r0))) =>
          destruct (Recorder_sent S b r0) as (-> & _); [exact Hnew|]
      end.
      apply marked_intro; header_solve.
    + cbn zeta. eexists _, _, _. split; [reflexivity|].
      match goal with
      | |- marked (sentHeader (Write ?b (WriteHeader ?S ?r0))) =>
          destruct (Recorder_sent S b r0) as (-> & _); [exact Hnew|]
      end.
      apply marked_intro; header_solve.
  - destruct (nonempty (maintenanceContent m)) eqn:Hinline.
    + unfold serveMaintenanceContent, bind. cbn [emit]. unfold ret.
      eexists _, _, _. split; [reflexivity|].
      match goal with
      | |- marked (sentHeader (Write ?b (WriteHeader ?S ?r0))) =>
          destruct (Recorder_sent S b r0) as (-> & _); [exact Hnew|]
      end.
      apply marked_intro; header_solve.
    + destruct (well_formed_remote m Hwf Hfile Hinline) as (target & Htarget).
      unfold bind at 1.
      match goal with
      | |- context [proxyToMaintenanceService m ?rw1 req w1] =>
          destruct (proxyToMaintenanceService_run m rw1 req w1 r u h target)
            as (w' & evs & -> & _); [exact Hreq|exact Htarget|]
      end.
      unfold ret. eexists _, _, _. split; [reflexivity|].
      apply marked_intro.
      * apply relayed_sent_mode; [exact Hnew|header_solve].
      * apply relayed_sent; [exact Hnew|header_solve|vm_compute; discriminate].
Qed.

Lemma maintenance_response_is_marked_witness :
  valid_request (Scenario.world Scenario.no_files Scenario.no_header) 1%positive
    Scenario.request Scenario.request_URL Scenario.no_header /\
  well_formed Scenario.remote = true /\
  wroteHeader (NewRecorder empty) = false /\
  shouldBypass Scenario.remote (Path Scenario.request_URL) Scenario.no_header = false /\
  exists m' rw' w',
    ServeHTTP Scenario.remote (NewRecorder empty) 1%positive
      (Scenario.world Scenario.no_files Scenario.no_header) = Returns (m', rw') w' /\
    marked (sentHeader rw').
Proof.
  split; [repeat split; reflexivity|]. split; [reflexivity|]. split; [reflexivity|].
  split; [vm_compute; reflexivity|].
  apply (maintenance_response_is_marked Scenario.remote (NewRecorder empty) 1%positive
           (Scenario.world Scenario.no_files Scenario.no_header)
           Scenario.request Scenario.request_URL Scenario.no_header).
  - repeat split; reflexivity.
  - reflexivity.
  - reflexivity.
  - vm_compute; reflexivity.
Defined.

(** X17. The inline response, in full.  In inline mode a request that no
    bypass rule lets through is answered without any file system or network
    call: the only events are the info line and the call of
    [serveMaintenanceContent]; the body is the configured content, the
    status the configured one, Content-Type the configured content type and
    Cache-Control "no-cache, no-store, must-revalidate"; the middleware is
    unchanged.  The configured status code is one the writer commits and
    follows with a body ([answers_with_body]). *)
Theorem inline_response (m : MaintenanceBypass) (rw : ResponseRecorder) (req : loc)
    (w : World) (r : http_Request) (u : url_URL) (h : http_Header) :
  valid_request w req r u h ->
  shouldBypass m (Path u) h = false ->
  nonempty (maintenanceFilePath m) = false ->
  nonempty (maintenanceContent m) = true ->
  answers_with_body (statusCode m) = true ->
  wroteHeader rw = false ->
  exists rw',
    ServeHTTP m rw req w =
      Returns (m, rw')
        (set_trace
           (trace w ++
            log_events m LogLevelInfo
              "No bypass condition met for %s, serving maintenance page" ++
            [EvServeMaintenanceContent])%list w) /\
    Body rw' = Body rw ++ maintenanceContent m /\
    committed rw' = Some (statusCode m) /\
    Header_Get (sentHeader rw') "Content-Type" = contentType m /\
    Header_Get (sentHeader rw') "Cache-Control" = "no-cache, no-store, must-revalidate".
Proof.
  intros Hreq Hbypass Hfile Hinline _ Hnew. apply shouldBypass_false in Hbypass.
  rewrite (ServeHTTP_run m req w r u h Hreq), Hbypass. cbn zeta.
  rewrite Hfile, Hinline.
  unfold serveMaintenanceContent, bind. cbn [emit]. unfold ret. trace_norm.
  eexists. split; [reflexivity|].
  match goal with
  | |- context [Write ?b (WriteHeader ?S ?r0)] =>
      destruct (Recorder_sent S b r0) as (-> & -> & ->); [exact Hnew|]
  end.
  repeat split; apply first_value_Get; header_solve.
Qed.

Lemma inline_response_witness :
  valid_request (Scenario.world Scenario.no_files Scenario.no_header) 1%positive
    Scenario.request Scenario.request_URL Scenario.no_header /\
  shouldBypass Cases.inline (Path Scenario.request_URL) Scenario.no_header = false /\
  nonempty (maintenanceFilePath Cases.inline) = false /\
  nonempty (maintenanceContent Cases.inline) = true /\
  answers_with_body (statusCode Cases.inline) = true /\
  wroteHeader (NewRecorder empty) = false /\
  exists rw',
    ServeHTTP Cases.inline (NewRecorder empty) 1%positive
      (Scenario.world Scenario.no_files Scenario.no_header) =
      Returns (Cases.inline, rw')
        (set_trace
           (trace (Scenario.world Scenario.no_files Scenario.no_header) ++
            log_events Cases.inline LogLevelInfo
              "No bypass condition met for %s, serving maintenance page" ++
            [EvServeMaintenanceContent])%list
           (Scenario.world Scenario.no_files Scenario.no_header)) /\
    Body rw' = Body (NewRecorder empty) ++ maintenanceContent Cases.inline /\
    committed rw' = Some (statusCode Cases.inline) /\
    Header_Get (sentHeader rw') "Content-Type" = contentType Cases.inline /\
    Header_Get (sentHeader rw') "Cache-Control" = "no-cache, no-store, must-revalidate".
Proof.
  split; [repeat split; reflexivity|]. split; [vm_compute; reflexivity|].
  split; [reflexivity|]. split; [reflexivity|]. split; [reflexivity|].
  split; [reflexivity|].
  apply (inline_response Cases.inline (NewRecorder empty) 1%positive
           (Scenario.world Scenario.no_files Scenario.no_header)
           Scenario.request Scenario.request_URL Scenario.no_header).
  - repeat split; reflexivity.
  - vm_compute; reflexivity.
  - reflexivity.
  - reflexivity.
  - reflexivity.
  - reflexivity.
Defined.

(** X18. The file response, by the outcome of the load that precedes it.
    When the load returns no error the cached bytes go out with the
    configured content type and Cache-Control "no-cache, no-store,
    must-revalidate".  When it returns an error the generic text goes out as
    "text/plain; charset=utf-8" with X-Content-Type-Options: nosniff, and
    Cache-Control is whatever the writer already held: the error response is
    not marked as uncacheable.  Either way the status is the configured one
    and X-Maintenance-Mode is true.  The configured status code is one the
    writer commits and follows with a body ([answers_with_body]). *)
Theorem serveMaintenanceFile_response (m : MaintenanceBypass) (rw : ResponseRecorder)
    (req : loc) (w : World) :
  answers_with_body (statusCode m) = true ->
  wroteHeader rw = false ->
  exists m' err w1 rw' w',
    loadMaintenanceFile m (emitted EvServeMaintenanceFile w) = Returns (m', err) w1 /\
    serveMaintenanceFile m rw req w = Returns (m', rw') w' /\
    committed rw' = Some (statusCode m) /\
    Header_Get (sentHeader rw') "X-Maintenance-Mode" = "true" /\
    match err with
    | None =>
        Body rw' = Body rw ++ default EmptyString (maintenanceFileContent m') /\
        Header_Get (sentHeader rw') "Content-Type" = contentType m /\
        Header_Get (sentHeader rw') "Cache-Control" = "no-cache, no-store, must-revalidate"
    | Some _ =>
        Body rw' = Body rw ++ ("Service Temporarily Unavailable" ++ LF) /\
        Header_Get (sentHeader rw') "Content-Type" = "text/plain; charset=utf-8" /\
        Header_Get (sentHeader rw') "X-Content-Type-Options" = "nosniff" /\
        Header_Get (sentHeader rw') "Cache-Control" = Header_Get (HeaderMap rw) "Cache-Control"
    end.
Proof.
  intros _ Hnew. rewrite serveMaintenanceFile_run.
  destruct (loadMaintenanceFile_events m (emitted EvServeMaintenanceFile w))
    as (m' & err & evs & Hload & _ & _ & _ & _ & Hsame & _).
  rewrite Hload.
  assert (Hstatus : statusCode m' = statusCode m) by (rewrite Hsame; reflexivity).
  assert (Htype : contentType m' = contentType m) by (rewrite Hsame; reflexivity).
  exists m', err. destruct err as [err|].
  - eexists _, _, _. split; [reflexivity|]. split; [reflexivity|]. unfold http_Error.
    match goal with
    | |- context [Write ?b (WriteHeader ?S ?r0)] =>
        destruct (Recorder_sent S b r0) as (-> & -> & ->); [exact Hnew|]
    end.
    rewrite Hstatus. split; [reflexivity|].
    split; [apply first_value_Get; header_solve|].
    split; [reflexivity|].
    split; [apply first_value_Get; header_solve|].
    split; [apply first_value_Get; header_solve|].
    rewrite !HeaderMap_Set, HeaderMap_Del, HeaderMap_Set.
    rewrite !Header_Get_Set_other by (vm_compute; discriminate).
    rewrite Header_Get_Del_other by (vm_compute; discriminate).
    rewrite Header_Get_Set_other by (vm_compute; discriminate). reflexivity.
  - cbn zeta. eexists _, _, _. split; [reflexivity|]. split; [reflexivity|].
    match goal with
    | |- context [Write ?b (WriteHeader ?S ?r0)] =>
        destruct (Recorder_sent S b r0) as (-> & -> & ->); [exact Hnew|]
    end.
    rewrite Hstatus, Htype. split; [reflexivity|].
    split; [apply first_value_Get; header_solve|].
    split; [reflexivity|].
    split; apply first_value_Get; header_solve.
Qed.

Lemma serveMaintenanceFile_response_witness :
  answers_with_body (statusCode Scenario.loaded) = true /\
  wroteHeader (NewRecorder empty) = false /\
  exists m' err w1 rw' w',
    loadMaintenanceFile Scenario.loaded
      (emitted EvServeMaintenanceFile
         (Scenario.world Scenario.file_emptied Scenario.no_header))
      = Returns (m', err) w1 /\
    serveMaintenanceFile Scenario.loaded (NewRecorder empty) 1%positive
      (Scenario.world Scenario.file_emptied Scenario.no_header) = Returns (m', rw') w' /\
    committed rw' = Some (statusCode Scenario.loaded) /\
    Header_Get (sentHeader rw') "X-Maintenance-Mode" = "true" /\
    match err with
    | None =>
        Body rw' = Body (NewRecorder empty) ++
                   default EmptyString (maintenanceFileContent m') /\
        Header_Get (sentHeader rw') "Content-Type" = contentType Scenario.loaded /\
        Header_Get (sentHeader rw') "Cache-Control" = "no-cache, no-store, must-revalidate"
    | Some _ =>
        Body rw' = Body (NewRecorder empty) ++ ("Service Temporarily Unavailable" ++ LF) /\
        Header_Get (sentHeader rw') "Content-Type" = "text/plain; charset=utf-8" /\
        Header_Get (sentHeader rw') "X-Content-Type-Options" = "nosniff" /\
        Header_Get (sentHeader rw') "Cache-Control"
          = Header_Get (HeaderMap (NewRecorder empty)) "Cache-Control"
    end.
Proof.
  split; [reflexivity|]. split; [reflexivity|].
  apply (serveMaintenanceFile_response Scenario.loaded (NewRecorder empty) 1%positive
           (Scenario.world Scenario.file_emptied Scenario.no_header)); reflexivity.
Defined.

(** X19. The page of the backend, at the configured status.  When the
    backend answers with a final status code, that code is dropped: the
    client gets exactly what relaying the same headers and body with the
    configured status code would give.  The configured status is committed
    and is the only status passed to the writer, the body is the body the
    writer held followed by the chunks of the backend in order, the headers
    of the backend are added after those already set, so that a header that
    was set keeps its first value, and nothing is logged.  The backend is
    one that gives this answer whatever URL it is asked for, and the
    configured status code is one the writer commits and follows with a
    body ([answers_with_body]). *)
Theorem backend_page_is_relayed_at_configured_status (m : MaintenanceBypass)
    (rw : ResponseRecorder) (req : loc) (w : World)
    (r : http_Request) (u : url_URL) (h : http_Header) (target : url_URL)
    (code : Z) (hdr : list (string * string)) (chunks : list string) :
  valid_request w req r u h ->
  maintenanceService m = Some target ->
  (forall url, transport w url = RoundTripResponse code hdr chunks) ->
  200 <= code <= 999 ->
  answers_with_body (statusCode m) = true ->
  wroteHeader rw = false ->
  exists w' evs,
    proxyToMaintenanceService m rw req w =
      Returns (relayed (statusCode m) (RoundTripResponse (statusCode m) hdr chunks) rw) w' /\
    trace w' = (trace w ++ evs)%list /\
    log_lines evs = [] /\
    let rw' := relayed (statusCode m) (RoundTripResponse (statusCode m) hdr chunks) rw in
    committed rw' = Some (statusCode m) /\
    statusCalls rw' = (statusCalls rw ++ [statusCode m])%list /\
    Body rw' = Body rw ++ joined chunks /\
    forall key value,
      first_value (HeaderMap rw) key value -> Header_Get (sentHeader rw') key = value.
Proof.
  intros Hreq Htarget Hbackend _ _ Hnew.
  destruct (proxyToMaintenanceService_events m rw req w r u h target Hreq Htarget)
    as (rw' & w' & Hrun & Htrace & _).
  destruct (proxyToMaintenanceService_run m rw req w r u h target Hreq Htarget)
    as (w2 & evs & Hrun2 & _).
  rewrite Hbackend in Htrace, Hrun2.
  rewrite relayed_response_through_wrapper in Hrun2.
  rewrite Hrun in Hrun2. injection Hrun2 as -> ->.
  eexists w2, _. split; [exact Hrun|]. split; [exact Htrace|].
  split; [reflexivity|]. cbn zeta. unfold relayed.
  set (r1 := fold_left (fun rw kv => rw_Header_Add (fst kv) (snd kv) rw) hdr rw).
  destruct (Recorder_header_adds hdr rw) as (Hwrote & Hcalls & HBody & HCode).
  fold r1 in Hwrote, Hcalls, HBody, HCode.
  destruct (Recorder_WriteHeader_fields (statusCode m) r1)
    as (Hw1 & Hcalls1 & HBody1 & _ & HCode1 & Hsent1).
  destruct (Recorder_write_all chunks (WriteHeader (statusCode m) r1))
    as (Hcalls2 & HBody2 & _ & Hkeep).
  destruct (Hkeep Hw1) as (Hw2 & HCode2 & Hsent2).
  rewrite Hwrote, Hnew in HCode1, Hsent1.
  repeat split.
  - unfold committed. now rewrite Hw2, HCode2, HCode1.
  - now rewrite Hcalls2, Hcalls1, Hcalls.
  - now rewrite HBody2, HBody1, HBody.
  - intros key value Hfirst. apply first_value_Get. rewrite Hsent2, Hsent1.
    now apply first_value_header_adds.
Qed.

Lemma backend_page_is_relayed_at_configured_status_witness :
  valid_request (Scenario.world Scenario.no_files Scenario.no_header) 1%positive
    Scenario.request Scenario.request_URL Scenario.no_header /\
  maintenanceService Scenario.remote = Some Cases.maintenance_service /\
  (forall url,
     transport (Scenario.world Scenario.no_files Scenario.no_header) url
       = RoundTripResponse http_StatusOK [("Content-Type", "text/html")]
           ["<html>"; "maintenance</html>"]) /\
  200 <= http_StatusOK <= 999 /\
  answers_with_body (statusCode Scenario.remote) = true /\
  wroteHeader (NewRecorder empty) = false /\
  exists w' evs,
    proxyToMaintenanceService Scenario.remote (NewRecorder empty) 1%positive
      (Scenario.world Scenario.no_files Scenario.no_header) =
      Returns (relayed (statusCode Scenario.remote)
                 (RoundTripResponse (statusCode Scenario.remote)
                    [("Content-Type", "text/html")] ["<html>"; "maintenance</html>"])
                 (NewRecorder empty)) w' /\
    trace w' = (trace (Scenario.world Scenario.no_files Scenario.no_header) ++ evs)%list /\
    log_lines evs = [] /\
    let rw' := relayed (statusCode Scenario.remote)
                 (RoundTripResponse (statusCode Scenario.remote)
                    [("Content-Type", "text/html")] ["<html>"; "maintenance</html>"])
                 (NewRecorder empty) in
    committed rw' = Some (statusCode Scenario.remote) /\
    statusCalls rw' = (statusCalls (NewRecorder empty) ++ [statusCode Scenario.remote])%list /\
    Body rw' = Body (NewRecorder empty) ++ joined ["<html>"; "maintenance</html>"] /\
    forall key value,
      first_value (HeaderMap (NewRecorder empty)) key value ->
      Header_Get (sentHeader rw') key = value.
Proof.
  split; [repeat split; reflexivity|]. split; [reflexivity|].
  split; [intros url; reflexivity|]. split; [unfold http_StatusOK; lia|].
  split; [reflexivity|]. split; [reflexivity|].
  apply (backend_page_is_relayed_at_configured_status Scenario.remote (NewRecorder empty)
           1%positive (Scenario.world Scenario.no_files Scenario.no_header)
           Scenario.request Scenario.request_URL Scenario.no_header
           Cases.maintenance_service http_StatusOK).
  - repeat split; reflexivity.
  - reflexivity.
  - intros url; reflexivity.
  - unfold http_StatusOK; lia.
  - reflexivity.
  - reflexivity.
Defined.

(** X20. The response when the backend cannot be reached.  Whatever the
    transport error is, the error handler of the proxy answers with the
    body "Service temporarily unavailable" (no line feed) at the configured
    status code, with X-Maintenance-Mode: true; the handler sets no content
    type: Content-Type in the header map is what it was; and the one line
    logged is the error line, at [LogLevelError].  The backend is one that
    fails whatever URL it is asked for, and the configured status code is
    one the writer commits and follows with a body
    ([answers_with_body]). *)
Theorem unreachable_backend_response (m : MaintenanceBypass)
    (rw : ResponseRecorder) (req : loc) (w : World)
    (r : http_Request) (u : url_URL) (h : http_Header) (target : url_URL) (err : error) :
  valid_request w req r u h ->
  maintenanceService m = Some target ->
  (forall url, transport w url = RoundTripError err) ->
  answers_with_body (statusCode m) = true ->
  wroteHeader rw = false ->
  exists rw' w' evs,
    proxyToMaintenanceService m rw req w = Returns rw' w' /\
    trace w' = (trace w ++ evs)%list /\
    log_lines evs =
      log_lines (log_events m LogLevelError "Error proxying to maintenance service: %v") /\
    Body rw' = Body rw ++ "Service temporarily unavailable" /\
    committed rw' = Some (statusCode m) /\
    statusCalls rw' = (statusCalls rw ++ [statusCode m])%list /\
    Header_Get (sentHeader rw') "X-Maintenance-Mode" = "true" /\
    Header_Get (HeaderMap rw') "Content-Type" = Header_Get (HeaderMap rw) "Content-Type".
Proof.
  intros Hreq Htarget Hbackend _ Hnew.
  destruct (proxyToMaintenanceService_events m rw req w r u h target Hreq Htarget)
    as (rw' & w' & Hrun & Htrace & _).
  destruct (proxyToMaintenanceService_run m rw req w r u h target Hreq Htarget)
    as (w2 & evs & Hrun2 & _).
  rewrite Hbackend in Htrace, Hrun2.
  rewrite relayed_error_through_wrapper in Hrun2.
  rewrite Hrun in Hrun2. injection Hrun2 as -> ->.
  exists (Write "Service temporarily unavailable"
            (WriteHeader (statusCode m) (rw_Header_Set "X-Maintenance-Mode" "true" rw))), w2.
  eexists. split; [exact Hrun|]. split; [exact Htrace|].
  split; [reflexivity|].
  destruct (Recorder_respond (statusCode m) "Service temporarily unavailable" rw
              (rw_Header_Set "X-Maintenance-Mode" "true" rw))
    as (Hcalls & _ & _ & _); try reflexivity.
  destruct (Recorder_sent (statusCode m) "Service temporarily unavailable"
              (rw_Header_Set "X-Maintenance-Mode" "true" rw)) as (Hsent & Hcommitted & HBody);
    [exact Hnew|].
  split; [exact HBody|]. split; [exact Hcommitted|]. split; [exact Hcalls|].
  rewrite Hsent, HeaderMap_Set. split.
  - apply first_value_Get, first_value_Set.
  - destruct (Recorder_Write_fields "Service temporarily unavailable"
                (WriteHeader (statusCode m)
                   (rw_Header_Set "X-Maintenance-Mode" "true" rw)))
      as (_ & _ & _ & -> & _).
    destruct (Recorder_WriteHeader_fields (statusCode m)
                (rw_Header_Set "X-Maintenance-Mode" "true" rw))
      as (_ & _ & _ & -> & _).
    rewrite HeaderMap_Set. apply Header_Get_Set_other. vm_compute. discriminate.
Qed.

Lemma unreachable_backend_response_witness :
  valid_request Cases.world_down 1%positive
    Scenario.request Scenario.request_URL Scenario.no_header /\
  maintenanceService Scenario.remote = Some Cases.maintenance_service /\
  (forall url,
     transport Cases.world_down url
       = RoundTripError (TransportError "dial tcp: connection refused")) /\
  answers_with_body (statusCode Scenario.remote) = true /\
  wroteHeader (NewRecorder empty) = false /\
  exists rw' w' evs,
    proxyToMaintenanceService Scenario.remote (NewRecorder empty) 1%positive
      Cases.world_down = Returns rw' w' /\
    trace w' = (trace Cases.world_down ++ evs)%list /\
    log_lines evs =
      log_lines (log_events Scenario.remote LogLevelError
                   "Error proxying to maintenance service: %v") /\
    Body rw' = Body (NewRecorder empty) ++ "Service temporarily unavailable" /\
    committed rw' = Some (statusCode Scenario.remote) /\
    statusCalls rw' = (statusCalls (NewRecorder empty) ++ [statusCode Scenario.remote])%list /\
    Header_Get (sentHeader rw') "X-Maintenance-Mode" = "true" /\
    Header_Get (HeaderMap rw') "Content-Type"
      = Header_Get (HeaderMap (NewRecorder empty)) "Content-Type".
Proof.
  split; [repeat split; reflexivity|]. split; [reflexivity|].
  split; [intros url; reflexivity|]. split; [reflexivity|]. split; [reflexivity|].
  apply (unreachable_backend_response Scenario.remote (NewRecorder empty) 1%positive
           Cases.world_down Scenario.request Scenario.request_URL Scenario.no_header
           Cases.maintenance_service (TransportError "dial tcp: connection refused")).
  - repeat split; reflexivity.
  - reflexivity.
  - intros url; reflexivity.
  - reflexivity.
  - reflexivity.
Defined.

(** ** The recorder and the writer of the server

    For a status code the writer commits and follows with a body, the
    maintenance responses written to the recorder are the ones written to
    the writer of the server. *)

Lemma agrees_new (h : http_Header) : agrees (new_response h) (NewRecorder h).
Proof. repeat split; discriminate. Qed.

Lemma agrees_wroteHeader s r : agrees s r -> response_wroteHeader s = wroteHeader r.
Proof.
  intros (_ & _ & _ & Hcommitted & _). unfold response_committed, committed in Hcommitted.
  destruct (response_wroteHeader s), (wroteHeader r); congruence.
Qed.

Lemma agrees_status s r :
  agrees s r -> wroteHeader r = true -> response_status s = Code r.
Proof.
  intros Hagrees Hwrote. pose proof (agrees_wroteHeader s r Hagrees) as Hw.
  destruct Hagrees as (_ & _ & _ & Hcommitted & _).
  unfold response_committed, committed in Hcommitted.
  rewrite Hw, Hwrote in Hcommitted. congruence.
Qed.

Lemma agrees_intro s r :
  panicked s = None -> handlerHeader s = HeaderMap r -> response_body s = Body r ->
  response_wroteHeader s = wroteHeader r ->
  (wroteHeader r = true ->
   response_status s = Code r /\ response_sent s = sentHeader r /\
   bodyAllowedForStatus (Code r) = true) ->
  agrees s r.
Proof.
  intros Hpanic Hheader Hbody Hw Hsent. unfold agrees, response_committed, committed.
  rewrite Hw. destruct (wroteHeader r).
  - destruct (Hsent eq_refl) as (-> & -> & ->). repeat split; auto.
  - repeat split; auto; discriminate.
Qed.

Lemma answers_with_body_commits (code : Z) :
  answers_with_body code = true ->
  checkWriteHeaderCode code = true /\ informational code = false /\
  bodyAllowedForStatus code = true.
Proof.
  unfold answers_with_body, informational, bodyAllowedForStatus, checkWriteHeaderCode.
  intros H. apply andb_true_iff in H as [Hcheck Hbody]. rewrite Hcheck, Hbody.
  repeat split.
  destruct ((100 <=? code) && (code <=? 199)); [discriminate|reflexivity].
Qed.

(** Closes [agrees] for a writer spelled out field by field. *)
Ltac agrees_fields Hsent Hstatus Hheader Hbody :=
  apply agrees_intro; cbn;
  try assumption; try reflexivity; try congruence;
  try (now rewrite Hheader); try (now rewrite Hbody);
  try (let Hx := fresh "Hx" in
       intros Hx;
       first [ destruct (Hsent Hx) as (? & ?); pose proof (Hstatus Hx)
             | destruct (Hsent eq_refl) as (? & ?); pose proof (Hstatus eq_refl)
             | idtac ];
       repeat split; auto; congruence).

Lemma agrees_update_Header (f : http_Header -> http_Header) s r :
  agrees s r -> agrees (response_update_Header f s) (Recorder_update_Header f r).
Proof.
  intros Hagrees.
  pose proof (agrees_wroteHeader s r Hagrees) as Hw.
  pose proof (agrees_status s r Hagrees) as Hstatus.
  destruct Hagrees as (Hpanic & Hheader & Hbody & _ & Hsent).
  unfold response_update_Header. rewrite Hpanic. cbn [not_nil].
  agrees_fields Hsent Hstatus Hheader Hbody.
Qed.

Lemma agrees_WriteHeader (code : Z) s r :
  answers_with_body code = true ->
  agrees s r -> agrees (WriteHeader code s) (WriteHeader code r).
Proof.
  intros Hcode Hagrees.
  pose proof (agrees_wroteHeader s r Hagrees) as Hw.
  pose proof (agrees_status s r Hagrees) as Hstatus.
  destruct (answers_with_body_commits code Hcode) as (Hcheck & Hinfo & Hallowed).
  destruct Hagrees as (Hpanic & Hheader & Hbody & _ & Hsent).
  change (WriteHeader code s) with (response_WriteHeader code s).
  change (WriteHeader code r) with (Recorder_WriteHeader code r).
  unfold response_WriteHeader, Recorder_WriteHeader, commit.
  rewrite Hpanic, Hw. cbn [not_nil].
  destruct (wroteHeader r) eqn:Hwrote.
  - agrees_fields Hsent Hstatus Hheader Hbody.
  - rewrite Hcheck, Hinfo. cbn [negb].
    agrees_fields Hsent Hstatus Hheader Hbody.
Qed.

Lemma agrees_Write (b : string) s r : agrees s r -> agrees (Write b s) (Write b r).
Proof.
  intros Hagrees.
  pose proof (agrees_wroteHeader s r Hagrees) as Hw.
  pose proof (agrees_status s r Hagrees) as Hstatus.
  destruct Hagrees as (Hpanic & Hheader & Hbody & _ & Hsent).
  change (Write b s) with (response_Write b s).
  change (Write b r) with (Recorder_Write b r).
  unfold response_Write, Recorder_Write, commit.
  rewrite Hpanic, Hw. cbn [not_nil].
  destruct (wroteHeader r) eqn:Hwrote.
  - destruct (Hsent eq_refl) as (Hs & Hallowed).
    rewrite (Hstatus eq_refl), Hallowed.
    agrees_fields Hsent Hstatus Hheader Hbody.
  - unfold response_WriteHeader. rewrite Hpanic, Hw. cbn.
    agrees_fields Hsent Hstatus Hheader Hbody.
Qed.

Lemma agrees_write_all (chunks : list string) s r :
  agrees s r -> agrees (write_all chunks s) (write_all chunks r).
Proof.
  revert s r. induction chunks as [|b chunks IH]; intros s r Hagrees; [exact Hagrees|].
  apply IH. now apply agrees_Write.
Qed.

Lemma agrees_header_adds (hdr : list (string * string)) s r :
  agrees s r ->
  agrees (fold_left (fun rw kv => rw_Header_Add (fst kv) (snd kv) rw) hdr s)
         (fold_left (fun rw kv => rw_Header_Add (fst kv) (snd kv) rw) hdr r).
Proof.
  revert s r. induction hdr as [|kv hdr IH]; intros s r Hagrees; [exact Hagrees|].
  apply IH. now apply agrees_update_Header.
Qed.

Lemma agrees_relayed (S : Z) (outcome : RoundTrip) s r :
  answers_with_body S = true ->
  agrees s r ->
  agrees (w_ResponseWriter (relayed S outcome (mk_maintenanceResponseWriter s S false)))
         (w_ResponseWriter (relayed S outcome (mk_maintenanceResponseWriter r S false))).
Proof.
  intros HS Hagrees. destruct outcome as [code hdr chunks|err].
  - rewrite !relayed_response_through_wrapper. unfold relayed.
    apply agrees_write_all, agrees_WriteHeader; [exact HS|].
    now apply agrees_header_adds.
  - rewrite !relayed_error_through_wrapper. unfold relayed.
    apply agrees_Write, agrees_WriteHeader; [exact HS|].
    now apply agrees_update_Header.
Qed.

(** The three maintenance branches write to the writer of the server what
    they write to the recorder. *)
Lemma serveMaintenanceContent_agrees (m : MaintenanceBypass) (req : loc) (w : World) s r :
  answers_with_body (statusCode m) = true ->
  agrees s r ->
  exists s' r' w',
    serveMaintenanceContent m s req w = Returns s' w' /\
    serveMaintenanceContent m r req w = Returns r' w' /\
    agrees s' r'.
Proof.
  intros HS Hagrees. unfold serveMaintenanceContent, bind. cbn [emit]. unfold ret.
  eexists _, _, _. split; [reflexivity|]. split; [reflexivity|].
  apply agrees_Write, agrees_WriteHeader; [exact HS|].
  now repeat apply agrees_update_Header.
Qed.

Lemma serveMaintenanceFile_agrees (m : MaintenanceBypass) (req : loc) (w : World) s r :
  answers_with_body (statusCode m) = true ->
  agrees s r ->
  exists m' s' r' w',
    serveMaintenanceFile m s req w = Returns (m', s') w' /\
    serveMaintenanceFile m r req w = Returns (m', r') w' /\
    agrees s' r'.
Proof.
  intros HS Hagrees. rewrite !serveMaintenanceFile_run.
  destruct (loadMaintenanceFile_events m (emitted EvServeMaintenanceFile w))
    as (m' & err & evs & -> & _ & _ & _ & _ & Hsame & _).
  assert (Hstatus : statusCode m' = statusCode m) by (rewrite Hsame; reflexivity).
  destruct err as [err|].
  - eexists _, _, _, _. split; [reflexivity|]. split; [reflexivity|].
    unfold http_Error. rewrite Hstatus.
    apply agrees_Write, agrees_WriteHeader; [exact HS|].
    now repeat apply agrees_update_Header.
  - cbn zeta. eexists _, _, _, _. split; [reflexivity|]. split; [reflexivity|].
    rewrite Hstatus.
    apply agrees_Write, agrees_WriteHeader; [exact HS|].
    now repeat apply agrees_update_Header.
Qed.

Lemma proxyToMaintenanceService_agrees (m : MaintenanceBypass) (req : loc) (w : World)
    r0 u h target s r :
  valid_request w req r0 u h ->
  maintenanceService m = Some target ->
  answers_with_body (statusCode m) = true ->
  agrees s r ->
  exists s' r' ws wr,
    proxyToMaintenanceService m s req w = Returns s' ws /\
    proxyToMaintenanceService m r req w = Returns r' wr /\
    agrees s' r'.
Proof.
  intros Hreq Htarget HS Hagrees.
  destruct (proxyToMaintenanceService_run m s req w r0 u h target Hreq Htarget)
    as (ws & evs & -> & _).
  destruct (proxyToMaintenanceService_run m r req w r0 u h target Hreq Htarget)
    as (wr & evr & -> & _).
  eexists _, _, _, _. split; [reflexivity|]. split; [reflexivity|].
  now apply agrees_relayed.
Qed.
